(** * bee-dashboard: postage-stamp purchase form and deposit modal

    A shallow embedding of
      - [src/pages/stamps/PostageStampAdvancedCreation.tsx]
      - [src/containers/DepositModal.tsx]
    together with the JavaScript primitives ([parseInt], [BigInt], string
    truthiness) and the part of bignumber.js (the string constructor and the
    predicates [isNaN], [isInteger], [isLessThan], [isGreaterThan],
    [isLessThanOrEqualTo]) that the two components call.

    Conventions.
      - A JavaScript string is a [string]; each [ascii] is one code unit
        (code units below 256, which covers every character the parsers
        below distinguish except the white space above U+00FF).
      - A JavaScript number produced by [parseInt] is [NaN] or [Num z], the
        double nearest to the integer [z].  The components compare such
        numbers with 0, 17 and 255 only; rounding to a double is monotone and
        fixes these three values, so the comparisons are made on [z].
      - A [bigint] is a [Z].
      - React state is a record; a handler is a function on it.  An async
        handler is run to completion and yields the list of effects it
        performed, in order. *)

From Stdlib Require Import String Ascii ZArith NArith List Bool Lia DecimalString.
From Stdlib Require DecimalPos.
Import ListNotations.

Local Open Scope string_scope.
Local Open Scope Z_scope.

(* ================================================================== *)
(** * JavaScript primitives *)
(* ================================================================== *)

Module JS.

(** ** Characters *)

Definition code (c : ascii) : N := N_of_ascii c.

Definition in_range (lo hi : N) (c : ascii) : bool :=
  ((lo <=? code c) && (code c <=? hi))%N.

Definition is_digit (c : ascii) : bool := in_range 48 57 c.
Definition is_lower (c : ascii) : bool := in_range 97 122 c.
Definition is_upper (c : ascii) : bool := in_range 65 90 c.

(** [\w] of a regular expression. *)
Definition is_word (c : ascii) : bool :=
  is_digit c || is_lower c || is_upper c || Ascii.eqb c "_".

(** [\s] of a regular expression and [StrWhiteSpaceChar] of the language
    specification, below 256: TAB, LF, VT, FF, CR, SP, NBSP. *)
Definition is_space (c : ascii) : bool :=
  in_range 9 13 c || (code c =? 32)%N || (code c =? 160)%N.

Definition toLowerChar (c : ascii) : ascii :=
  if is_upper c then ascii_of_N (code c + 32) else c.

Definition toUpperChar (c : ascii) : ascii :=
  if is_lower c then ascii_of_N (code c - 32) else c.

(** Value of a digit in radixes up to 36: [0-9], then [a-z] or [A-Z]. *)
Definition digit_value (c : ascii) : option N :=
  if is_digit c then Some (code c - 48)%N
  else if is_lower c then Some (code c - 87)%N
  else if is_upper c then Some (code c - 55)%N
  else None.

Definition is_radix_digit (R : N) (c : ascii) : bool :=
  match digit_value c with
  | Some v => (v <? R)%N
  | None => false
  end.

(** ** Strings *)

(** [Boolean(s)]: a string is truthy when it is not empty. *)
Definition truthy (s : string) : bool :=
  match s with
  | EmptyString => false
  | String _ _ => true
  end.

Fixpoint forall_chars (p : ascii -> bool) (s : string) : bool :=
  match s with
  | EmptyString => true
  | String c r => p c && forall_chars p r
  end.

(** Longest prefix whose characters satisfy [p], and the rest. *)
Fixpoint span (p : ascii -> bool) (s : string) : string * string :=
  match s with
  | EmptyString => (EmptyString, EmptyString)
  | String c r =>
      if p c then let '(a, b) := span p r in (String c a, b)
      else (EmptyString, s)
  end.

Fixpoint trimStart (s : string) : string :=
  match s with
  | EmptyString => EmptyString
  | String c r => if is_space c then trimStart r else s
  end.

Fixpoint trimEnd (s : string) : string :=
  match s with
  | EmptyString => EmptyString
  | String c r =>
      match trimEnd r with
      | EmptyString => if is_space c then EmptyString else String c EmptyString
      | r' => String c r'
      end
  end.

Definition trim (s : string) : string := trimEnd (trimStart s).

Fixpoint map_chars (f : ascii -> ascii) (s : string) : string :=
  match s with
  | EmptyString => EmptyString
  | String c r => String (f c) (map_chars f r)
  end.

Definition toLowerCase : string -> string := map_chars toLowerChar.
Definition toUpperCase : string -> string := map_chars toUpperChar.

(** [s.indexOf(c)] for a one-character needle: the first position, or -1. *)
Fixpoint indexOf (c : ascii) (s : string) : Z :=
  match s with
  | EmptyString => -1
  | String d r =>
      if Ascii.eqb d c then 0
      else let i := indexOf c r in if i <? 0 then -1 else i + 1
  end.

(** Value of a digit string in radix [R], most significant digit first.
    A character that is not a digit counts as 0; callers check the digits. *)
Fixpoint digits_from (R : N) (acc : N) (s : string) : N :=
  match s with
  | EmptyString => acc
  | String c r =>
      let v := match digit_value c with Some v => v | None => 0%N end in
      digits_from R (acc * R + v)%N r
  end.

Definition digits_value (R : N) (s : string) : Z := Z.of_N (digits_from R 0 s).

(** ** Numbers *)

Inductive number : Type :=
| NaN : number
| Num : Z -> number.

Definition isNaN (x : number) : bool :=
  match x with NaN => true | Num _ => false end.

(** Comparisons with a literal; any comparison with [NaN] is false. *)
Definition num_lt (x : number) (k : Z) : bool :=
  match x with NaN => false | Num z => z <? k end.
Definition num_gt (x : number) (k : Z) : bool :=
  match x with NaN => false | Num z => k <? z end.
Definition num_le (x : number) (k : Z) : bool :=
  match x with NaN => false | Num z => z <=? k end.

(** An optional sign in front of a numeral. *)
Definition take_sign (s : string) : Z * string :=
  match s with
  | String c r =>
      if Ascii.eqb c "-" then (-1, r)
      else if Ascii.eqb c "+" then (1, r)
      else (1, s)
  | EmptyString => (1, s)
  end.

(** A ["0x"] or ["0X"] in front of [s], removed. *)
Definition strip_0x (s : string) : option string :=
  match s with
  | String c (String x r) =>
      if Ascii.eqb c "0" && (Ascii.eqb x "x" || Ascii.eqb x "X")
      then Some r else None
  | _ => None
  end.

(** [parseInt(string, radix)], following the steps of the language
    specification.  [radix] is [ToInt32] of the second argument, so 0 stands
    for a call without a radix. *)
Definition parseInt (inputString : string) (radix : Z) : number :=
  let '(sign, str) := take_sign (trimStart inputString) in
  if negb (radix =? 0) && ((radix <? 2) || (36 <? radix)) then NaN
  else
    let stripPrefix := (radix =? 0) || (radix =? 16) in
    let R := if radix =? 0 then 10 else radix in
    let '(R, str) :=
      match (if stripPrefix then strip_0x str else None) with
      | Some r => (16, r)
      | None => (R, str)
      end in
    let '(digits, _) := span (is_radix_digit (Z.to_N R)) str in
    if truthy digits then Num (sign * digits_value (Z.to_N R) digits) else NaN.

(** ** BigInt *)

(** A non-decimal literal [0x..], [0o..] or [0b..] with at least one digit. *)
Definition non_decimal_literal (s : string) : option Z :=
  match s with
  | String c (String x r) =>
      if Ascii.eqb c "0" then
        let R : N :=
          (if Ascii.eqb x "x" || Ascii.eqb x "X" then 16
           else if Ascii.eqb x "o" || Ascii.eqb x "O" then 8
           else if Ascii.eqb x "b" || Ascii.eqb x "B" then 2
           else 0)%N in
        if negb (R =? 0)%N && truthy r && forall_chars (is_radix_digit R) r
        then Some (digits_value R r) else None
      else None
  | _ => None
  end.

(** [StringToBigInt]: white space is trimmed; the empty string is 0; then a
    non-decimal literal without sign, or decimal digits with an optional
    sign.  [None] is the failure on which [BigInt(s)] throws a SyntaxError. *)
Definition StringToBigInt (s : string) : option Z :=
  let t := trim s in
  if negb (truthy t) then Some 0
  else
    match non_decimal_literal t with
    | Some z => Some z
    | None =>
        let '(sign, d) := take_sign t in
        if truthy d && forall_chars is_digit d
        then Some (sign * digits_value 10 d) else None
    end.

(** [z.toString()] of a bigint: decimal digits, ["-"] in front when negative. *)
Definition BigInt_toString (z : Z) : string :=
  NilEmpty.string_of_int (Z.to_int z).

End JS.

(* ================================================================== *)
(** * bignumber.js: the string constructor and the predicates used *)
(* ================================================================== *)

(** [new BigNumber(v)] for a string [v], with the library's default
    configuration (DECIMAL_PLACES 20, ROUNDING_MODE half up, exponent range
    1e7, DEBUG off, alphabet [0-9a-z]).  A value is NaN, an infinity, or a
    finite decimal [m * 10 ^ e]; the sign of zero is dropped, none of the
    predicates below observes it. *)

Module BigNumber.
Import JS.

Inductive t : Type :=
| NaN : t
| Infinity (negative : bool) : t
| Finite (m : Z) (e : Z) : t.

Definition MAX_EXP : Z := 10000000.
Definition MIN_EXP : Z := -10000000.
Definition DECIMAL_PLACES : Z := 20.

Definition signed (negative : bool) (n : Z) : Z := if negative then - n else n.

(** A leading ["-"], removed. *)
Definition take_minus (s : string) : bool * string :=
  match s with
  | String c r => if Ascii.eqb c "-" then (true, r) else (false, s)
  | EmptyString => (false, s)
  end.

(** ** Decimal literals *)

(** The parts of a string accepted by the library's [isNumeric] pattern:
    an optional minus; then digits, optionally followed by a point and
    further digits, or a point followed by digits; then optionally [e] or
    [E], an optional sign and digits; then the end of the string. *)
Record literal : Type := {
  lit_negative : bool;
  lit_int : string;
  lit_frac : string;
  lit_exp : Z
}.

(** Nothing, or an exponent that runs up to the end of the string. *)
Definition scan_exponent (s : string) : option Z :=
  match s with
  | EmptyString => Some 0
  | String c r =>
      if Ascii.eqb c "e" || Ascii.eqb c "E" then
        let '(sign, d) := take_sign r in
        if truthy d && forall_chars is_digit d
        then Some (sign * digits_value 10 d) else None
      else None
  end.

Definition scan_numeric (v : string) : option literal :=
  let '(negative, s) := take_minus v in
  let '(int, r1) := span is_digit s in
  let '(dot, frac, r2) :=
    match r1 with
    | String c r =>
        if Ascii.eqb c "."
        then let '(f, r2) := span is_digit r in (true, f, r2)
        else (false, EmptyString, r1)
    | EmptyString => (false, EmptyString, r1)
    end in
  if truthy int || (dot && truthy frac) then
    match scan_exponent r2 with
    | Some e =>
        Some {| lit_negative := negative; lit_int := int;
                lit_frac := frac; lit_exp := e |}
    | None => None
    end
  else None.

Definition is_zero_digit (c : ascii) : bool := Ascii.eqb c "0".

(** The constructor's tail on the digits [str] (the literal without its
    point) and the position [e] of the point: leading zeros are counted, the
    exponent of the first significant digit is checked against the exponent
    range, and the value is the digits shifted by the exponent. *)
Definition of_literal (l : literal) : t :=
  let str := lit_int l ++ lit_frac l in
  let e := Z.of_nat (String.length (lit_int l)) + lit_exp l in
  let '(zeros, significant) := span is_zero_digit str in
  let i := Z.of_nat (String.length zeros) in
  if truthy significant then
    let e := e - i - 1 in
    if MAX_EXP <? e then Infinity (lit_negative l)
    else if e <? MIN_EXP then Finite 0 0
    else Finite (signed (lit_negative l) (digits_value 10 str))
                (lit_exp l - Z.of_nat (String.length (lit_frac l)))
  else Finite 0 0.

(** ** Other strings: [parseNumeric] *)

(** [str.replace(/^\s*\+(?=[\w.])|^\s+|\s+$/g, '')]: leading white
    space, then a plus that stands before a word character or a point, and
    trailing white space are removed. *)
Definition drop_leading_plus (t : string) : string :=
  match t with
  | String c (String d r) =>
      if Ascii.eqb c "+" && (is_word d || Ascii.eqb d ".")
      then String d r else t
  | _ => t
  end.

Definition strip_space_plus (str : string) : string :=
  trimEnd (drop_leading_plus (trimStart str)).

(** [/^-?(Infinity|NaN)$/]. *)
Definition infinity_or_nan (s : string) : option t :=
  let '(negative, r) := take_minus s in
  if String.eqb r "Infinity" then Some (Infinity negative)
  else if String.eqb r "NaN" then Some NaN
  else None.

Definition is_word_or_dot (c : ascii) : bool := is_word c || Ascii.eqb c ".".

(** [/^(-?)0([xbo])(?=\w[\w.]*$)/i]: the base the prefix announces and the
    string with the prefix removed and the sign kept. *)
Definition base_prefix (s : string) : option (N * string) :=
  let '(negative, r) := take_minus s in
  match r with
  | String z (String x (String w rest)) =>
      if Ascii.eqb z "0" && is_word w && forall_chars is_word_or_dot rest then
        let body := String w rest in
        let kept := if negative then String "-" body else body in
        let x := toLowerChar x in
        if Ascii.eqb x "x" then Some (16%N, kept)
        else if Ascii.eqb x "b" then Some (2%N, kept)
        else if Ascii.eqb x "o" then Some (8%N, kept)
        else None
      else None
  | _ => None
  end.

(** [ALPHABET.slice(0, b).indexOf(c) >= 0]. *)
Definition in_alphabet (b : N) (c : ascii) : bool :=
  (is_digit c || is_lower c) && is_radix_digit b c.

(** The constructor's check of a numeral in base [b]: the first character
    that is not in the alphabet, a point counting as such when it is the
    first character or the second point.  [None] when there is none. *)
Fixpoint first_offence (b : N) (first seen_dot : bool) (s : string)
  : option ascii :=
  match s with
  | EmptyString => None
  | String c r =>
      if in_alphabet b c then first_offence b false seen_dot r
      else if Ascii.eqb c "." && negb first && negb seen_dot
      then first_offence b false true r
      else Some c
  end.

(** The numeral that is converted: the string itself, or, when a character
    other than a point offends, the string with its case switched once. *)
Definition base_numeral (b : N) (str : string) : option string :=
  match first_offence b true false str with
  | None => Some str
  | Some c =>
      if Ascii.eqb c "." then None
      else
        let switched :=
          if String.eqb str (toUpperCase str) then Some (toLowerCase str)
          else if String.eqb str (toLowerCase str) then Some (toUpperCase str)
          else None in
        match switched with
        | Some str' =>
            match first_offence b true false str' with
            | None => Some str'
            | Some _ => None
            end
        | None => None
        end
  end.

(** Number of decimal digits of a positive integer. *)
Definition decimal_length (n : Z) : Z :=
  Z.of_nat (String.length (BigInt_toString n)).

(** [convertBase(str, b, 10, sign)] followed by the constructor's tail: an
    integer numeral converts exactly, a numeral with a point is rounded half
    up to DECIMAL_PLACES decimal places. *)
Definition of_base_numeral (negative : bool) (b : N) (str : string) : t :=
  let i := indexOf "." str in
  let '(m, e) :=
    if i <? 0 then (digits_value b str, 0)
    else
      let '(int, frac) := span (fun c => negb (Ascii.eqb c ".")) str in
      let frac := match frac with String _ r => r | EmptyString => frac end in
      let n := digits_value b (int ++ frac) in
      let unit := Z.of_N b ^ Z.of_nat (String.length frac) in
      ((2 * n * 10 ^ DECIMAL_PLACES + unit) / (2 * unit), - DECIMAL_PLACES) in
  if m =? 0 then Finite 0 0
  else
    let lead := decimal_length m - 1 + e in
    if MAX_EXP <? lead then Infinity negative
    else if lead <? MIN_EXP then Finite 0 0
    else Finite (signed negative m) e.

(** [/^([^.]+)\.$/ -> '$1'] then [/^\.([^.]+)$/ -> '0.$1']. *)
Definition no_dot (s : string) : bool :=
  forall_chars (fun c => negb (Ascii.eqb c ".")) s.

Fixpoint dotAfter_tail (s : string) : option string :=
  match s with
  | EmptyString => None
  | String c EmptyString => if Ascii.eqb c "." then Some EmptyString else None
  | String c r =>
      if Ascii.eqb c "." then None
      else match dotAfter_tail r with
           | Some r' => Some (String c r')
           | None => None
           end
  end.

Definition dotAfter (s : string) : string :=
  match dotAfter_tail s with
  | Some r => if truthy r then r else s
  | None => s
  end.

Definition dotBefore (s : string) : string :=
  match s with
  | String c r =>
      if Ascii.eqb c "." && truthy r && no_dot r
      then String "0" (String "." r) else s
  | EmptyString => s
  end.

(** [new BigNumber(v, b)] for a string [v] and a base [b] among 2, 8, 16.
    When the numeral is not valid the constructor hands over to
    [parseNumeric(x, v, false, b)], which builds a number again from a
    shorter string (a repeated prefix or a final point removed); [fuel]
    bounds these nested constructions. *)
Fixpoint new_in_base (fuel : nat) (b : N) (v : string) : t :=
  let '(negative, str) := take_minus v in
  match base_numeral b str with
  | Some numeral => of_base_numeral negative b numeral
  | None =>
      let s := strip_space_plus v in
      match infinity_or_nan s with
      | Some x => x
      | None =>
          let s :=
            match base_prefix s with
            | Some (base, kept) => if (b =? base)%N then kept else s
            | None => s
            end in
          let s := dotBefore (dotAfter s) in
          if String.eqb v s then NaN
          else match fuel with
               | O => NaN
               | S fuel' => new_in_base fuel' b s
               end
      end
  end.

(** [new BigNumber(v)] for a string [v].  A string that is not a decimal
    literal goes through [parseNumeric(x, v, false)]: white space and a
    leading plus are removed, the infinities and NaN are recognised, a base
    prefix is removed, and when that changed the string a number is built
    from what is left. *)
Fixpoint new_with_fuel (fuel : nat) (v : string) : t :=
  match scan_numeric v with
  | Some l => of_literal l
  | None =>
      let s := strip_space_plus v in
      match infinity_or_nan s with
      | Some x => x
      | None =>
          match base_prefix s with
          | Some (base, kept) => new_in_base (S (String.length kept)) base kept
          | None =>
              if String.eqb v s then NaN
              else match fuel with
                   | O => NaN
                   | S fuel' => new_with_fuel fuel' s
                   end
          end
      end
  end.

Definition new (v : string) : t := new_with_fuel (S (String.length v)) v.

(** ** Predicates *)

Definition isNaN (x : t) : bool :=
  match x with NaN => true | _ => false end.

Definition isInteger (x : t) : bool :=
  match x with
  | Finite m e => (0 <=? e) || (m mod 10 ^ (- e) =? 0)
  | _ => false
  end.

(** [compare(x, new BigNumber(k))] for an integer [k]; [None] is the [null]
    returned when [x] is NaN. *)
Definition comparedTo (x : t) (k : Z) : option comparison :=
  match x with
  | NaN => None
  | Infinity negative => Some (if negative then Lt else Gt)
  | Finite m e =>
      Some (if 0 <=? e then m * 10 ^ e ?= k else m ?= k * 10 ^ (- e))
  end.

Definition isLessThan (x : t) (k : Z) : bool :=
  match comparedTo x k with Some Lt => true | _ => false end.

Definition isGreaterThan (x : t) (k : Z) : bool :=
  match comparedTo x k with Some Gt => true | _ => false end.

Definition isLessThanOrEqualTo (x : t) (k : Z) : bool :=
  match comparedTo x k with Some Lt | Some Eq => true | _ => false end.

End BigNumber.

(* ================================================================== *)
(** * Effects of the handlers *)
(* ================================================================== *)

(** A thrown value, represented by what the handlers read from it: the text
    that [${e.message}] interpolates. *)
Record Error : Type := { message : string }.

(** The SyntaxError of [BigInt(s)] on a string that is not an integer
    literal (the wording is the engine's). *)
Definition BigInt_SyntaxError (s : string) : Error :=
  {| message := "Cannot convert " ++ s ++ " to a BigInt" |}.

(** [PostageBatchOptions] of bee-js, the three fields the form sets. *)
Record PostageBatchOptions : Type := {
  waitForUsable : bool;
  label : option string;
  immutableFlag : bool
}.

Definition BatchId : Type := string.
Definition TransactionHash : Type := string.

(** What a handler does to the outside, in the order it does it. *)
Inductive Event : Type :=
| SetSubmitting (value : bool)
| CreatePostageBatch (amount : string) (depth : JS.number)
                     (options : PostageBatchOptions)
| WaitUntilStampExists (batchId : BatchId)
| StampsRefresh
| OnFinished
| ConsoleError (e : Error)
| EnqueueSnackbar (text : string) (variant : string)
| DepositTokens (amount : string)
| BeeRefresh.

Module Eff.

(** How a block of statements ends: it falls through with a value, it
    executes [return], or it throws. *)
Inductive Completion (A : Type) : Type :=
| Normal (a : A)
| Return
| Throw (e : Error).
Arguments Normal {A} a.
Arguments Return {A}.
Arguments Throw {A} e.

Definition t (A : Type) : Type := (list Event * Completion A)%type.

Definition ret {A} (a : A) : t A := ([], Normal a).

Definition bind {A B} (m : t A) (f : A -> t B) : t B :=
  let '(tr, c) := m in
  match c with
  | Normal a => let '(tr', c') := f a in ((tr ++ tr')%list, c')
  | Return => (tr, Return)
  | Throw e => (tr, Throw e)
  end.

Definition emit (ev : Event) : t unit := ([ev], Normal tt).
Definition throw {A} (e : Error) : t A := ([], Throw e).
Definition return_ {A} : t A := ([], Return).

(** A call to the outside: the call is made, then it returns or throws. *)
Definition call {A} (ev : Event) (result : Error + A) : t A :=
  ([ev], match result with inl e => Throw e | inr a => Normal a end).

(** [await f(..)]: the call is made, then its promise resolves or rejects. *)
Definition await {A} (ev : Event) (result : Error + A) : t A :=
  call ev result.

(** A pure operation that may throw. *)
Definition lift {A} (result : Error + A) : t A :=
  ([], match result with inl e => Throw e | inr a => Normal a end).

(** [try { body } catch (e) { handler e }], without [finally]: a [return]
    in the body leaves the function. *)
Definition try_catch (body : t unit) (handler : Error -> t unit) : t unit :=
  let '(tr, c) := body in
  match c with
  | Throw e => let '(tr', c') := handler e in ((tr ++ tr')%list, c')
  | _ => (tr, c)
  end.

Definition trace {A} (m : t A) : list Event := fst m.

End Eff.

Notation "x <- m ;; k" := (Eff.bind m (fun x => k))
  (at level 61, m at next level, right associativity).
Notation "m ;; k" := (Eff.bind m (fun _ => k))
  (at level 61, right associativity).

(** [BigInt(s)] for a string [s]. *)
Definition BigInt (s : string) : Error + Z :=
  match JS.StringToBigInt s with
  | Some z => inr z
  | None => inl (BigInt_SyntaxError s)
  end.

(* ================================================================== *)
(** * What the components take from outside *)
(* ================================================================== *)

(** The pure helpers imported from [../../utils] and [../../utils/file],
    the methods of the price they return, and the number formatting of the
    runtime.  Their code is outside the two components; they are parameters
    here. *)
Record Utils : Type := {
  Token : Type;
  calculateStampPrice : JS.number -> Z -> Token;
  toSignificantDigits : Token -> string;
  convertAmountToSeconds : JS.number -> JS.number -> JS.number;
  secondsToTimeString : JS.number -> string;
  convertDepthToBytes : JS.number -> JS.number;
  getHumanReadableFileSize : JS.number -> string;
  toFixed : JS.number -> Z -> string
}.

(** The debug API client: the outcome of each call it is asked to make. *)
Record BeeDebugApi : Type := {
  createPostageBatch :
    string -> JS.number -> PostageBatchOptions -> Error + BatchId;
  depositTokens : string -> Error + TransactionHash
}.

Record ChainState : Type := { currentPrice : string }.

(** The contexts and props of the components, and the outcome of the calls
    they make through them. *)
Record World : Type := {
  beeDebugApi : option BeeDebugApi;
  chainState : option ChainState;
  waitUntilStampExists : BatchId -> BeeDebugApi -> Error + unit;
  Stamps_refresh : Error + unit;
  onFinished : Error + unit
}.

(* ================================================================== *)
(** * PostageStampAdvancedCreation *)
(* ================================================================== *)

Module PostageStampAdvancedCreation.
Import JS.

(** The [useState] cells of the component. *)
Record State : Type := {
  depthInput : string;
  amountInput : string;
  labelInput : string;
  immutable : bool;
  depthError : string;
  amountError : string;
  submitting : bool
}.

Definition initial : State :=
  {| depthInput := ""; amountInput := ""; labelInput := "";
     immutable := false; depthError := ""; amountError := "";
     submitting := false |}.

Definition setDepthInput (v : string) (st : State) : State :=
  {| depthInput := v; amountInput := amountInput st;
     labelInput := labelInput st; immutable := immutable st;
     depthError := depthError st; amountError := amountError st;
     submitting := submitting st |}.

Definition setAmountInput (v : string) (st : State) : State :=
  {| depthInput := depthInput st; amountInput := v;
     labelInput := labelInput st; immutable := immutable st;
     depthError := depthError st; amountError := amountError st;
     submitting := submitting st |}.

Definition setLabelInput (v : string) (st : State) : State :=
  {| depthInput := depthInput st; amountInput := amountInput st;
     labelInput := v; immutable := immutable st;
     depthError := depthError st; amountError := amountError st;
     submitting := submitting st |}.

Definition setImmutable (v : bool) (st : State) : State :=
  {| depthInput := depthInput st; amountInput := amountInput st;
     labelInput := labelInput st; immutable := v;
     depthError := depthError st; amountError := amountError st;
     submitting := submitting st |}.

Definition setDepthError (v : string) (st : State) : State :=
  {| depthInput := depthInput st; amountInput := amountInput st;
     labelInput := labelInput st; immutable := immutable st;
     depthError := v; amountError := amountError st;
     submitting := submitting st |}.

Definition setAmountError (v : string) (st : State) : State :=
  {| depthInput := depthInput st; amountInput := amountInput st;
     labelInput := labelInput st; immutable := immutable st;
     depthError := depthError st; amountError := v;
     submitting := submitting st |}.

Definition setSubmitting (v : bool) (st : State) : State :=
  {| depthInput := depthInput st; amountInput := amountInput st;
     labelInput := labelInput st; immutable := immutable st;
     depthError := depthError st; amountError := amountError st;
     submitting := v |}.

(** ** Derived values *)

Section Derived.
Variable U : Utils.
Variable W : World.

Definition getFileSize (depth : number) : string :=
  if isNaN depth || num_lt depth 17 || num_gt depth 255 then "-"
  else "~" ++ getHumanReadableFileSize U (convertDepthToBytes U depth).

(** [chainState && chainState.currentPrice], as a condition. *)
Definition isCurrentPriceAvailable : bool :=
  match chainState W with
  | Some cs => truthy (currentPrice cs)
  | None => false
  end.

Definition getTtl (amount : number) : string :=
  if num_le amount 0 || negb isCurrentPriceAvailable then "-"
  else
    let pricePerBlock :=
      match chainState W with
      | Some cs => parseInt (currentPrice cs) 10
      | None => NaN
      end in
    secondsToTimeString U (convertAmountToSeconds U amount pricePerBlock)
    ++ " (with price of " ++ toFixed U pricePerBlock 0 ++ " per block)".

Definition getPrice (depth : number) (amount : Z) : string :=
  let hasInvalidInput :=
    (amount <=? 0) || isNaN depth || num_lt depth 17 || num_gt depth 255 in
  if hasInvalidInput then "-"
  else
    let price := calculateStampPrice U depth amount in
    toSignificantDigits U price ++ " xBZZ".

(** ** What the render shows *)

(** [!depthError && depthInput ? getFileSize(parseInt(depthInput, 10)) : '-'] *)
Definition fileSizeDisplay (st : State) : string :=
  if negb (truthy (depthError st)) && truthy (depthInput st)
  then getFileSize (parseInt (depthInput st) 10)
  else "-".

(** [!amountError && amountInput ? getTtl(Number.parseInt(amountInput, 10)) : '-'] *)
Definition ttlDisplay (st : State) : string :=
  if negb (truthy (amountError st)) && truthy (amountInput st)
  then getTtl (parseInt (amountInput st) 10)
  else "-".

(** [!amountError && !depthError && amountInput && depthInput
      ? getPrice(parseInt(depthInput, 10), BigInt(amountInput)) : '-'];
    the conversion to a bigint can throw while rendering. *)
Definition priceDisplay (st : State) : Error + string :=
  if negb (truthy (amountError st)) && negb (truthy (depthError st))
     && truthy (amountInput st) && truthy (depthInput st)
  then
    let depth := parseInt (depthInput st) 10 in
    match BigInt (amountInput st) with
    | inr amount => inr (getPrice depth amount)
    | inl e => inl e
    end
  else inr "-".

End Derived.

(** The [disabled] prop of the submit button. *)
Definition submitDisabled (st : State) : bool :=
  submitting st || truthy (depthError st) || truthy (amountError st)
  || negb (truthy (depthInput st)) || negb (truthy (amountInput st)).

(** ** Validation *)

Definition validateAmountInput (amountInput : string) (st : State) : State :=
  let '(error, validAmountInput) :=
    if negb (truthy amountInput) then ("Required field", "0")
    else if -1 <? indexOf "." amountInput
    then ("Amount must be an integer", "0")
    else
      let amount := BigNumber.new amountInput in
      if BigNumber.isNaN amount
      then ("Amount must contain only digits", "0")
      else if BigNumber.isLessThanOrEqualTo amount 0
      then ("Amount must be greater than 0", "0")
      else ("", amountInput) in
  setAmountInput validAmountInput (setAmountError error st).

Definition validateDepthInput (depthInput : string) (st : State) : State :=
  let '(error, validDepthInput) :=
    if negb (truthy depthInput) then ("Required field", "0")
    else
      let depth := BigNumber.new depthInput in
      if negb (BigNumber.isInteger depth)
      then ("Depth must be an integer", "0")
      else if BigNumber.isLessThan depth 17
      then ("Minimal depth is 17", "0")
      else if BigNumber.isGreaterThan depth 255
      then ("Depth has to be at most 255", "0")
      else ("", depthInput) in
  setDepthInput validDepthInput (setDepthError error st).

(** ** Submission *)

(** The [options] record that [submit] builds; [labelInput || undefined]
    leaves the label out when the field is empty. *)
Definition postageBatchOptions (st : State) : PostageBatchOptions :=
  {| waitForUsable := false;
     label := if truthy (labelInput st) then Some (labelInput st) else None;
     immutableFlag := immutable st |}.

Definition submit (W : World) (st : State) : Eff.t unit :=
  Eff.try_catch
    (if negb (truthy (depthInput st)) || negb (truthy (amountInput st))
     then Eff.return_
     else
       match beeDebugApi W with
       | None => Eff.return_
       | Some api =>
           Eff.emit (SetSubmitting true) ;;
           amount <- Eff.lift (BigInt (amountInput st)) ;;
           let depth := parseInt (depthInput st) 0 in
           let options := postageBatchOptions st in
           batchId <- Eff.await
                        (CreatePostageBatch (BigInt_toString amount) depth options)
                        (createPostageBatch api (BigInt_toString amount)
                                            depth options) ;;
           Eff.await (WaitUntilStampExists batchId)
                     (waitUntilStampExists W batchId api) ;;
           Eff.await StampsRefresh (Stamps_refresh W) ;;
           Eff.call OnFinished (onFinished W)
       end)
    (fun e =>
       Eff.emit (ConsoleError e) ;;
       Eff.emit (EnqueueSnackbar ("Error: " ++ message e) "error")) ;;
  Eff.emit (SetSubmitting false).

(** The state setters among the effects, applied in order. *)
Definition apply_event (st : State) (ev : Event) : State :=
  match ev with
  | SetSubmitting v => setSubmitting v st
  | _ => st
  end.

Definition apply_events (st : State) (tr : list Event) : State :=
  fold_left apply_event tr st.

(** The state once [submit] has run to completion. *)
Definition after_submit (W : World) (st : State) : State :=
  apply_events st (Eff.trace (submit W st)).

(** ** The form as a transition system *)

(** The [onChange] handlers of the four inputs. *)
Inductive Action : Type :=
| EditLabel (value : string)
| SelectImmutable (value : string)
| EditDepth (value : string)
| EditAmount (value : string).

Definition handle (a : Action) (st : State) : State :=
  match a with
  | EditLabel v => setLabelInput v st
  | SelectImmutable v => setImmutable (String.eqb v "Yes") st
  | EditDepth v => validateDepthInput v st
  | EditAmount v => validateAmountInput v st
  end.

Definition handle_all (l : list Action) (st : State) : State :=
  fold_left (fun st a => handle a st) l st.

Definition edits_depth (a : Action) : bool :=
  match a with EditDepth _ => true | _ => false end.

Definition edits_amount (a : Action) : bool :=
  match a with EditAmount _ => true | _ => false end.

(** A click on the submit button: [onClick] runs unless the button is
    disabled. *)
Definition click (W : World) (st : State) : Eff.t unit :=
  if submitDisabled st then Eff.ret tt else submit W st.

End PostageStampAdvancedCreation.

(* ================================================================== *)
(** * DepositModal *)
(* ================================================================== *)

Module DepositModal.

(** The [action] prop handed to [WithdrawDepositModal]; [refresh] of the
    Bee context is called without being awaited. *)
Definition action (W : World) (amount : Z) : Eff.t TransactionHash :=
  match beeDebugApi W with
  | None => Eff.throw {| message := "Bee Debug URL is not valid" |}
  | Some api =>
      transactionHash <- Eff.await
                           (DepositTokens (JS.BigInt_toString amount))
                           (depositTokens api (JS.BigInt_toString amount)) ;;
      Eff.emit BeeRefresh ;;
      Eff.ret transactionHash
  end.

End DepositModal.

(* ================================================================== *)
(** * Vocabulary of the properties *)
(* ================================================================== *)

(** A plain decimal numeral: one or more digits, nothing else. *)
Definition digit_string (s : string) : bool :=
  JS.truthy s && JS.forall_chars JS.is_digit s.

(** A numeral as it stands behind a base prefix: an optional minus, a word
    character, then word characters and points. *)
Definition base_body (v : string) : bool :=
  match snd (BigNumber.take_minus v) with
  | String w rest =>
      JS.is_word w && JS.forall_chars BigNumber.is_word_or_dot rest
  | EmptyString => false
  end.

(** How often a kind of effect occurs in a run. *)
Definition count_events (p : Event -> bool) (tr : list Event) : nat :=
  List.length (filter p tr).

Definition is_createPostageBatch (ev : Event) : bool :=
  match ev with CreatePostageBatch _ _ _ => true | _ => false end.

Definition is_refresh (ev : Event) : bool :=
  match ev with StampsRefresh => true | _ => false end.

Definition is_onFinished (ev : Event) : bool :=
  match ev with OnFinished => true | _ => false end.

Definition is_notification (ev : Event) : bool :=
  match ev with EnqueueSnackbar _ _ => true | _ => false end.

(** The order on numbers that are not NaN. *)
Definition number_le (x y : JS.number) : Prop :=
  match x, y with
  | JS.Num a, JS.Num b => a <= b
  | _, _ => False
  end.

(** ** Instances to run the components on *)

Fixpoint tally (n : nat) : string :=
  match n with
  | O => ""
  | S k => String "#" (tally k)
  end.

(** One instance of the helpers: the price is the amount for each of the
    [2 ^ depth] chunks, a block lasts 5 seconds, a chunk has 4096 bytes, and
    a size is shown as one mark for each doubling. *)
Definition sample_utils : Utils :=
  {| Token := Z;
     calculateStampPrice := fun depth amount =>
       match depth with JS.Num d => amount * 2 ^ d | JS.NaN => 0 end;
     toSignificantDigits := JS.BigInt_toString;
     convertAmountToSeconds := fun amount price =>
       match amount, price with
       | JS.Num a, JS.Num p => if p =? 0 then JS.NaN else JS.Num (a * 5 / p)
       | _, _ => JS.NaN
       end;
     secondsToTimeString := fun s =>
       match s with
       | JS.Num z => JS.BigInt_toString z ++ " seconds"
       | JS.NaN => "NaN"
       end;
     convertDepthToBytes := fun depth =>
       match depth with
       | JS.Num d => JS.Num (2 ^ d * 4096)
       | JS.NaN => JS.NaN
       end;
     getHumanReadableFileSize := fun bytes =>
       match bytes with
       | JS.Num b => tally (Z.to_nat (Z.log2 b))
       | JS.NaN => "NaN"
       end;
     toFixed := fun x _ =>
       match x with JS.Num z => JS.BigInt_toString z | JS.NaN => "NaN" end |}.

(** A node that accepts every request. *)
Definition sample_api : BeeDebugApi :=
  {| createPostageBatch := fun _ _ _ => inr "b4tch";
     depositTokens := fun _ => inr "7x" |}.

Definition sample_world : World :=
  {| beeDebugApi := Some sample_api;
     chainState := Some {| currentPrice := "24000" |};
     waitUntilStampExists := fun _ _ => inr tt;
     Stamps_refresh := inr tt;
     onFinished := inr tt |}.

(** A node that rejects the purchase. *)
Definition rejecting_api : BeeDebugApi :=
  {| createPostageBatch := fun _ _ _ => inl {| message := "out of funds" |};
     depositTokens := fun _ => inl {| message := "out of funds" |} |}.

Definition rejecting_world : World :=
  {| beeDebugApi := Some rejecting_api;
     chainState := Some {| currentPrice := "24000" |};
     waitUntilStampExists := fun _ _ => inr tt;
     Stamps_refresh := inr tt;
     onFinished := inr tt |}.

(** A node whose batch never shows up. *)
Definition stalling_world : World :=
  {| beeDebugApi := Some sample_api;
     chainState := Some {| currentPrice := "24000" |};
     waitUntilStampExists := fun _ _ => inl {| message := "Wait until stamp exists timeout has been reached" |};
     Stamps_refresh := inr tt;
     onFinished := inr tt |}.

(** No debug API configured. *)
Definition offline_world : World :=
  {| beeDebugApi := None;
     chainState := None;
     waitUntilStampExists := fun _ _ => inr tt;
     Stamps_refresh := inr tt;
     onFinished := inr tt |}.

(* ================================================================== *)
(** * Vocabulary of the further properties *)
(* ================================================================== *)

Definition is_wait (ev : Event) : bool :=
  match ev with WaitUntilStampExists _ => true | _ => false end.



Definition is_depositTokens (ev : Event) : bool :=
  match ev with DepositTokens _ => true | _ => false end.

Definition is_beeRefresh (ev : Event) : bool :=
  match ev with BeeRefresh => true | _ => false end.

(** The call [submit] makes to create the batch, and what the node answers. *)
Definition create_event (st : PostageStampAdvancedCreation.State) (amount : Z)
  : Event :=
  CreatePostageBatch (JS.BigInt_toString amount)
    (JS.parseInt (PostageStampAdvancedCreation.depthInput st) 0)
    (PostageStampAdvancedCreation.postageBatchOptions st).

Definition create_result (api : BeeDebugApi)
    (st : PostageStampAdvancedCreation.State) (amount : Z) : Error + BatchId :=
  createPostageBatch api (JS.BigInt_toString amount)
    (JS.parseInt (PostageStampAdvancedCreation.depthInput st) 0)
    (PostageStampAdvancedCreation.postageBatchOptions st).

(** The catch block of [submit] followed by the statement after it. *)
Definition report (e : Error) : list Event :=
  [ConsoleError e;
   EnqueueSnackbar ("Error: " ++ message e) "error";
   SetSubmitting false].

(** The runs of [submit] past its two guards, by the first step that
    throws. *)
Inductive submit_run (W : World) (st : PostageStampAdvancedCreation.State)
  : list Event -> Prop :=
| run_amount_throws api e :
    beeDebugApi W = Some api ->
    BigInt (PostageStampAdvancedCreation.amountInput st) = inl e ->
    submit_run W st (SetSubmitting true :: report e)
| run_create_throws api amount e :
    beeDebugApi W = Some api ->
    BigInt (PostageStampAdvancedCreation.amountInput st) = inr amount ->
    create_result api st amount = inl e ->
    submit_run W st
      (SetSubmitting true :: create_event st amount :: report e)
| run_wait_throws api amount batchId e :
    beeDebugApi W = Some api ->
    BigInt (PostageStampAdvancedCreation.amountInput st) = inr amount ->
    create_result api st amount = inr batchId ->
    waitUntilStampExists W batchId api = inl e ->
    submit_run W st
      (SetSubmitting true :: create_event st amount
       :: WaitUntilStampExists batchId :: report e)
| run_refresh_throws api amount batchId e :
    beeDebugApi W = Some api ->
    BigInt (PostageStampAdvancedCreation.amountInput st) = inr amount ->
    create_result api st amount = inr batchId ->
    waitUntilStampExists W batchId api = inr tt ->
    Stamps_refresh W = inl e ->
    submit_run W st
      (SetSubmitting true :: create_event st amount
       :: WaitUntilStampExists batchId :: StampsRefresh :: report e)
| run_onFinished_throws api amount batchId e :
    beeDebugApi W = Some api ->
    BigInt (PostageStampAdvancedCreation.amountInput st) = inr amount ->
    create_result api st amount = inr batchId ->
    waitUntilStampExists W batchId api = inr tt ->
    Stamps_refresh W = inr tt ->
    onFinished W = inl e ->
    submit_run W st
      (SetSubmitting true :: create_event st amount
       :: WaitUntilStampExists batchId :: StampsRefresh :: OnFinished
       :: report e)
| run_succeeds api amount batchId :
    beeDebugApi W = Some api ->
    BigInt (PostageStampAdvancedCreation.amountInput st) = inr amount ->
    create_result api st amount = inr batchId ->
    waitUntilStampExists W batchId api = inr tt ->
    Stamps_refresh W = inr tt ->
    onFinished W = inr tt ->
    submit_run W st
      [SetSubmitting true; create_event st amount;
       WaitUntilStampExists batchId; StampsRefresh; OnFinished;
       SetSubmitting false].

(** A node that creates the batch, after which the refresh of the stamp
    list fails. *)
Definition refresh_failing_world : World :=
  {| beeDebugApi := Some sample_api;
     chainState := Some {| currentPrice := "24000" |};
     waitUntilStampExists := fun _ _ => inr tt;
     Stamps_refresh := inl {| message := "Network Error" |};
     onFinished := inr tt |}.

(** The input that an action edits. *)
Inductive Field : Type := LabelField | ImmutableField | DepthField | AmountField.

Definition field_of (a : PostageStampAdvancedCreation.Action) : Field :=
  match a with
  | PostageStampAdvancedCreation.EditLabel _ => LabelField
  | PostageStampAdvancedCreation.SelectImmutable _ => ImmutableField
  | PostageStampAdvancedCreation.EditDepth _ => DepthField
  | PostageStampAdvancedCreation.EditAmount _ => AmountField
  end.

(** A node on which the deposit succeeds, and the contexts of the modal. *)
Definition deposit_world (api : BeeDebugApi) : World :=
  {| beeDebugApi := Some api;
     chainState := None;
     waitUntilStampExists := fun _ _ => inr tt;
     Stamps_refresh := inr tt;
     onFinished := inr tt |}.

(** What validation accepts, on the value bignumber.js gives the text. *)
Definition depth_accepted (text : string) : Prop :=
  text <> ""
  /\ BigNumber.isInteger (BigNumber.new text) = true
  /\ BigNumber.isLessThan (BigNumber.new text) 17 = false
  /\ BigNumber.isGreaterThan (BigNumber.new text) 255 = false.

Definition amount_accepted (text : string) : Prop :=
  text <> ""
  /\ JS.indexOf "." text = -1
  /\ BigNumber.isNaN (BigNumber.new text) = false
  /\ BigNumber.isLessThanOrEqualTo (BigNumber.new text) 0 = false.

(* ================================================================== *)
(** * Facts about the parsers on plain decimal numerals *)
(* ================================================================== *)

Module ParserFacts.
Import JS.

Ltac by_cases_on c :=
  destruct c as [[|] [|] [|] [|] [|] [|] [|] [|]];
  vm_compute in *; repeat split; congruence.

Lemma digit_not_space c : is_digit c = true -> is_space c = false.
Proof. intros H. by_cases_on c. Qed.

Lemma digit_not_minus c : is_digit c = true -> Ascii.eqb c "-" = false.
Proof. intros H. by_cases_on c. Qed.

Lemma digit_not_plus c : is_digit c = true -> Ascii.eqb c "+" = false.
Proof. intros H. by_cases_on c. Qed.

Lemma digit_not_dot c : is_digit c = true -> Ascii.eqb c "." = false.
Proof. intros H. by_cases_on c. Qed.

Lemma digit_not_radix_letter c :
  is_digit c = true ->
  (Ascii.eqb c "x" || Ascii.eqb c "X") = false /\
  (Ascii.eqb c "o" || Ascii.eqb c "O") = false /\
  (Ascii.eqb c "b" || Ascii.eqb c "B") = false.
Proof. intros H. by_cases_on c. Qed.

Lemma digit_is_decimal c : is_digit c = true -> is_radix_digit 10 c = true.
Proof. intros H. by_cases_on c. Qed.

Lemma digit_value_of_digit c :
  is_digit c = true -> exists v, digit_value c = Some v /\ (v < 10)%N.
Proof.
  intros H. unfold digit_value. rewrite H. eexists. split; [reflexivity|].
  unfold is_digit, in_range in H. apply andb_true_iff in H as [H1 H2].
  apply N.leb_le in H1, H2. lia.
Qed.

Lemma nonzero_digit_value c :
  is_digit c = true -> BigNumber.is_zero_digit c = false ->
  exists v, digit_value c = Some v /\ (0 < v)%N.
Proof.
  intros H H0. unfold digit_value. rewrite H. eexists. split; [reflexivity|].
  revert H H0. by_cases_on c.
Qed.

Lemma length_app (a b : string) :
  String.length (a ++ b) = (String.length a + String.length b)%nat.
Proof. induction a as [|c a IH]; simpl; [reflexivity | now rewrite IH]. Qed.

Lemma app_empty_r (a : string) : a ++ "" = a.
Proof. induction a as [|c a IH]; simpl; [reflexivity | now rewrite IH]. Qed.

Lemma truthy_true s : truthy s = true <-> s <> "".
Proof. destruct s; simpl; split; congruence. Qed.

Lemma truthy_false s : truthy s = false <-> s = "".
Proof. destruct s; simpl; split; congruence. Qed.

(** ** Scanning a run of digits *)

Lemma span_all p s : forall_chars p s = true -> span p s = (s, "").
Proof.
  induction s as [|c s IH]; simpl; [reflexivity|].
  intros H. apply andb_true_iff in H as [Hc Hs].
  rewrite Hc, (IH Hs). reflexivity.
Qed.

Lemma span_app p s a b : span p s = (a, b) -> s = a ++ b.
Proof.
  revert a b. induction s as [|c s IH]; simpl; intros a b H.
  - now inversion H.
  - destruct (p c).
    + destruct (span p s) as [a' b'] eqn:E. inversion H; subst.
      simpl. now rewrite (IH _ _ eq_refl).
    + now inversion H.
Qed.

Lemma span_prefix p s a b : span p s = (a, b) -> forall_chars p a = true.
Proof.
  revert a b. induction s as [|c s IH]; simpl; intros a b H.
  - now inversion H.
  - destruct (p c) eqn:Hc.
    + destruct (span p s) as [a' b'] eqn:E. inversion H; subst.
      simpl. now rewrite Hc, (IH _ _ eq_refl).
    + now inversion H.
Qed.

Lemma span_rest p s a c b : span p s = (a, String c b) -> p c = false.
Proof.
  revert a. induction s as [|d s IH]; simpl; intros a H.
  - inversion H.
  - destruct (p d) eqn:Hd.
    + destruct (span p s) as [a' b'] eqn:E. inversion H; subst.
      now apply (IH a').
    + inversion H; subst. exact Hd.
Qed.

Lemma forall_chars_app p a b :
  forall_chars p (a ++ b) = forall_chars p a && forall_chars p b.
Proof.
  induction a as [|c a IH]; simpl; [reflexivity|].
  now rewrite IH, andb_assoc.
Qed.

Lemma indexOf_absent c s :
  forall_chars (fun d => negb (Ascii.eqb d c)) s = true -> indexOf c s = -1.
Proof.
  induction s as [|d s IH]; simpl; [reflexivity|].
  intros H. apply andb_true_iff in H as [Hd Hs].
  apply negb_true_iff in Hd. rewrite Hd, (IH Hs). reflexivity.
Qed.

Lemma indexOf_bounds c s : -1 <= indexOf c s.
Proof.
  induction s as [|d s IH]; simpl; [lia|].
  destruct (Ascii.eqb d c); [lia|].
  destruct (indexOf c s <? 0) eqn:E; [lia|]. apply Z.ltb_ge in E. lia.
Qed.

Lemma forall_chars_impl (p q : ascii -> bool) s :
  (forall c, p c = true -> q c = true) ->
  forall_chars p s = true -> forall_chars q s = true.
Proof.
  intros Hpq. induction s as [|c s IH]; simpl; [reflexivity|].
  intros H. apply andb_true_iff in H as [Hc Hs].
  now rewrite (Hpq _ Hc), (IH Hs).
Qed.

Lemma digits_no_dot s : forall_chars is_digit s = true -> indexOf "." s = -1.
Proof.
  intros H. apply indexOf_absent. revert H. apply forall_chars_impl.
  intros c Hc. now rewrite (digit_not_dot c Hc).
Qed.

Lemma digit_string_inv s :
  digit_string s = true ->
  exists c r, s = String c r /\ is_digit c = true
              /\ forall_chars is_digit r = true.
Proof.
  unfold digit_string. destruct s as [|c r]; simpl; [discriminate|].
  intros H. apply andb_true_iff in H as [Hc Hr]. now exists c, r.
Qed.

Lemma digit_string_chars s :
  digit_string s = true -> forall_chars is_digit s = true.
Proof. unfold digit_string. intros H. now apply andb_true_iff in H. Qed.

Lemma digit_string_truthy s : digit_string s = true -> truthy s = true.
Proof. unfold digit_string. intros H. now apply andb_true_iff in H. Qed.

Lemma trimStart_digits s : digit_string s = true -> trimStart s = s.
Proof.
  intros H. destruct (digit_string_inv s H) as (c & r & -> & Hc & _).
  simpl. now rewrite (digit_not_space c Hc).
Qed.

Lemma trimEnd_digits s : forall_chars is_digit s = true -> trimEnd s = s.
Proof.
  induction s as [|c s IH]; simpl; [reflexivity|].
  intros H. apply andb_true_iff in H as [Hc Hs].
  rewrite (IH Hs). destruct s; [|reflexivity].
  now rewrite (digit_not_space c Hc).
Qed.

Lemma trim_digits s : digit_string s = true -> trim s = s.
Proof.
  intros H. unfold trim. rewrite (trimStart_digits s H).
  apply trimEnd_digits, digit_string_chars, H.
Qed.

Lemma take_sign_digits s : digit_string s = true -> take_sign s = (1, s).
Proof.
  intros H. destruct (digit_string_inv s H) as (c & r & -> & Hc & _).
  simpl. now rewrite (digit_not_minus c Hc), (digit_not_plus c Hc).
Qed.

Lemma take_minus_digits s :
  digit_string s = true -> BigNumber.take_minus s = (false, s).
Proof.
  intros H. destruct (digit_string_inv s H) as (c & r & -> & Hc & _).
  simpl. now rewrite (digit_not_minus c Hc).
Qed.

(** ** The value of a run of digits *)

Lemma digits_from_acc R acc s :
  digits_from R acc s
  = (acc * R ^ N.of_nat (String.length s) + digits_from R 0 s)%N.
Proof.
  revert acc. induction s as [|c s IH]; intros acc.
  - simpl. lia.
  - cbn [digits_from String.length].
    rewrite (IH (acc * R + _)%N), (IH (0 * R + _)%N).
    rewrite Nat2N.inj_succ, N.pow_succ_r'. lia.
Qed.

Lemma digits_from_zeros R s :
  forall_chars BigNumber.is_zero_digit s = true -> digits_from R 0 s = 0%N.
Proof.
  induction s as [|c s IH]; simpl; [reflexivity|].
  intros H. apply andb_true_iff in H as [Hc Hs].
  apply Ascii.eqb_eq in Hc. subst c. simpl. now apply IH.
Qed.

Lemma digits_from_leading_zeros R zeros s :
  forall_chars BigNumber.is_zero_digit zeros = true ->
  digits_from R 0 (zeros ++ s) = digits_from R 0 s.
Proof.
  induction zeros as [|c z IH]; simpl; [reflexivity|].
  intros H. apply andb_true_iff in H as [Hc Hs].
  apply Ascii.eqb_eq in Hc. subst c. simpl. now apply IH.
Qed.

(** A numeral that starts with a digit other than 0 is at least the power
    of ten of its length less one. *)
Lemma digits_from_lower_bound c r :
  is_digit c = true -> BigNumber.is_zero_digit c = false ->
  (10 ^ N.of_nat (String.length r) <= digits_from 10 0 (String c r))%N.
Proof.
  intros Hc H0. destruct (nonzero_digit_value c Hc H0) as (v & Hv & Hpos).
  cbn [digits_from]. rewrite Hv, digits_from_acc.
  assert (1 <= v)%N by lia. nia.
Qed.

(** ** The parsers on a plain decimal numeral *)

Lemma parseInt_digits s :
  digit_string s = true -> parseInt s 10 = Num (digits_value 10 s).
Proof.
  intros H. unfold parseInt.
  rewrite (trimStart_digits s H), (take_sign_digits s H).
  cbn [Z.eqb Z.ltb Z.compare Pos.compare Pos.compare_cont Pos.eqb
       negb andb orb].
  change (Z.to_N 10) with 10%N.
  rewrite (span_all (is_radix_digit 10) s).
  - rewrite (digit_string_truthy s H). f_equal. lia.
  - generalize (digit_string_chars s H). apply forall_chars_impl.
    exact digit_is_decimal.
Qed.

Lemma strip_0x_digits s : forall_chars is_digit s = true -> strip_0x s = None.
Proof.
  destruct s as [|c [|x r]]; simpl; try reflexivity.
  intros H. apply andb_true_iff in H as [_ H].
  apply andb_true_iff in H as [Hx _].
  destruct (digit_not_radix_letter x Hx) as (E & _).
  rewrite E. now rewrite andb_false_r.
Qed.

Lemma parseInt_digits_no_radix s :
  digit_string s = true -> parseInt s 0 = Num (digits_value 10 s).
Proof.
  intros H. unfold parseInt.
  rewrite (trimStart_digits s H), (take_sign_digits s H).
  cbn [Z.eqb Z.ltb Z.compare negb andb orb].
  rewrite (strip_0x_digits s (digit_string_chars s H)).
  change (Z.to_N 10) with 10%N.
  rewrite (span_all (is_radix_digit 10) s).
  - rewrite (digit_string_truthy s H). f_equal. lia.
  - generalize (digit_string_chars s H). apply forall_chars_impl.
    exact digit_is_decimal.
Qed.

Lemma non_decimal_literal_digits s :
  forall_chars is_digit s = true -> non_decimal_literal s = None.
Proof.
  destruct s as [|c [|x r]]; simpl; try reflexivity.
  intros H. apply andb_true_iff in H as [_ H].
  apply andb_true_iff in H as [Hx _].
  destruct (digit_not_radix_letter x Hx) as (E1 & E2 & E3).
  rewrite E1, E2, E3. simpl. now destruct (Ascii.eqb c "0").
Qed.

Lemma StringToBigInt_digits s :
  digit_string s = true -> StringToBigInt s = Some (digits_value 10 s).
Proof.
  intros H. unfold StringToBigInt.
  rewrite (trim_digits s H), (digit_string_truthy s H). simpl negb. cbv iota.
  rewrite (non_decimal_literal_digits s (digit_string_chars s H)).
  rewrite (take_sign_digits s H).
  rewrite (digit_string_truthy s H), (digit_string_chars s H). simpl.
  f_equal. destruct (digits_value 10 s); reflexivity.
Qed.

Lemma BigInt_digits s :
  digit_string s = true -> BigInt s = inr (digits_value 10 s).
Proof. intros H. unfold BigInt. now rewrite (StringToBigInt_digits s H). Qed.

Lemma scan_numeric_digits s :
  digit_string s = true ->
  BigNumber.scan_numeric s
  = Some {| BigNumber.lit_negative := false; BigNumber.lit_int := s;
            BigNumber.lit_frac := ""; BigNumber.lit_exp := 0 |}.
Proof.
  intros H. unfold BigNumber.scan_numeric.
  rewrite (take_minus_digits s H).
  rewrite (span_all is_digit s (digit_string_chars s H)).
  rewrite (digit_string_truthy s H). reflexivity.
Qed.

Lemma new_digits_literal s :
  digit_string s = true ->
  BigNumber.new s
  = BigNumber.of_literal
      {| BigNumber.lit_negative := false; BigNumber.lit_int := s;
         BigNumber.lit_frac := ""; BigNumber.lit_exp := 0 |}.
Proof.
  intros H. unfold BigNumber.new. cbn [BigNumber.new_with_fuel].
  now rewrite (scan_numeric_digits s H).
Qed.

(** On a plain decimal numeral the constructor yields the value of the
    digits, or plus infinity when the numeral has more significant digits
    than the exponent range allows; the value is then above [10 ^ MAX_EXP]. *)
Lemma new_digits s :
  digit_string s = true ->
  BigNumber.new s = BigNumber.Finite (digits_value 10 s) 0
  \/ (BigNumber.new s = BigNumber.Infinity false
      /\ 10 ^ BigNumber.MAX_EXP <= digits_value 10 s
      /\ BigNumber.MAX_EXP < Z.of_nat (String.length s)).
Proof.
  intros H. rewrite (new_digits_literal s H). unfold BigNumber.of_literal.
  cbn [BigNumber.lit_negative BigNumber.lit_int BigNumber.lit_frac
       BigNumber.lit_exp].
  rewrite app_empty_r.
  destruct (span BigNumber.is_zero_digit s) as [zeros significant] eqn:E.
  pose proof (span_app _ _ _ _ E) as Hs.
  pose proof (span_prefix _ _ _ _ E) as Hz.
  assert (Hval : digits_value 10 s = digits_value 10 significant).
  { unfold digits_value. rewrite Hs.
    now rewrite (digits_from_leading_zeros 10 zeros significant Hz). }
  assert (Hlen : Z.of_nat (String.length s)
                 = Z.of_nat (String.length zeros)
                   + Z.of_nat (String.length significant)).
  { rewrite Hs, length_app. lia. }
  destruct significant as [|c r].
  - left. cbn [truthy]. rewrite Hval. reflexivity.
  - cbn [truthy]. cbn [String.length] in Hlen.
    assert (Hc : is_digit c = true).
    { pose proof (digit_string_chars s H) as Hd. rewrite Hs in Hd.
      rewrite forall_chars_app in Hd. apply andb_true_iff in Hd as [_ Hd].
      simpl in Hd. now apply andb_true_iff in Hd. }
    pose proof (span_rest _ _ _ _ _ E) as Hnz.
    pose proof (digits_from_lower_bound c r Hc Hnz) as Hlow.
    destruct (BigNumber.MAX_EXP <? _) eqn:Hover.
    + right. split; [reflexivity|]. apply Z.ltb_lt in Hover. split; [|lia].
      rewrite Hval. unfold digits_value.
      apply N2Z.inj_le in Hlow. rewrite N2Z.inj_pow in Hlow.
      rewrite nat_N_Z in Hlow. change (Z.of_N 10) with 10 in Hlow.
      eapply Z.le_trans; [|exact Hlow].
      apply Z.pow_le_mono_r; lia.
    + destruct (_ <? BigNumber.MIN_EXP) eqn:Hunder.
      * apply Z.ltb_lt in Hunder. unfold BigNumber.MIN_EXP in Hunder. lia.
      * left. unfold BigNumber.signed. do 2 f_equal.
Qed.

End ParserFacts.

(* ================================================================== *)
(** * The nested constructions of the bignumber.js parser end *)
(* ================================================================== *)

Module BigNumberFacts.
Import JS ParserFacts.

Lemma word_or_dot_not_space c :
  BigNumber.is_word_or_dot c = true -> is_space c = false.
Proof. intros H. by_cases_on c. Qed.

Lemma word_or_dot_not_plus c :
  BigNumber.is_word_or_dot c = true -> Ascii.eqb c "+" = false.
Proof. intros H. by_cases_on c. Qed.

Lemma word_not_sign_or_dot c :
  is_word c = true ->
  Ascii.eqb c "-" = false /\ Ascii.eqb c "." = false
  /\ BigNumber.is_word_or_dot c = true.
Proof. intros H. by_cases_on c. Qed.

Lemma minus_not_space_or_plus :
  is_space "-" = false /\ Ascii.eqb "-" "+" = false.
Proof. split; reflexivity. Qed.

(** ** Trimming *)

Lemma trimStart_head v c r : trimStart v = String c r -> is_space c = false.
Proof.
  induction v as [|d v IH]; simpl; [discriminate|].
  destruct (is_space d) eqn:E; [exact IH|].
  intros H. inversion H; subst. exact E.
Qed.

Lemma trimEnd_cons_inv s c r' :
  trimEnd s = String c r' -> exists r, s = String c r /\ trimEnd r = r'.
Proof.
  destruct s as [|d r]; simpl; [discriminate|].
  destruct (trimEnd r) as [|e r''] eqn:E.
  - destruct (is_space d); [discriminate|].
    intros H. inversion H; subst. now exists r.
  - intros H. inversion H; subst. now exists r.
Qed.

Lemma trimEnd_idempotent s : trimEnd (trimEnd s) = trimEnd s.
Proof.
  induction s as [|c r IH]; simpl; [reflexivity|].
  destruct (trimEnd r) as [|d r'] eqn:E.
  - destruct (is_space c) eqn:Hc; [reflexivity|]. simpl. now rewrite Hc.
  - cbn [trimEnd] in IH |- *. fold (trimEnd (String d r')).
    now rewrite IH.
Qed.

Lemma trimEnd_no_space s :
  forall_chars (fun c => negb (is_space c)) s = true -> trimEnd s = s.
Proof.
  induction s as [|c r IH]; simpl; [reflexivity|].
  intros H. apply andb_true_iff in H as [Hc Hr]. rewrite (IH Hr).
  apply negb_true_iff in Hc. destruct r; [now rewrite Hc | reflexivity].
Qed.

Lemma trimStart_fixed c r : is_space c = false -> trimStart (String c r) = String c r.
Proof. intros H. simpl. now rewrite H. Qed.

(** [str.replace(whitespaceOrPlus, '')] finds nothing to remove in its own
    result. *)
Lemma drop_leading_plus_head t c r :
  (forall c r, t = String c r -> is_space c = false) ->
  BigNumber.drop_leading_plus t = String c r -> is_space c = false.
Proof.
  intros Ht. unfold BigNumber.drop_leading_plus.
  destruct t as [|c0 [|d0 r0]]; try (now apply Ht).
  destruct (Ascii.eqb c0 "+" && (is_word d0 || Ascii.eqb d0 ".")) eqn:P;
    [|now apply Ht].
  intros H. inversion H; subst. apply andb_true_iff in P as [_ P].
  now apply word_or_dot_not_space.
Qed.

Lemma drop_leading_plus_done t d r :
  BigNumber.drop_leading_plus t = String "+" (String d r) ->
  (is_word d || Ascii.eqb d ".") = false.
Proof.
  unfold BigNumber.drop_leading_plus.
  destruct t as [|c0 [|d0 r0]]; try discriminate.
  destruct (Ascii.eqb c0 "+" && (is_word d0 || Ascii.eqb d0 ".")) eqn:P.
  - intros H. inversion H; subst. apply andb_true_iff in P as [_ P].
    apply word_or_dot_not_plus in P. discriminate P.
  - intros H. inversion H; subst. exact P.
Qed.

Lemma strip_space_plus_idempotent v :
  BigNumber.strip_space_plus (BigNumber.strip_space_plus v)
  = BigNumber.strip_space_plus v.
Proof.
  unfold BigNumber.strip_space_plus.
  pose proof (drop_leading_plus_head (trimStart v)) as Hhead.
  pose proof (drop_leading_plus_done (trimStart v)) as Hplus.
  set (t1 := BigNumber.drop_leading_plus (trimStart v)) in *.
  clearbody t1.
  destruct (trimEnd t1) as [|c r'] eqn:E; [reflexivity|].
  destruct (trimEnd_cons_inv _ _ _ E) as (r & -> & Hr).
  assert (Hc : is_space c = false).
  { apply (Hhead c r); [|reflexivity]. apply trimStart_head. }
  rewrite (trimStart_fixed c r' Hc).
  assert (Hsame : BigNumber.drop_leading_plus (String c r') = String c r').
  { unfold BigNumber.drop_leading_plus. destruct r' as [|d r0]; [reflexivity|].
    destruct (Ascii.eqb_spec c "+") as [-> | Hne]; [|reflexivity].
    destruct (trimEnd_cons_inv _ _ _ Hr) as (r1 & -> & _).
    now rewrite (Hplus d r1 eq_refl). }
  rewrite Hsame, <- E. apply trimEnd_idempotent.
Qed.

(** The constructor without a base needs one nested construction at most. *)
Lemma new_with_fuel_stripped v k k' :
  BigNumber.new_with_fuel k (BigNumber.strip_space_plus v)
  = BigNumber.new_with_fuel k' (BigNumber.strip_space_plus v).
Proof.
  destruct k, k'; cbn [BigNumber.new_with_fuel];
    rewrite strip_space_plus_idempotent, String.eqb_refl; reflexivity.
Qed.

Lemma new_fuel_irrelevant n v :
  BigNumber.new_with_fuel (S n) v = BigNumber.new v.
Proof.
  unfold BigNumber.new. cbn [BigNumber.new_with_fuel].
  destruct (BigNumber.scan_numeric v); [reflexivity|].
  destruct (BigNumber.infinity_or_nan _); [reflexivity|].
  destruct (BigNumber.base_prefix _) as [[base kept]|]; [reflexivity|].
  destruct (String.eqb _ _); [reflexivity|].
  apply new_with_fuel_stripped.
Qed.

(** ** Numerals with a base prefix *)

Lemma take_minus_length s (negative : bool) r :
  BigNumber.take_minus s = (negative, r) ->
  String.length s = ((if negative then 1 else 0) + String.length r)%nat.
Proof.
  destruct s as [|c s]; simpl.
  - intros H. now inversion H.
  - destruct (Ascii.eqb c "-"); intros H; now inversion H.
Qed.

Lemma base_body_inv v :
  base_body v = true ->
  exists (negative : bool) w rest,
    v = (if negative then String "-" (String w rest) else String w rest)
    /\ is_word w = true
    /\ forall_chars BigNumber.is_word_or_dot rest = true.
Proof.
  unfold base_body. destruct v as [|c v]; simpl; [discriminate|].
  destruct (Ascii.eqb_spec c "-") as [-> | Hc]; simpl.
  - destruct v as [|w rest]; [discriminate|]. intros H.
    apply andb_true_iff in H as [Hw Hr]. now exists true, w, rest.
  - intros H. apply andb_true_iff in H as [Hw Hr]. now exists false, c, v.
Qed.

Lemma base_body_intro (negative : bool) w rest :
  is_word w = true -> forall_chars BigNumber.is_word_or_dot rest = true ->
  base_body (if negative then String "-" (String w rest) else String w rest)
  = true.
Proof.
  intros Hw Hr. destruct (word_not_sign_or_dot w Hw) as (Hm & _ & _).
  unfold base_body. destruct negative; simpl.
  - now rewrite Hw, Hr.
  - rewrite Hm. simpl. now rewrite Hw, Hr.
Qed.

Lemma base_prefix_shorter s base kept :
  BigNumber.base_prefix s = Some (base, kept) ->
  base_body kept = true /\ (String.length kept < String.length s)%nat.
Proof.
  unfold BigNumber.base_prefix.
  destruct (BigNumber.take_minus s) as [negative r] eqn:E.
  pose proof (take_minus_length _ _ _ E) as Hlen.
  destruct r as [|z [|x [|w rest]]]; try discriminate.
  destruct (Ascii.eqb z "0" && is_word w
            && forall_chars BigNumber.is_word_or_dot rest) eqn:G;
    [|discriminate].
  apply andb_true_iff in G as [G Hr]. apply andb_true_iff in G as [_ Hw].
  assert (Hkept : base_body (if negative then String "-" (String w rest)
                             else String w rest) = true
                  /\ (String.length (if negative
                                     then String "-" (String w rest)
                                     else String w rest)
                      < String.length s)%nat).
  { split; [now apply base_body_intro|].
    rewrite Hlen. destruct negative; simpl; lia. }
  destruct (Ascii.eqb (toLowerChar x) "x");
    [intros H; inversion H; subst; exact Hkept|].
  destruct (Ascii.eqb (toLowerChar x) "b");
    [intros H; inversion H; subst; exact Hkept|].
  destruct (Ascii.eqb (toLowerChar x) "o");
    [intros H; inversion H; subst; exact Hkept | discriminate].
Qed.

Lemma base_body_no_space v :
  base_body v = true ->
  forall_chars (fun c => negb (is_space c)) v = true.
Proof.
  intros H. destruct (base_body_inv v H) as (negative & w & rest & -> & Hw & Hr).
  destruct (word_not_sign_or_dot w Hw) as (_ & _ & Hwd).
  assert (Hrest : forall_chars (fun c => negb (is_space c)) rest = true).
  { revert Hr. apply forall_chars_impl. intros c Hc.
    now rewrite (word_or_dot_not_space c Hc). }
  destruct negative; simpl; rewrite (word_or_dot_not_space w Hwd), Hrest;
    reflexivity.
Qed.

Lemma strip_space_plus_body v :
  base_body v = true -> BigNumber.strip_space_plus v = v.
Proof.
  intros H. pose proof (base_body_no_space v H) as Hns.
  destruct (base_body_inv v H) as (negative & w & rest & E & Hw & Hr).
  destruct (word_not_sign_or_dot w Hw) as (_ & _ & Hwd).
  unfold BigNumber.strip_space_plus.
  assert (Hstart : trimStart v = v).
  { rewrite E. destruct negative; apply trimStart_fixed;
      [reflexivity | now apply word_or_dot_not_space]. }
  rewrite Hstart.
  assert (Hplus : BigNumber.drop_leading_plus v = v).
  { rewrite E. unfold BigNumber.drop_leading_plus. destruct negative.
    - reflexivity.
    - destruct rest; [reflexivity|].
      now rewrite (word_or_dot_not_plus w Hwd). }
  rewrite Hplus. now apply trimEnd_no_space.
Qed.

Lemma dotAfter_tail_spec s r :
  BigNumber.dotAfter_tail s = Some r -> s = r ++ ".".
Proof.
  revert r. induction s as [|c s IH]; intros r; [discriminate|].
  cbn [BigNumber.dotAfter_tail]. destruct s as [|d s'].
  - destruct (Ascii.eqb_spec c "."); [|discriminate].
    intros H. inversion H; subst. reflexivity.
  - destruct (Ascii.eqb c "."); [discriminate|].
    destruct (BigNumber.dotAfter_tail (String d s')) as [r'|]; [|discriminate].
    intros H. inversion H; subst. simpl. now rewrite (IH r' eq_refl).
Qed.

Lemma dotAfter_cases s :
  BigNumber.dotAfter s = s
  \/ (BigNumber.dotAfter s <> "" /\ s = BigNumber.dotAfter s ++ ".").
Proof.
  unfold BigNumber.dotAfter.
  destruct (BigNumber.dotAfter_tail s) as [r|] eqn:E; [|now left].
  destruct r as [|c r]; [now left|]. right.
  split; [discriminate|]. now apply dotAfter_tail_spec.
Qed.

Lemma base_body_drop_dot r :
  r <> "" -> base_body (r ++ ".") = true -> base_body r = true.
Proof.
  intros Hne H.
  destruct (base_body_inv _ H) as (negative & w & rest & E & Hw & Hr).
  assert (Hrest : forall a, rest = a ++ "." ->
                  forall_chars BigNumber.is_word_or_dot a = true).
  { intros a ->. rewrite forall_chars_app in Hr.
    now apply andb_true_iff in Hr. }
  destruct (word_not_sign_or_dot w Hw) as (_ & Hdot & _).
  destruct negative.
  - destruct r as [|c [|d r]]; [contradiction| |].
    + simpl in E. inversion E; subst. discriminate Hdot.
    + simpl in E. inversion E; subst.
      apply (base_body_intro true); [exact Hw | now apply Hrest].
  - destruct r as [|c r]; [contradiction|].
    simpl in E. inversion E; subst.
    apply (base_body_intro false); [exact Hw | now apply Hrest].
Qed.

Lemma dotBefore_body s : base_body s = true -> BigNumber.dotBefore s = s.
Proof.
  intros H. destruct (base_body_inv s H) as (negative & w & rest & -> & Hw & _).
  destruct (word_not_sign_or_dot w Hw) as (_ & Hdot & _).
  destruct negative; simpl; [reflexivity | now rewrite Hdot].
Qed.

(** What [parseNumeric] hands back to the constructor, for a numeral [v]
    behind a base prefix: [v] itself, or a shorter numeral of the same
    kind. *)
Lemma reparsed_shorter b v :
  base_body v = true ->
  let s :=
    match BigNumber.base_prefix (BigNumber.strip_space_plus v) with
    | Some (base, kept) =>
        if (b =? base)%N then kept else BigNumber.strip_space_plus v
    | None => BigNumber.strip_space_plus v
    end in
  let s' := BigNumber.dotBefore (BigNumber.dotAfter s) in
  s' = v \/ (base_body s' = true /\ (String.length s' < String.length v)%nat).
Proof.
  intros H. rewrite (strip_space_plus_body v H). cbv zeta.
  set (s := match BigNumber.base_prefix v with
            | Some (base, kept) => if (b =? base)%N then kept else v
            | None => v
            end).
  assert (Hs : base_body s = true
               /\ (s = v \/ (String.length s < String.length v)%nat)).
  { subst s. destruct (BigNumber.base_prefix v) as [[base kept]|] eqn:E.
    - destruct (b =? base)%N; [|now split; [|left]].
      destruct (base_prefix_shorter _ _ _ E) as (Hk & Hl).
      split; [exact Hk | now right].
    - now split; [|left]. }
  destruct Hs as (Hbody & Hlen). clearbody s.
  destruct (dotAfter_cases s) as [E | (Hne & E)].
  - rewrite E, (dotBefore_body s Hbody).
    destruct Hlen as [-> | Hlen]; [now left | right; now split].
  - assert (Hb : base_body (BigNumber.dotAfter s) = true).
    { apply base_body_drop_dot; [exact Hne | now rewrite <- E]. }
    rewrite (dotBefore_body _ Hb). right. split; [exact Hb|].
    assert (String.length s = S (String.length (BigNumber.dotAfter s))).
    { rewrite E at 1. rewrite length_app. simpl. lia. }
    destruct Hlen as [-> | Hlen]; lia.
Qed.

(** The fuel given to [new_in_base] is never used up: any two amounts
    above the length of the numeral give the same number. *)
Lemma new_in_base_fuel b n :
  forall m v,
    base_body v = true ->
    (String.length v < n)%nat -> (String.length v < m)%nat ->
    BigNumber.new_in_base n b v = BigNumber.new_in_base m b v.
Proof.
  induction n as [|n IH]; intros m v Hbody Hn Hm; [lia|].
  destruct m as [|m]; [lia|].
  cbn [BigNumber.new_in_base].
  destruct (BigNumber.take_minus v) as [negative str].
  destruct (BigNumber.base_numeral b str); [reflexivity|].
  destruct (BigNumber.infinity_or_nan _); [reflexivity|].
  pose proof (reparsed_shorter b v Hbody) as Hs. cbv zeta in Hs.
  destruct (String.eqb_spec v
              (BigNumber.dotBefore
                 (BigNumber.dotAfter
                    match BigNumber.base_prefix (BigNumber.strip_space_plus v) with
                    | Some (base, kept) =>
                        if (b =? base)%N then kept
                        else BigNumber.strip_space_plus v
                    | None => BigNumber.strip_space_plus v
                    end))) as [E | E];
    [reflexivity|].
  destruct Hs as [Hs | (Hb & Hl)]; [congruence|].
  apply IH; [exact Hb | lia | lia].
Qed.

End BigNumberFacts.

(* ================================================================== *)
(** * Facts about validation and the derived values *)
(* ================================================================== *)

Module ValidationFacts.
Import JS PostageStampAdvancedCreation ParserFacts.

Lemma truthy_of_nonempty s : s <> "" -> truthy s = true.
Proof. apply truthy_true. Qed.
Lemma pow_MAX_EXP_large : 1000 <= 10 ^ BigNumber.MAX_EXP.
Proof.
  change 1000 with (10 ^ 3). apply Z.pow_le_mono_r; [lia|].
  unfold BigNumber.MAX_EXP. lia.
Qed.

(** The five ways [validateAmountInput] ends, with the guards that lead to
    each. *)
Lemma validateAmountInput_cases text st :
  let st' := validateAmountInput text st in
  (text = "" /\ amountError st' = "Required field" /\ amountInput st' = "0")
  \/ (text <> "" /\ -1 < indexOf "." text
      /\ amountError st' = "Amount must be an integer" /\ amountInput st' = "0")
  \/ (text <> "" /\ indexOf "." text = -1
      /\ BigNumber.isNaN (BigNumber.new text) = true
      /\ amountError st' = "Amount must contain only digits"
      /\ amountInput st' = "0")
  \/ (text <> "" /\ indexOf "." text = -1
      /\ BigNumber.isNaN (BigNumber.new text) = false
      /\ BigNumber.isLessThanOrEqualTo (BigNumber.new text) 0 = true
      /\ amountError st' = "Amount must be greater than 0"
      /\ amountInput st' = "0")
  \/ (text <> "" /\ indexOf "." text = -1
      /\ BigNumber.isNaN (BigNumber.new text) = false
      /\ BigNumber.isLessThanOrEqualTo (BigNumber.new text) 0 = false
      /\ amountError st' = "" /\ amountInput st' = text).
Proof.
  cbv zeta. unfold validateAmountInput.
  destruct (truthy text) eqn:Ht; cbn [negb].
  2:{ left. apply truthy_false in Ht. now repeat split. }
  apply truthy_true in Ht. right.
  pose proof (indexOf_bounds "." text) as Hb.
  destruct (-1 <? indexOf "." text) eqn:Hdot.
  { left. apply Z.ltb_lt in Hdot. now repeat split. }
  apply Z.ltb_ge in Hdot. assert (Hi : indexOf "." text = -1) by lia.
  right.
  destruct (BigNumber.isNaN (BigNumber.new text)) eqn:Hnan.
  { left. now repeat split. }
  right.
  destruct (BigNumber.isLessThanOrEqualTo (BigNumber.new text) 0) eqn:Hle.
  { left. now repeat split. }
  right. now repeat split.
Qed.

Lemma validateDepthInput_cases text st :
  let st' := validateDepthInput text st in
  (text = "" /\ depthError st' = "Required field" /\ depthInput st' = "0")
  \/ (text <> "" /\ BigNumber.isInteger (BigNumber.new text) = false
      /\ depthError st' = "Depth must be an integer" /\ depthInput st' = "0")
  \/ (text <> "" /\ BigNumber.isInteger (BigNumber.new text) = true
      /\ BigNumber.isLessThan (BigNumber.new text) 17 = true
      /\ depthError st' = "Minimal depth is 17" /\ depthInput st' = "0")
  \/ (text <> "" /\ BigNumber.isInteger (BigNumber.new text) = true
      /\ BigNumber.isLessThan (BigNumber.new text) 17 = false
      /\ BigNumber.isGreaterThan (BigNumber.new text) 255 = true
      /\ depthError st' = "Depth has to be at most 255"
      /\ depthInput st' = "0")
  \/ (text <> "" /\ BigNumber.isInteger (BigNumber.new text) = true
      /\ BigNumber.isLessThan (BigNumber.new text) 17 = false
      /\ BigNumber.isGreaterThan (BigNumber.new text) 255 = false
      /\ depthError st' = "" /\ depthInput st' = text).
Proof.
  cbv zeta. unfold validateDepthInput.
  destruct (truthy text) eqn:Ht; cbn [negb].
  2:{ left. apply truthy_false in Ht. now repeat split. }
  apply truthy_true in Ht. right.
  destruct (BigNumber.isInteger (BigNumber.new text)) eqn:Hint; cbn [negb].
  2:{ left. now repeat split. }
  right.
  destruct (BigNumber.isLessThan (BigNumber.new text) 17) eqn:Hlt.
  { left. now repeat split. }
  right.
  destruct (BigNumber.isGreaterThan (BigNumber.new text) 255) eqn:Hgt.
  { left. now repeat split. }
  right. now repeat split.
Qed.

(** Validation of one field leaves the other cells alone. *)
Lemma validateAmountInput_frame text st :
  let st' := validateAmountInput text st in
  depthInput st' = depthInput st /\ depthError st' = depthError st
  /\ labelInput st' = labelInput st /\ immutable st' = immutable st
  /\ submitting st' = submitting st.
Proof.
  cbv zeta. unfold validateAmountInput.
  destruct (if negb (truthy text) then _ else _) as [err v].
  now repeat split.
Qed.

Lemma validateDepthInput_frame text st :
  let st' := validateDepthInput text st in
  amountInput st' = amountInput st /\ amountError st' = amountError st
  /\ labelInput st' = labelInput st /\ immutable st' = immutable st
  /\ submitting st' = submitting st.
Proof.
  cbv zeta. unfold validateDepthInput.
  destruct (if negb (truthy text) then _ else _) as [err v].
  now repeat split.
Qed.

(** A greater-than-255 value is not less than 17. *)
Lemma isGreaterThan_255_not_isLessThan_17 x :
  BigNumber.isGreaterThan x 255 = true -> BigNumber.isLessThan x 17 = false.
Proof.
  unfold BigNumber.isGreaterThan, BigNumber.isLessThan, BigNumber.comparedTo.
  destruct x as [|negative|m e]; try discriminate.
  - destruct negative; [discriminate | reflexivity].
  - destruct (0 <=? e).
    + generalize (m * 10 ^ e). intros p.
      destruct (Z.compare_spec p 255); try discriminate. intros _.
      destruct (Z.compare_spec p 17); try reflexivity. lia.
    + assert (Hq : 0 <= 10 ^ (- e)) by (apply Z.pow_nonneg; lia).
      revert Hq. generalize (10 ^ (- e)). intros q Hq.
      destruct (Z.compare_spec m (255 * q)); try discriminate. intros _.
      destruct (Z.compare_spec m (17 * q)); try reflexivity. lia.
Qed.

(** The predicates on the value of a plain decimal numeral. *)
Lemma comparedTo_integer v k :
  BigNumber.comparedTo (BigNumber.Finite v 0) k = Some (v ?= k).
Proof. unfold BigNumber.comparedTo. cbn. now rewrite Z.mul_1_r. Qed.

Lemma digits_value_nonneg R s : 0 <= digits_value R s.
Proof. unfold digits_value. lia. Qed.

Lemma amount_digits_accepted s st :
  digit_string s = true -> 0 < digits_value 10 s ->
  amountError (validateAmountInput s st) = ""
  /\ amountInput (validateAmountInput s st) = s.
Proof.
  intros H Hpos.
  destruct (validateAmountInput_cases s st)
    as [(E & _) | [(_ & Hdot & _) | [(_ & _ & Hnan & _)
       | [(_ & _ & _ & Hle & _) | (_ & _ & _ & _ & He & Hv)]]]].
  - apply digit_string_truthy, truthy_true in H. contradiction.
  - rewrite (digits_no_dot s (digit_string_chars s H)) in Hdot. lia.
  - destruct (new_digits s H) as [E | (E & _)]; rewrite E in Hnan;
      discriminate.
  - exfalso. destruct (new_digits s H) as [E | (E & _)]; rewrite E in Hle.
    + unfold BigNumber.isLessThanOrEqualTo in Hle.
      rewrite comparedTo_integer in Hle.
      destruct (Z.compare_spec (digits_value 10 s) 0); try discriminate; lia.
    + discriminate.
  - now split.
Qed.

Lemma amount_digits_zero s st :
  digit_string s = true -> digits_value 10 s = 0 ->
  amountError (validateAmountInput s st) = "Amount must be greater than 0"
  /\ amountInput (validateAmountInput s st) = "0".
Proof.
  intros H Hzero.
  assert (Hnew : BigNumber.new s = BigNumber.Finite 0 0).
  { destruct (new_digits s H) as [E | (_ & Hbig & _)].
    - now rewrite E, Hzero.
    - pose proof pow_MAX_EXP_large as Hl. rewrite Hzero in Hbig.
      revert Hbig Hl. generalize (10 ^ BigNumber.MAX_EXP). intros; lia. }
  destruct (validateAmountInput_cases s st)
    as [(E & _) | [(_ & Hdot & _) | [(_ & _ & Hnan & _)
       | [(_ & _ & _ & _ & He & Hv) | (_ & _ & _ & Hle & _)]]]].
  - apply digit_string_truthy, truthy_true in H. contradiction.
  - rewrite (digits_no_dot s (digit_string_chars s H)) in Hdot. lia.
  - rewrite Hnew in Hnan. discriminate.
  - now split.
  - rewrite Hnew in Hle. discriminate.
Qed.

(** The depth predicates on a plain decimal numeral inside the exponent
    range. *)
Lemma depth_digits_finite s :
  digit_string s = true ->
  digits_value 10 s <= 255 \/ Z.of_nat (String.length s) <= BigNumber.MAX_EXP ->
  BigNumber.new s = BigNumber.Finite (digits_value 10 s) 0.
Proof.
  intros H Hsmall.
  destruct (new_digits s H) as [E | (_ & Hbig & Hlen)]; [exact E|].
  exfalso. destruct Hsmall as [Hsmall | Hsmall]; [|lia].
  pose proof pow_MAX_EXP_large as Hl.
  revert Hbig Hl. generalize (10 ^ BigNumber.MAX_EXP). intros; lia.
Qed.

Lemma depth_digits_verdict s st :
  digit_string s = true ->
  let d := digits_value 10 s in
  let st' := validateDepthInput s st in
  (d < 17 -> depthError st' = "Minimal depth is 17" /\ depthInput st' = "0")
  /\ (17 <= d <= 255 -> depthError st' = "" /\ depthInput st' = s)
  /\ (255 < d -> Z.of_nat (String.length s) <= BigNumber.MAX_EXP ->
      depthError st' = "Depth has to be at most 255" /\ depthInput st' = "0").
Proof.
  intros H d st'. subst d st'.
  assert (Hne : s <> "") by (apply truthy_true, digit_string_truthy, H).
  assert (Hcases :
    BigNumber.new s = BigNumber.Finite (digits_value 10 s) 0 ->
    forall lt gt,
      (if digits_value 10 s <? 17 then true else false) = lt ->
      (if 255 <? digits_value 10 s then true else false) = gt ->
      BigNumber.isInteger (BigNumber.new s) = true
      /\ BigNumber.isLessThan (BigNumber.new s) 17 = lt
      /\ BigNumber.isGreaterThan (BigNumber.new s) 255 = gt).
  { intros E lt gt <- <-. rewrite E.
    unfold BigNumber.isLessThan, BigNumber.isGreaterThan.
    rewrite !comparedTo_integer. split; [reflexivity|].
    unfold Z.ltb. rewrite (Z.compare_antisym (digits_value 10 s) 255).
    destruct (digits_value 10 s ?= 17), (digits_value 10 s ?= 255);
      split; reflexivity. }
  pose proof (validateDepthInput_cases s st) as Hv. cbv zeta in Hv.
  split; [|split].
  - intros Hd.
    assert (Hfin : digits_value 10 s <= 255
                   \/ Z.of_nat (String.length s) <= BigNumber.MAX_EXP)
      by (left; lia).
    destruct (Hcases (depth_digits_finite s H Hfin) true false)
      as (Hi & Hlt & Hgt).
    { destruct (Z.ltb_spec (digits_value 10 s) 17); [reflexivity | lia]. }
    { destruct (Z.ltb_spec 255 (digits_value 10 s)); [lia | reflexivity]. }
    destruct Hv as [(E & _) | [(_ & Hn & _) | [(_ & _ & _ & He & Hs)
       | [(_ & _ & Hn & _) | (_ & _ & Hn & _)]]]]; try congruence.
    now split.
  - intros Hd.
    assert (Hfin : digits_value 10 s <= 255
                   \/ Z.of_nat (String.length s) <= BigNumber.MAX_EXP)
      by (left; lia).
    destruct (Hcases (depth_digits_finite s H Hfin) false false)
      as (Hi & Hlt & Hgt).
    { destruct (Z.ltb_spec (digits_value 10 s) 17); [lia | reflexivity]. }
    { destruct (Z.ltb_spec 255 (digits_value 10 s)); [lia | reflexivity]. }
    destruct Hv as [(E & _) | [(_ & Hn & _) | [(_ & _ & Hn & _)
       | [(_ & _ & _ & Hn & _) | (_ & _ & _ & _ & He & Hs)]]]]; try congruence.
    now split.
  - intros Hd Hlen.
    destruct (Hcases (depth_digits_finite s H (or_intror Hlen))
                false true) as (Hi & Hlt & Hgt).
    { destruct (Z.ltb_spec (digits_value 10 s) 17); [lia | reflexivity]. }
    { destruct (Z.ltb_spec 255 (digits_value 10 s)); [reflexivity | lia]. }
    destruct Hv as [(E & _) | [(_ & Hn & _) | [(_ & _ & Hn & _)
       | [(_ & _ & _ & _ & He & Hs) | (_ & _ & _ & Hn & _)]]]]; try congruence.
    now split.
Qed.

Lemma handle_all_snoc l a st :
  handle_all (l ++ [a])%list st = handle a (handle_all l st).
Proof. unfold handle_all. now rewrite fold_left_app. Qed.

Lemma amount_stored text st :
  let st' := validateAmountInput text st in
  amountInput st' <> ""
  /\ (amountInput st' = "0" <-> amountError st' <> "")
  /\ (amountError st' = "" -> amountInput st' = text)
  /\ (amountInput st' = text <-> amountError st' = "" \/ text = "0").
Proof.
  cbv zeta.
  destruct (String.eqb_spec text "0") as [-> | Hne0].
  { cbn. repeat split; try congruence; auto. }
  destruct (validateAmountInput_cases text st)
    as [(E & He & Hs) | [(_ & _ & He & Hs) | [(_ & _ & _ & He & Hs)
       | [(_ & _ & _ & _ & He & Hs) | (Hne & _ & _ & _ & He & Hs)]]]];
    rewrite He, Hs; repeat split; try congruence; try tauto;
    try (intros [H | H]; congruence).
Qed.

Lemma depth_stored text st :
  let st' := validateDepthInput text st in
  depthInput st' <> ""
  /\ (depthInput st' = "0" <-> depthError st' <> "")
  /\ (depthError st' = "" -> depthInput st' = text)
  /\ (depthInput st' = text <-> depthError st' = "" \/ text = "0").
Proof.
  cbv zeta.
  destruct (String.eqb_spec text "0") as [-> | Hne0].
  { cbn. repeat split; try congruence; auto. }
  destruct (validateDepthInput_cases text st)
    as [(E & He & Hs) | [(_ & _ & He & Hs) | [(_ & _ & _ & He & Hs)
       | [(_ & _ & _ & _ & He & Hs) | (Hne & _ & _ & _ & He & Hs)]]]];
    rewrite He, Hs; repeat split; try congruence; try tauto;
    try (intros [H | H]; congruence).
Qed.

Lemma getFileSize_in_range U d :
  17 <= d <= 255 ->
  getFileSize U (Num d)
  = "~" ++ getHumanReadableFileSize U (convertDepthToBytes U (Num d)).
Proof.
  intros H. unfold getFileSize. cbn [isNaN num_lt num_gt orb].
  destruct (Z.ltb_spec d 17); [lia|].
  destruct (Z.ltb_spec 255 d); [lia|]. reflexivity.
Qed.

Lemma fileSizeDisplay_digits U st :
  depthError st = "" -> digit_string (depthInput st) = true ->
  fileSizeDisplay U st = getFileSize U (Num (digits_value 10 (depthInput st))).
Proof.
  intros He Hd. unfold fileSizeDisplay.
  rewrite He, (digit_string_truthy _ Hd), (parseInt_digits _ Hd). reflexivity.
Qed.

Lemma tally_length n : String.length (tally n) = n.
Proof. induction n as [|n IH]; simpl; [reflexivity | now rewrite IH]. Qed.

Lemma ttl_not_placeholder a b : a ++ " (with price of " ++ b ++ " per block)" <> "-".
Proof.
  intros E. apply (f_equal String.length) in E.
  rewrite !length_app in E. cbn in E. lia.
Qed.

Lemma price_not_placeholder a : a ++ " xBZZ" <> "-".
Proof.
  intros E. apply (f_equal String.length) in E.
  rewrite !length_app in E. cbn in E. lia.
Qed.

Lemma getTtl_available U W amount cs :
  chainState W = Some cs -> currentPrice cs <> "" -> num_le amount 0 = false ->
  getTtl U W amount
  = secondsToTimeString U
      (convertAmountToSeconds U amount (parseInt (currentPrice cs) 10))
    ++ " (with price of " ++ toFixed U (parseInt (currentPrice cs) 10) 0
    ++ " per block)".
Proof.
  intros Hcs Hp Ha. unfold getTtl, isCurrentPriceAvailable. rewrite Hcs, Ha.
  apply truthy_true in Hp. rewrite Hp. reflexivity.
Qed.

(** With an accepted amount such as ["1e2"] and an accepted depth, the
    render itself throws: the price line converts the amount to a bigint. *)
Remark priceDisplay_can_throw U st :
  depthError st = "" -> amountError st = "" ->
  depthInput st <> "" -> amountInput st = "1e2" ->
  priceDisplay U st = inl (BigInt_SyntaxError "1e2").
Proof.
  intros Hde Hae Hd Ha. unfold priceDisplay.
  rewrite Hde, Hae, Ha, (truthy_of_nonempty _ Hd). reflexivity.
Qed.

End ValidationFacts.

(* ================================================================== *)
(** * Properties of the components *)
(* ================================================================== *)

Import JS PostageStampAdvancedCreation ParserFacts ValidationFacts.

(** ** Submission *)

(** C1. A successful run of [submit]: the depth and amount cells are not
    empty, the API client is present, the amount converts to a bigint, and
    the batch creation, the confirmation wait, the refresh and [onFinished]
    all succeed.  Then [createPostageBatch] is called once, with the amount
    as a bigint printed in decimal and the depth as [Number.parseInt] reads
    it; then [waitUntilStampExists] is called with the batch id that was
    returned; then the stamp list is refreshed once; then [onFinished] is
    called once; and the submitting flag is false at the end. *)
Theorem C1_submit_success (W : World) (st : State) (api : BeeDebugApi)
    (amount : Z) (batchId : BatchId) :
  depthInput st <> "" ->
  amountInput st <> "" ->
  beeDebugApi W = Some api ->
  BigInt (amountInput st) = inr amount ->
  createPostageBatch api (BigInt_toString amount)
    (parseInt (depthInput st) 0) (postageBatchOptions st) = inr batchId ->
  waitUntilStampExists W batchId api = inr tt ->
  Stamps_refresh W = inr tt ->
  onFinished W = inr tt ->
  submit W st =
    ([SetSubmitting true;
      CreatePostageBatch (BigInt_toString amount) (parseInt (depthInput st) 0)
                         (postageBatchOptions st);
      WaitUntilStampExists batchId;
      StampsRefresh;
      OnFinished;
      SetSubmitting false], Eff.Normal tt)
  /\ count_events is_createPostageBatch (Eff.trace (submit W st)) = 1%nat
  /\ count_events is_refresh (Eff.trace (submit W st)) = 1%nat
  /\ count_events is_onFinished (Eff.trace (submit W st)) = 1%nat
  /\ submitting (after_submit W st) = false.
Proof.
  intros Hd Ha Hapi Hamount Hcreate Hwait Hrefresh Hfin.
  assert (E : submit W st =
    ([SetSubmitting true;
      CreatePostageBatch (BigInt_toString amount) (parseInt (depthInput st) 0)
                         (postageBatchOptions st);
      WaitUntilStampExists batchId;
      StampsRefresh;
      OnFinished;
      SetSubmitting false], Eff.Normal tt)).
  { unfold submit.
    rewrite (truthy_of_nonempty _ Hd), (truthy_of_nonempty _ Ha), Hapi.
    cbn [negb orb]. rewrite Hamount. cbn [Eff.lift Eff.bind Eff.emit app].
    rewrite Hcreate. cbn [Eff.await Eff.call Eff.bind app].
    rewrite Hwait, Hrefresh, Hfin. reflexivity. }
  unfold after_submit. rewrite E. repeat split; reflexivity.
Qed.

Lemma C1_submit_success_witness :
  let st :=
    handle_all [EditLabel "backup"; EditDepth "20"; EditAmount "480000"]
               initial in
  (depthInput st <> "" /\ amountInput st <> ""
   /\ BigInt (amountInput st) = inr 480000)
  /\ submit sample_world st =
       ([SetSubmitting true;
         CreatePostageBatch "480000" (Num 20)
           {| waitForUsable := false; label := Some "backup";
              immutableFlag := false |};
         WaitUntilStampExists "b4tch";
         StampsRefresh;
         OnFinished;
         SetSubmitting false], Eff.Normal tt)
  /\ submitting (after_submit sample_world st) = false.
Proof.
  cbv zeta.
  destruct (C1_submit_success sample_world
              (handle_all
                 [EditLabel "backup"; EditDepth "20"; EditAmount "480000"]
                 initial)
              sample_api 480000 "b4tch")
    as (Hrun & _ & _ & _ & Hflag);
    [discriminate | discriminate | reflexivity..|].
  split; [repeat split; discriminate || reflexivity|].
  split; [exact Hrun | exact Hflag].
Defined.

(** C2. When the batch creation or the confirmation wait throws, [submit]
    catches the exception: it is logged, one error notification with the
    text ["Error: "] followed by the error's message is shown, the stamp
    list is not refreshed, [onFinished] is not called, the submitting flag
    is false at the end, and the form is as it was before the click, so a
    form that could be submitted can be submitted again. *)
Theorem C2_submit_failure (W : World) (st : State) (api : BeeDebugApi)
    (amount : Z) (e : Error) :
  depthInput st <> "" ->
  amountInput st <> "" ->
  beeDebugApi W = Some api ->
  BigInt (amountInput st) = inr amount ->
  let create := CreatePostageBatch (BigInt_toString amount)
                  (parseInt (depthInput st) 0) (postageBatchOptions st) in
  let created := createPostageBatch api (BigInt_toString amount)
                   (parseInt (depthInput st) 0) (postageBatchOptions st) in
  (created = inl e
   \/ exists batchId,
        created = inr batchId /\ waitUntilStampExists W batchId api = inl e) ->
  (exists calls,
     (calls = [create]
      \/ exists batchId, calls = [create; WaitUntilStampExists batchId])
     /\ submit W st =
          (([SetSubmitting true] ++ calls ++
            [ConsoleError e;
             EnqueueSnackbar ("Error: " ++ message e) "error";
             SetSubmitting false])%list, Eff.Normal tt))
  /\ count_events is_notification (Eff.trace (submit W st)) = 1%nat
  /\ count_events is_refresh (Eff.trace (submit W st)) = 0%nat
  /\ count_events is_onFinished (Eff.trace (submit W st)) = 0%nat
  /\ submitting (after_submit W st) = false
  /\ after_submit W st = setSubmitting false st
  /\ (submitDisabled st = false -> submitDisabled (after_submit W st) = false).
Proof.
  intros Hd Ha Hapi Hamount create created Hthrow.
  assert (E : exists calls,
     (calls = [create]
      \/ exists batchId, calls = [create; WaitUntilStampExists batchId])
     /\ submit W st =
          (([SetSubmitting true] ++ calls ++
            [ConsoleError e;
             EnqueueSnackbar ("Error: " ++ message e) "error";
             SetSubmitting false])%list, Eff.Normal tt)).
  { unfold submit.
    rewrite (truthy_of_nonempty _ Hd), (truthy_of_nonempty _ Ha), Hapi.
    cbn [negb orb]. rewrite Hamount. cbn [Eff.lift Eff.bind Eff.emit app].
    fold created. fold create.
    destruct Hthrow as [Hc | (batchId & Hc & Hw)].
    - exists [create]. split; [now left|]. rewrite Hc. reflexivity.
    - exists [create; WaitUntilStampExists batchId].
      split; [right; now exists batchId|].
      rewrite Hc. cbn [Eff.await Eff.call Eff.bind app]. rewrite Hw. reflexivity. }
  split; [exact E|].
  destruct E as (calls & Hcalls & E).
  assert (Hafter : after_submit W st = setSubmitting false st).
  { unfold after_submit. rewrite E.
    destruct Hcalls as [-> | (b & ->)]; reflexivity. }
  rewrite E, Hafter. cbn [Eff.trace fst].
  repeat split.
  - destruct Hcalls as [-> | (b & ->)]; reflexivity.
  - destruct Hcalls as [-> | (b & ->)]; reflexivity.
  - destruct Hcalls as [-> | (b & ->)]; reflexivity.
  - unfold submitDisabled. cbn. intros H.
    apply orb_false_iff in H as [H H5]. apply orb_false_iff in H as [H H4].
    apply orb_false_iff in H as [H H3]. apply orb_false_iff in H as [H1 H2].
    now rewrite H2, H3, H4, H5.
Qed.

Lemma C2_submit_failure_witness :
  let st := handle_all [EditDepth "20"; EditAmount "480000"] initial in
  (createPostageBatch rejecting_api "480000" (Num 20) (postageBatchOptions st)
   = inl {| message := "out of funds" |}
   /\ Eff.trace (submit rejecting_world st) =
        [SetSubmitting true;
         CreatePostageBatch "480000" (Num 20) (postageBatchOptions st);
         ConsoleError {| message := "out of funds" |};
         EnqueueSnackbar "Error: out of funds" "error";
         SetSubmitting false]
   /\ after_submit rejecting_world st = st)
  /\ (waitUntilStampExists stalling_world "b4tch" sample_api
      = inl {| message := "Wait until stamp exists timeout has been reached" |}
      /\ count_events is_refresh (Eff.trace (submit stalling_world st)) = 0%nat
      /\ count_events is_onFinished (Eff.trace (submit stalling_world st))
         = 0%nat
      /\ submitting (after_submit stalling_world st) = false).
Proof.
  cbv zeta. split.
  - destruct (C2_submit_failure rejecting_world
                (handle_all [EditDepth "20"; EditAmount "480000"] initial)
                rejecting_api 480000 {| message := "out of funds" |})
      as ((calls & Hcalls & Hrun) & _ & _ & _ & _ & Hafter & _);
      [discriminate | discriminate | reflexivity | reflexivity
      | left; reflexivity |].
    split; [reflexivity|]. split; [reflexivity | exact Hafter].
  - destruct (C2_submit_failure stalling_world
                (handle_all [EditDepth "20"; EditAmount "480000"] initial)
                sample_api 480000
                {| message :=
                     "Wait until stamp exists timeout has been reached" |})
      as (_ & _ & Hrefresh & Hfinished & Hflag & _);
      [discriminate | discriminate | reflexivity | reflexivity
      | right; exists "b4tch"; split; reflexivity |].
    split; [reflexivity|]. split; [exact Hrefresh|].
    split; [exact Hfinished | exact Hflag].
Defined.

(** C3. The submit button is disabled exactly when a submission is in
    flight, or the depth error is not empty, or the amount error is not
    empty, or the stored depth is empty, or the stored amount is empty.  So
    a click submits nothing while a validation error is present or a
    required field is empty. *)
Theorem C3_submit_disabled (st : State) :
  (submitDisabled st = true <->
   submitting st = true \/ depthError st <> "" \/ amountError st <> ""
   \/ depthInput st = "" \/ amountInput st = "")
  /\ (forall W,
        depthError st <> "" \/ amountError st <> ""
        \/ depthInput st = "" \/ amountInput st = "" ->
        click W st = ([], Eff.Normal tt)).
Proof.
  assert (H : submitDisabled st = true <->
   submitting st = true \/ depthError st <> "" \/ amountError st <> ""
   \/ depthInput st = "" \/ amountInput st = "").
  { unfold submitDisabled.
    rewrite !orb_true_iff, !negb_true_iff.
    rewrite !truthy_true, !truthy_false. tauto. }
  split; [exact H|].
  intros W Hbad. unfold click.
  replace (submitDisabled st) with true; [reflexivity|].
  symmetry. apply H. tauto.
Qed.

Lemma C3_submit_disabled_witness :
  let bad := handle_all [EditDepth "20"; EditAmount "10.5"] initial in
  amountError bad <> ""
  /\ submitDisabled bad = true
  /\ click sample_world bad = ([], Eff.Normal tt).
Proof.
  cbv zeta.
  destruct (C3_submit_disabled
              (handle_all [EditDepth "20"; EditAmount "10.5"] initial))
    as (Hiff & Hclick).
  split; [discriminate|]. split.
  - apply Hiff. right; right; left. discriminate.
  - apply Hclick. right; left. discriminate.
Defined.

(** ** Validation *)

(** C4. Amount validation, for every text.  The clauses are the guards of
    the function in their order: the empty text is a required-field error; a
    text with a decimal point (such as ["10.5"]) is the error ["Amount must
    be an integer"]; otherwise a text that does not parse as a number is the
    digits error, and one whose parsed value is at most 0 (such as ["0"]) is
    the error ["Amount must be greater than 0"].  In every failing case the
    stored amount is ["0"].  Any other text, in particular every plain
    decimal numeral of a positive integer (such as ["100"]), clears the
    error and is stored as typed. *)
Theorem C4_validateAmountInput (text : string) (st : State) :
  let st' := validateAmountInput text st in
  let amount := BigNumber.new text in
  (-1 < indexOf "." text ->
     amountError st' = "Amount must be an integer")
  /\ (text <> "" -> indexOf "." text = -1 ->
      BigNumber.isLessThanOrEqualTo amount 0 = true ->
      amountError st' = "Amount must be greater than 0")
  /\ (text <> "" -> indexOf "." text = -1 ->
      BigNumber.isNaN amount = true ->
      amountError st' = "Amount must contain only digits")
  /\ (text = "" -> amountError st' = "Required field")
  /\ (amountError st' <> "" -> amountInput st' = "0")
  /\ (text <> "" -> indexOf "." text = -1 ->
      BigNumber.isNaN amount = false ->
      BigNumber.isLessThanOrEqualTo amount 0 = false ->
      amountError st' = "" /\ amountInput st' = text)
  /\ (digit_string text = true -> 0 < digits_value 10 text ->
      amountError st' = "" /\ amountInput st' = text)
  /\ (digit_string text = true -> digits_value 10 text = 0 ->
      amountError st' = "Amount must be greater than 0")
  /\ amountError (validateAmountInput "10.5" st) = "Amount must be an integer"
  /\ amountError (validateAmountInput "0" st) = "Amount must be greater than 0"
  /\ amountError (validateAmountInput "100" st) = ""
  /\ amountInput (validateAmountInput "100" st) = "100".
Proof.
  cbv zeta.
  pose proof (validateAmountInput_cases text st) as Hv. cbv zeta in Hv.
  assert (Hnan_le : BigNumber.isNaN (BigNumber.new text) = true ->
                    BigNumber.isLessThanOrEqualTo (BigNumber.new text) 0 = true ->
                    False).
  { destruct (BigNumber.new text); cbn; congruence. }
  repeat match goal with |- _ /\ _ => split end; try reflexivity.
  - intros Hdot.
    destruct Hv as [(E & _) | [(_ & _ & He & _) | [(_ & Hi & _)
       | [(_ & Hi & _) | (_ & Hi & _)]]]]; try lia; try exact He.
    subst text. cbn in Hdot. lia.
  - intros Hne Hi Hle.
    destruct Hv as [(E & _) | [(_ & Hd & _) | [(_ & _ & Hn & _)
       | [(_ & _ & _ & _ & He & _) | (_ & _ & _ & Hn & _)]]]];
      try congruence; try lia.
    exfalso; auto.
  - intros Hne Hi Hnan.
    destruct Hv as [(E & _) | [(_ & Hd & _) | [(_ & _ & _ & He & _)
       | [(_ & _ & Hn & _) | (_ & _ & Hn & _)]]]];
      try congruence; try lia.
  - intros ->. reflexivity.
  - intros Herr.
    destruct Hv as [(_ & _ & Hs) | [(_ & _ & _ & Hs) | [(_ & _ & _ & _ & Hs)
       | [(_ & _ & _ & _ & _ & Hs) | (_ & _ & _ & _ & He & _)]]]];
      try exact Hs. contradiction.
  - intros Hne Hi Hnan Hle.
    destruct Hv as [(E & _) | [(_ & Hd & _) | [(_ & _ & Hn & _)
       | [(_ & _ & _ & Hn & _) | (_ & _ & _ & _ & He & Hs)]]]];
      try congruence; try lia. now split.
  - intros Hd Hpos. now apply amount_digits_accepted.
  - intros Hd Hzero. now apply amount_digits_zero.
Qed.

Lemma C4_validateAmountInput_witness :
  (-1 < indexOf "." "3.14"
   /\ amountError (validateAmountInput "3.14" initial)
      = "Amount must be an integer")
  /\ (BigNumber.isLessThanOrEqualTo (BigNumber.new "-7") 0 = true
      /\ amountError (validateAmountInput "-7" initial)
         = "Amount must be greater than 0")
  /\ (BigNumber.isNaN (BigNumber.new "12abc") = true
      /\ amountError (validateAmountInput "12abc" initial)
         = "Amount must contain only digits")
  /\ amountError (validateAmountInput "" initial) = "Required field"
  /\ amountInput (validateAmountInput "12abc" initial) = "0"
  /\ (digit_string "4200" = true /\ 0 < digits_value 10 "4200"
      /\ amountError (validateAmountInput "4200" initial) = ""
      /\ amountInput (validateAmountInput "4200" initial) = "4200")
  /\ (digit_string "000" = true /\ digits_value 10 "000" = 0
      /\ amountError (validateAmountInput "000" initial)
         = "Amount must be greater than 0").
Proof.
  destruct (C4_validateAmountInput "3.14" initial) as (H1 & _).
  destruct (C4_validateAmountInput "-7" initial) as (_ & H2 & _).
  destruct (C4_validateAmountInput "12abc" initial)
    as (_ & _ & H3 & _ & H5 & _).
  destruct (C4_validateAmountInput "" initial) as (_ & _ & _ & H4 & _).
  destruct (C4_validateAmountInput "4200" initial)
    as (_ & _ & _ & _ & _ & _ & H7 & _).
  destruct (C4_validateAmountInput "000" initial)
    as (_ & _ & _ & _ & _ & _ & _ & H8 & _).
  split; [split; [reflexivity | apply H1; reflexivity]|].
  split; [split; [reflexivity | apply H2; [discriminate | reflexivity..]]|].
  split; [split; [reflexivity | apply H3; [discriminate | reflexivity..]]|].
  split; [apply H4; reflexivity|].
  split; [apply H5; rewrite H3; [discriminate | discriminate | reflexivity..]|].
  split.
  - split; [reflexivity|]. split; [reflexivity|]. apply H7; reflexivity.
  - split; [reflexivity|]. split; [reflexivity|]. apply H8; reflexivity.
Defined.


(** C5. Depth validation, for every text.  The clauses are the guards of
    the function in their order: the empty text is a required-field error; a
    text whose parsed value is not an integer is the integer error; an
    integer below 17 (such as ["16"]) is the error ["Minimal depth is 17"];
    an integer above 255 (such as ["256"]) is the error ["Depth has to be at
    most 255"].  In every failing case the stored depth is ["0"].  An integer
    from 17 to 255 (such as ["20"]) clears the error and is stored as typed.
    For plain decimal numerals the clauses are stated on the digits' value;
    the clause above 255 then needs the numeral to fit the exponent range of
    the parser. *)
Theorem C5_validateDepthInput (text : string) (st : State) :
  let st' := validateDepthInput text st in
  let depth := BigNumber.new text in
  (text <> "" -> BigNumber.isInteger depth = true ->
     BigNumber.isLessThan depth 17 = true ->
     depthError st' = "Minimal depth is 17")
  /\ (text <> "" -> BigNumber.isInteger depth = true ->
      BigNumber.isGreaterThan depth 255 = true ->
      depthError st' = "Depth has to be at most 255")
  /\ (text <> "" -> BigNumber.isInteger depth = false ->
      depthError st' = "Depth must be an integer")
  /\ (text = "" -> depthError st' = "Required field")
  /\ (depthError st' <> "" -> depthInput st' = "0")
  /\ (text <> "" -> BigNumber.isInteger depth = true ->
      BigNumber.isLessThan depth 17 = false ->
      BigNumber.isGreaterThan depth 255 = false ->
      depthError st' = "" /\ depthInput st' = text)
  /\ (digit_string text = true -> digits_value 10 text < 17 ->
      depthError st' = "Minimal depth is 17")
  /\ (digit_string text = true -> 255 < digits_value 10 text ->
      Z.of_nat (String.length text) <= BigNumber.MAX_EXP ->
      depthError st' = "Depth has to be at most 255")
  /\ (digit_string text = true -> 17 <= digits_value 10 text <= 255 ->
      depthError st' = "" /\ depthInput st' = text)
  /\ depthError (validateDepthInput "16" st) = "Minimal depth is 17"
  /\ depthError (validateDepthInput "256" st) = "Depth has to be at most 255"
  /\ depthError (validateDepthInput "20" st) = ""
  /\ depthInput (validateDepthInput "20" st) = "20".
Proof.
  cbv zeta.
  pose proof (validateDepthInput_cases text st) as Hv. cbv zeta in Hv.
  pose proof (isGreaterThan_255_not_isLessThan_17 (BigNumber.new text)) as Hx.
  pose proof (depth_digits_verdict text st) as Hdig. cbv zeta in Hdig.
  repeat match goal with |- _ /\ _ => split end; try reflexivity.
  - intros Hne Hi Hlt.
    destruct Hv as [(E & _) | [(_ & Hn & _) | [(_ & _ & _ & He & _)
       | [(_ & _ & Hn & _) | (_ & _ & Hn & _)]]]]; congruence.
  - intros Hne Hi Hgt. specialize (Hx Hgt).
    destruct Hv as [(E & _) | [(_ & Hn & _) | [(_ & _ & Hn & _)
       | [(_ & _ & _ & _ & He & _) | (_ & _ & _ & Hn & _)]]]]; congruence.
  - intros Hne Hi.
    destruct Hv as [(E & _) | [(_ & _ & He & _) | [(_ & Hn & _)
       | [(_ & Hn & _) | (_ & Hn & _)]]]]; congruence.
  - intros ->. reflexivity.
  - intros Herr.
    destruct Hv as [(_ & _ & Hs) | [(_ & _ & _ & Hs) | [(_ & _ & _ & _ & Hs)
       | [(_ & _ & _ & _ & _ & Hs) | (_ & _ & _ & _ & He & _)]]]];
      try exact Hs. contradiction.
  - intros Hne Hi Hlt Hgt.
    destruct Hv as [(E & _) | [(_ & Hn & _) | [(_ & _ & Hn & _)
       | [(_ & _ & _ & Hn & _) | (_ & _ & _ & _ & He & Hs)]]]];
      try congruence. now split.
  - intros Hd Hlt. now apply Hdig.
  - intros Hd Hgt Hlen. now apply Hdig.
  - intros Hd Hrange. now apply Hdig.
Qed.

Lemma C5_validateDepthInput_witness :
  (BigNumber.isInteger (BigNumber.new "-3") = true
   /\ BigNumber.isLessThan (BigNumber.new "-3") 17 = true
   /\ depthError (validateDepthInput "-3" initial) = "Minimal depth is 17")
  /\ (BigNumber.isGreaterThan (BigNumber.new "1e3") 255 = true
      /\ depthError (validateDepthInput "1e3" initial)
         = "Depth has to be at most 255")
  /\ (BigNumber.isInteger (BigNumber.new "17.5") = false
      /\ depthError (validateDepthInput "17.5" initial)
         = "Depth must be an integer")
  /\ depthError (validateDepthInput "" initial) = "Required field"
  /\ depthInput (validateDepthInput "17.5" initial) = "0"
  /\ (digit_string "9" = true /\ digits_value 10 "9" < 17
      /\ depthError (validateDepthInput "9" initial) = "Minimal depth is 17")
  /\ (digit_string "1024" = true /\ 255 < digits_value 10 "1024"
      /\ depthError (validateDepthInput "1024" initial)
         = "Depth has to be at most 255")
  /\ (digit_string "032" = true /\ 17 <= digits_value 10 "032" <= 255
      /\ depthError (validateDepthInput "032" initial) = ""
      /\ depthInput (validateDepthInput "032" initial) = "032").
Proof.
  destruct (C5_validateDepthInput "-3" initial) as (H1 & _).
  destruct (C5_validateDepthInput "1e3" initial) as (_ & H2 & _).
  destruct (C5_validateDepthInput "17.5" initial)
    as (_ & _ & H3 & _ & H5 & _).
  destruct (C5_validateDepthInput "" initial) as (_ & _ & _ & H4 & _).
  destruct (C5_validateDepthInput "9" initial)
    as (_ & _ & _ & _ & _ & _ & H7 & _).
  destruct (C5_validateDepthInput "1024" initial)
    as (_ & _ & _ & _ & _ & _ & _ & H8 & _).
  destruct (C5_validateDepthInput "032" initial)
    as (_ & _ & _ & _ & _ & _ & _ & _ & H9 & _).
  split.
  { split; [reflexivity|]. split; [reflexivity|].
    apply H1; [discriminate | reflexivity..]. }
  split.
  { split; [reflexivity|]. apply H2; [discriminate | reflexivity..]. }
  split.
  { split; [reflexivity|]. apply H3; [discriminate | reflexivity]. }
  split; [apply H4; reflexivity|].
  split.
  { apply H5. rewrite H3; [discriminate | discriminate | reflexivity]. }
  split.
  { split; [reflexivity|]. split; [reflexivity|]. apply H7; reflexivity. }
  split.
  { split; [reflexivity|]. split; [reflexivity|].
    apply H8; [reflexivity | reflexivity |].
    unfold BigNumber.MAX_EXP. cbn. lia. }
  split; [reflexivity|]. split; [cbn; lia|]. apply H9; [reflexivity|cbn; lia].
Defined.

(** ** Derived values *)

(** C6, as stated, fails: with a rejected depth and an accepted amount the
    time-to-live line shows a computed value, not the placeholder. *)
Lemma C6_counterexample :
  let st := handle_all [EditDepth "16"; EditAmount "480000"] initial in
  depthError st = "Minimal depth is 17"
  /\ amountError st = ""
  /\ ttlDisplay sample_utils sample_world st
     = "100 seconds (with price of 24000 per block)"
  /\ forall U, ttlDisplay U sample_world st <> "-".
Proof.
  cbv zeta. split; [reflexivity|]. split; [reflexivity|].
  split; [reflexivity|].
  intros U. apply ttl_not_placeholder.
Qed.


(** C6, amended.  The price line shows ["-"] whenever the depth or the
    amount is rejected or empty.  The time-to-live line reads the amount
    only: it shows ["-"] whenever the amount is rejected or empty or the
    chain state has no current price, and it does not change with the depth
    cells.  When both cells hold accepted plain decimal numerals (depth from
    17 to 255, amount above 0) the price line is the significant digits of
    [calculateStampPrice(depth, amount)] followed by [" xBZZ"], and when the
    current price is known as well the time-to-live line is the time string
    of [convertAmountToSeconds(amount, pricePerBlock)] followed by the price
    per block; neither is the placeholder then. *)
Theorem C6_price_and_ttl_displays (U : Utils) (W : World) (st : State) :
  (depthError st <> "" \/ amountError st <> ""
   \/ depthInput st = "" \/ amountInput st = "" ->
   priceDisplay U st = inr "-")
  /\ (amountError st <> "" \/ amountInput st = ""
      \/ isCurrentPriceAvailable W = false ->
      ttlDisplay U W st = "-")
  /\ (forall input error,
        ttlDisplay U W (setDepthError error (setDepthInput input st))
        = ttlDisplay U W st)
  /\ (depthError st = "" -> amountError st = "" ->
      digit_string (depthInput st) = true ->
      digit_string (amountInput st) = true ->
      17 <= digits_value 10 (depthInput st) <= 255 ->
      0 < digits_value 10 (amountInput st) ->
      let depth := Num (digits_value 10 (depthInput st)) in
      let amount := digits_value 10 (amountInput st) in
      priceDisplay U st
      = inr (toSignificantDigits U (calculateStampPrice U depth amount)
             ++ " xBZZ")
      /\ priceDisplay U st <> inr "-"
      /\ (forall cs,
            chainState W = Some cs -> currentPrice cs <> "" ->
            let pricePerBlock := parseInt (currentPrice cs) 10 in
            ttlDisplay U W st
            = secondsToTimeString U
                (convertAmountToSeconds U (Num amount) pricePerBlock)
              ++ " (with price of " ++ toFixed U pricePerBlock 0
              ++ " per block)"
            /\ ttlDisplay U W st <> "-")).
Proof.
  split; [|split; [|split]].
  - intros H. unfold priceDisplay.
    replace (negb (truthy (amountError st)) && negb (truthy (depthError st))
             && truthy (amountInput st) && truthy (depthInput st))
      with false; [reflexivity|].
    symmetry. destruct H as [H | [H | [H | H]]].
    + apply truthy_true in H. rewrite H. cbn. now rewrite andb_false_r.
    + apply truthy_true in H. now rewrite H.
    + rewrite H. cbn. now rewrite andb_false_r.
    + rewrite H. cbn. now rewrite !andb_false_r.
  - intros H. unfold ttlDisplay.
    destruct H as [H | [H | H]].
    + apply truthy_true in H. now rewrite H.
    + rewrite H. cbn. now rewrite andb_false_r.
    + destruct (negb (truthy (amountError st)) && truthy (amountInput st));
        [|reflexivity].
      unfold getTtl. rewrite H.
      cbn. now rewrite orb_true_r.
  - reflexivity.
  - intros Hde Hae Hd Ha Hdr Hpos depth amount. subst depth amount.
    assert (Hprice : priceDisplay U st
      = inr (toSignificantDigits U
               (calculateStampPrice U (Num (digits_value 10 (depthInput st)))
                  (digits_value 10 (amountInput st)))
             ++ " xBZZ")).
    { unfold priceDisplay.
      rewrite Hde, Hae, (digit_string_truthy _ Hd), (digit_string_truthy _ Ha).
      cbn [truthy negb andb].
      rewrite (BigInt_digits _ Ha), (parseInt_digits _ Hd).
      unfold getPrice. cbn [isNaN num_lt num_gt orb].
      destruct (Z.leb_spec (digits_value 10 (amountInput st)) 0); [lia|].
      destruct (Z.ltb_spec (digits_value 10 (depthInput st)) 17); [lia|].
      destruct (Z.ltb_spec 255 (digits_value 10 (depthInput st))); [lia|].
      reflexivity. }
    split; [exact Hprice|]. split.
    + rewrite Hprice. intros E. inversion E as [E'].
      now apply price_not_placeholder in E'.
    + intros cs Hcs Hp pricePerBlock. subst pricePerBlock.
      assert (Httl : ttlDisplay U W st
        = secondsToTimeString U
            (convertAmountToSeconds U (Num (digits_value 10 (amountInput st)))
               (parseInt (currentPrice cs) 10))
          ++ " (with price of " ++ toFixed U (parseInt (currentPrice cs) 10) 0
          ++ " per block)").
      { unfold ttlDisplay.
        rewrite Hae, (digit_string_truthy _ Ha). cbn [truthy negb andb].
        rewrite (parseInt_digits _ Ha).
        apply getTtl_available; [assumption..|].
        cbn. destruct (Z.leb_spec (digits_value 10 (amountInput st)) 0);
          [lia | reflexivity]. }
      split; [exact Httl|]. rewrite Httl. apply ttl_not_placeholder.
Qed.

Lemma C6_price_and_ttl_displays_witness :
  let st := handle_all [EditDepth "20"; EditAmount "480000"] initial in
  let bad := handle_all [EditDepth "20"; EditAmount "10.5"] initial in
  (amountError bad <> ""
   /\ priceDisplay sample_utils bad = inr "-"
   /\ ttlDisplay sample_utils sample_world bad = "-")
  /\ priceDisplay sample_utils st = inr "503316480000 xBZZ"
  /\ ttlDisplay sample_utils sample_world st
     = "100 seconds (with price of 24000 per block)".
Proof.
  cbv zeta.
  destruct (C6_price_and_ttl_displays sample_utils sample_world
              (handle_all [EditDepth "20"; EditAmount "10.5"] initial))
    as (Hp & Ht & _).
  destruct (C6_price_and_ttl_displays sample_utils sample_world
              (handle_all [EditDepth "20"; EditAmount "480000"] initial))
    as (_ & _ & _ & Hok).
  split.
  - split; [discriminate|]. split.
    + apply Hp. right; left. discriminate.
    + apply Ht. left. discriminate.
  - destruct Hok as (Hprice & _ & Httl);
      [reflexivity | reflexivity | reflexivity | reflexivity
      | cbn; lia | cbn; lia |].
    split; [exact Hprice|].
    destruct (Httl {| currentPrice := "24000" |}) as (E & _);
      [reflexivity | discriminate |]. exact E.
Defined.

(** C8. Under the hypotheses that the conversion from depth to bytes is
    monotone on 17..255, and that the rendering of a byte count is monotone
    for an order [le_text] on texts that is kept when ["~"] is put in front
    of both texts (as the display does): for depths [d1 <= d2], both in
    17..255, the file size of [d2] is at least that of [d1], for the
    function and for the line shown after typing the two depths as plain
    decimal numerals.  For NaN and for a depth outside 17..255 the file size
    is ["-"], and so is the line shown when the depth is rejected or
    empty. *)
Theorem C8_file_size_display (U : Utils) (le_text : string -> string -> Prop) :
  (forall d1 d2, 17 <= d1 -> d1 <= d2 -> d2 <= 255 ->
     number_le (convertDepthToBytes U (Num d1)) (convertDepthToBytes U (Num d2))) ->
  (forall x y, number_le x y ->
     le_text (getHumanReadableFileSize U x) (getHumanReadableFileSize U y)) ->
  (forall s t, le_text s t -> le_text ("~" ++ s) ("~" ++ t)) ->
  (forall d1 d2, 17 <= d1 -> d1 <= d2 -> d2 <= 255 ->
     le_text (getFileSize U (Num d1)) (getFileSize U (Num d2)))
  /\ (forall t1 t2 st1 st2,
        digit_string t1 = true -> digit_string t2 = true ->
        17 <= digits_value 10 t1 ->
        digits_value 10 t1 <= digits_value 10 t2 ->
        digits_value 10 t2 <= 255 ->
        le_text (fileSizeDisplay U (validateDepthInput t1 st1))
                (fileSizeDisplay U (validateDepthInput t2 st2)))
  /\ (forall depth,
        isNaN depth = true \/ num_lt depth 17 = true \/ num_gt depth 255 = true ->
        getFileSize U depth = "-")
  /\ (forall st,
        depthError st <> "" \/ depthInput st = "" -> fileSizeDisplay U st = "-")
  /\ (forall text st,
        text = ""
        \/ BigNumber.isInteger (BigNumber.new text) = false
        \/ BigNumber.isLessThan (BigNumber.new text) 17 = true
        \/ BigNumber.isGreaterThan (BigNumber.new text) 255 = true ->
        fileSizeDisplay U (validateDepthInput text st) = "-").
Proof.
  intros Hbytes Hrender Hprefix.
  assert (Hmono : forall d1 d2, 17 <= d1 -> d1 <= d2 -> d2 <= 255 ->
     le_text (getFileSize U (Num d1)) (getFileSize U (Num d2))).
  { intros d1 d2 H1 H12 H2.
    rewrite !getFileSize_in_range by lia.
    apply Hprefix, Hrender, Hbytes; assumption. }
  assert (Hguard : forall st,
        depthError st <> "" \/ depthInput st = "" -> fileSizeDisplay U st = "-").
  { intros st [H | H]; unfold fileSizeDisplay.
    - apply truthy_true in H. now rewrite H.
    - rewrite H. now rewrite andb_false_r. }
  split; [exact Hmono|]. split; [|split; [|split; [exact Hguard|]]].
  - intros t1 t2 st1 st2 Hd1 Hd2 H1 H12 H2.
    destruct (depth_digits_verdict t1 st1 Hd1) as (_ & Hok1 & _).
    destruct (depth_digits_verdict t2 st2 Hd2) as (_ & Hok2 & _).
    destruct Hok1 as [He1 Hs1]; [lia|]. destruct Hok2 as [He2 Hs2]; [lia|].
    rewrite !fileSizeDisplay_digits by (rewrite ?Hs1, ?Hs2; assumption).
    rewrite Hs1, Hs2. now apply Hmono.
  - intros depth H. unfold getFileSize.
    destruct H as [-> | [-> | ->]]; now rewrite ?orb_true_r.
  - intros text st H. apply Hguard. left.
    pose proof (isGreaterThan_255_not_isLessThan_17 (BigNumber.new text)) as Hx.
    destruct (validateDepthInput_cases text st)
      as [(_ & He & _) | [(_ & _ & He & _) | [(_ & _ & _ & He & _)
         | [(_ & _ & _ & _ & He & _) | (Hne & Hi & Hlt & Hgt & _)]]]];
      try (rewrite He; discriminate).
    exfalso. destruct H as [H | [H | [H | H]]]; congruence.
Qed.

Lemma C8_file_size_display_witness :
  let le_text := fun s t => (String.length s <= String.length t)%nat in
  le_text (getFileSize sample_utils (Num 20)) (getFileSize sample_utils (Num 32))
  /\ le_text (fileSizeDisplay sample_utils (validateDepthInput "17" initial))
             (fileSizeDisplay sample_utils (validateDepthInput "255" initial))
  /\ getFileSize sample_utils (Num 300) = "-"
  /\ fileSizeDisplay sample_utils (validateDepthInput "abc" initial) = "-".
Proof.
  cbv zeta.
  destruct (C8_file_size_display sample_utils
              (fun s t => (String.length s <= String.length t)%nat))
    as (H1 & H2 & H3 & H4 & H5).
  - intros d1 d2 Hd1 H12 Hd2. cbn.
    apply Z.mul_le_mono_nonneg_r; [lia|]. apply Z.pow_le_mono_r; lia.
  - intros [|a] [|b]; cbn; try contradiction. intros Hab.
    rewrite !tally_length. apply Z2Nat.inj_le; try apply Z.log2_nonneg.
    now apply Z.log2_le_mono.
  - intros s t H. cbn. lia.
  - split; [apply H1; lia|].
    split; [apply H2; try reflexivity; cbn; lia|].
    split; [apply H3; right; right; reflexivity|].
    apply H5. right; left. reflexivity.
Defined.

(** ** The missing API client *)

(** C7. Without an API client the deposit action throws the error ["Bee
    Debug URL is not valid"] before any call to the outside, whereas
    [submit] returns at once: no effect, no notification, no change of
    state. *)
Theorem C7_missing_client (W : World) :
  beeDebugApi W = None ->
  (forall amount,
     DepositModal.action W amount
     = ([], Eff.Throw {| message := "Bee Debug URL is not valid" |}))
  /\ (forall st,
        submit W st = ([], Eff.Return) /\ after_submit W st = st).
Proof.
  intros Hapi. split.
  - intros amount. unfold DepositModal.action. now rewrite Hapi.
  - intros st.
    assert (E : submit W st = ([], Eff.Return)).
    { unfold submit. rewrite Hapi.
      destruct (negb (truthy (depthInput st)) || negb (truthy (amountInput st)));
        reflexivity. }
    split; [exact E|]. unfold after_submit. now rewrite E.
Qed.


Lemma C7_missing_client_witness :
  beeDebugApi offline_world = None
  /\ DepositModal.action offline_world 5
     = ([], Eff.Throw {| message := "Bee Debug URL is not valid" |})
  /\ submit offline_world
       (handle_all [EditDepth "20"; EditAmount "480000"] initial)
     = ([], Eff.Return).
Proof.
  destruct (C7_missing_client offline_world eq_refl) as (Hdeposit & Hsubmit).
  split; [reflexivity|]. split; [apply Hdeposit | apply Hsubmit].
Defined.

(** ** Accepted amounts that are not integer literals *)

(** C9. The amount ["1e2"] has no decimal point and parses as the positive
    number 100, so validation accepts it and stores it as typed; but it is
    not an integer literal, so [BigInt] throws on it.  A submission with this
    stored amount therefore ends in the catch block: the error is logged and
    shown as a notification, the submitting flag is false at the end, and
    [createPostageBatch] is not called. *)
Theorem C9_accepted_amount_fails_in_submit :
  let text := "1e2" in
  indexOf "." text = -1
  /\ BigNumber.new text = BigNumber.Finite 1 2
  /\ BigNumber.isLessThanOrEqualTo (BigNumber.new text) 0 = false
  /\ (forall st,
        amountError (validateAmountInput text st) = ""
        /\ amountInput (validateAmountInput text st) = text)
  /\ BigInt text = inl (BigInt_SyntaxError text)
  /\ (forall W st api,
        beeDebugApi W = Some api ->
        depthInput st <> "" ->
        amountInput st = text ->
        submit W st =
          ([SetSubmitting true;
            ConsoleError (BigInt_SyntaxError text);
            EnqueueSnackbar ("Error: " ++ message (BigInt_SyntaxError text)) "error";
            SetSubmitting false], Eff.Normal tt)
        /\ count_events is_createPostageBatch (Eff.trace (submit W st)) = 0%nat
        /\ count_events is_notification (Eff.trace (submit W st)) = 1%nat
        /\ submitting (after_submit W st) = false).
Proof.
  cbv zeta.
  split; [reflexivity|]. split; [reflexivity|]. split; [reflexivity|].
  split; [intros st; split; reflexivity|]. split; [reflexivity|].
  intros W st api Hapi Hd Ha.
  assert (E : submit W st =
          ([SetSubmitting true;
            ConsoleError (BigInt_SyntaxError "1e2");
            EnqueueSnackbar ("Error: " ++ message (BigInt_SyntaxError "1e2")) "error";
            SetSubmitting false], Eff.Normal tt))
   by (unfold submit; rewrite (truthy_of_nonempty _ Hd), Ha, Hapi; reflexivity).
  unfold after_submit. rewrite E. repeat split; reflexivity.
Qed.

Lemma C9_accepted_amount_fails_in_submit_witness :
  let st := handle_all [EditDepth "20"; EditAmount "1e2"] initial in
  (amountError st = "" /\ amountInput st = "1e2" /\ depthInput st <> "")
  /\ Eff.trace (submit sample_world st) =
       [SetSubmitting true;
        ConsoleError {| message := "Cannot convert 1e2 to a BigInt" |};
        EnqueueSnackbar "Error: Cannot convert 1e2 to a BigInt" "error";
        SetSubmitting false]
  /\ count_events is_createPostageBatch (Eff.trace (submit sample_world st))
     = 0%nat.
Proof.
  cbv zeta.
  destruct C9_accepted_amount_fails_in_submit
    as (_ & _ & _ & Haccept & _ & Hsubmit).
  destruct (Haccept (handle_all [EditDepth "20"] initial)) as (He & Hs).
  destruct (Hsubmit sample_world
              (handle_all [EditDepth "20"; EditAmount "1e2"] initial)
              sample_api eq_refl)
    as (Hrun & Hcount & _); [discriminate | reflexivity |].
  split; [split; [exact He | split; [exact Hs | discriminate]]|].
  split; [now rewrite Hrun | exact Hcount].
Defined.

(** ** The stored inputs *)

(** C10, as stated, fails at the text ["0"]: the stored amount equals the
    text that was typed although the error is not empty. *)
Lemma C10_counterexample :
  let text := "0" in
  let st' := validateAmountInput text initial in
  amountInput st' = text
  /\ amountError st' = "Amount must be greater than 0"
  /\ ~ (amountInput st' = text <-> amountError st' = "").
Proof.
  cbv zeta. split; [reflexivity|]. split; [reflexivity|].
  intros [H _]. specialize (H eq_refl). discriminate H.
Qed.


(** C10, amended.  After [validateAmountInput] or [validateDepthInput] the
    stored input is never empty; it is ["0"] exactly when the error is not
    empty; it is the text as typed whenever the error is empty, and it is the
    text as typed exactly when the error is empty or the text is ["0"].  So,
    starting from the initial form, a stored input is empty only if its field
    was never edited. *)
Theorem C10_stored_input_after_validation :
  (forall text st,
     let st' := validateAmountInput text st in
     amountInput st' <> ""
     /\ (amountInput st' = "0" <-> amountError st' <> "")
     /\ (amountError st' = "" -> amountInput st' = text)
     /\ (amountInput st' = text <-> amountError st' = "" \/ text = "0"))
  /\ (forall text st,
        let st' := validateDepthInput text st in
        depthInput st' <> ""
        /\ (depthInput st' = "0" <-> depthError st' <> "")
        /\ (depthError st' = "" -> depthInput st' = text)
        /\ (depthInput st' = text <-> depthError st' = "" \/ text = "0"))
  /\ (forall actions,
        depthInput (handle_all actions initial) = "" ->
        existsb edits_depth actions = false)
  /\ (forall actions,
        amountInput (handle_all actions initial) = "" ->
        existsb edits_amount actions = false).
Proof.
  split; [exact amount_stored|]. split; [exact depth_stored|]. split.
  - intros actions. induction actions as [|a l IH] using rev_ind.
    + reflexivity.
    + rewrite handle_all_snoc, existsb_app. cbn [existsb]. intros H.
      destruct a as [v | v | v | v]; cbn [handle edits_depth] in *.
      * rewrite (IH H). reflexivity.
      * rewrite (IH H). reflexivity.
      * destruct (depth_stored v (handle_all l initial)) as (Hne & _).
        now destruct (Hne H).
      * destruct (validateAmountInput_frame v (handle_all l initial))
          as (E & _). rewrite E in H. rewrite (IH H). reflexivity.
  - intros actions. induction actions as [|a l IH] using rev_ind.
    + reflexivity.
    + rewrite handle_all_snoc, existsb_app. cbn [existsb]. intros H.
      destruct a as [v | v | v | v]; cbn [handle edits_amount] in *.
      * rewrite (IH H). reflexivity.
      * rewrite (IH H). reflexivity.
      * destruct (validateDepthInput_frame v (handle_all l initial))
          as (E & _). rewrite E in H. rewrite (IH H). reflexivity.
      * destruct (amount_stored v (handle_all l initial)) as (Hne & _).
        now destruct (Hne H).
Qed.

Lemma C10_stored_input_after_validation_witness :
  (amountError (validateAmountInput "42" initial) = ""
   /\ amountInput (validateAmountInput "42" initial) = "42")
  /\ (depthError (validateDepthInput "x" initial) <> ""
      /\ depthInput (validateDepthInput "x" initial) = "0")
  /\ (depthInput (handle_all [EditAmount "5"; EditLabel "a"] initial) = ""
      /\ existsb edits_depth [EditAmount "5"; EditLabel "a"] = false).
Proof.
  destruct C10_stored_input_after_validation as (Ha & Hd & Hrd & Hra).
  split.
  { split; [reflexivity|].
    destruct (Ha "42" initial) as (_ & _ & H3 & _). apply H3. reflexivity. }
  split.
  { split; [discriminate|].
    destruct (Hd "x" initial) as (_ & H2 & _). apply H2. discriminate. }
  split; [reflexivity|]. apply Hrd. reflexivity.
Defined.

(* ================================================================== *)
(** * Further properties: every run of [submit] *)
(* ================================================================== *)

Module SubmitFacts.
Import JS PostageStampAdvancedCreation ParserFacts ValidationFacts.

Lemma unit_result (r : Error + unit) :
  (exists e, r = inl e) \/ r = inr tt.
Proof. destruct r as [e | []]; [left; now exists e | now right]. Qed.

(** [submit] stops at its guards, or makes one of the six runs. *)
Lemma submit_guards W st :
  depthInput st = "" \/ amountInput st = "" \/ beeDebugApi W = None ->
  submit W st = ([], Eff.Return).
Proof.
  intros H. unfold submit.
  destruct (negb (truthy (depthInput st)) || negb (truthy (amountInput st)))
    eqn:G; [reflexivity|].
  apply orb_false_iff in G as [G1 G2].
  apply negb_false_iff, truthy_true in G1, G2.
  destruct H as [H | [H | H]]; [contradiction | contradiction |].
  now rewrite H.
Qed.

Lemma submit_runs W st :
  depthInput st <> "" -> amountInput st <> "" -> beeDebugApi W <> None ->
  exists tr, submit W st = (tr, Eff.Normal tt) /\ submit_run W st tr.
Proof.
  intros Hd Ha Hapi. unfold submit.
  rewrite (truthy_of_nonempty _ Hd), (truthy_of_nonempty _ Ha).
  cbn [negb orb].
  destruct (beeDebugApi W) as [api|] eqn:E; [clear Hapi | contradiction].
  destruct (BigInt (amountInput st)) as [e | amount] eqn:Hamount.
  { eexists. split; [reflexivity|]. now apply (run_amount_throws W st api). }
  cbn [Eff.lift Eff.bind Eff.emit app].
  fold (create_event st amount). fold (create_result api st amount).
  destruct (create_result api st amount) as [e | batchId] eqn:Hcreate.
  { eexists. split; [reflexivity|].
    now apply (run_create_throws W st api). }
  cbn [Eff.await Eff.call Eff.bind app].
  destruct (unit_result (waitUntilStampExists W batchId api))
    as [(e & Hwait) | Hwait]; rewrite Hwait.
  { eexists. split; [reflexivity|].
    now apply (run_wait_throws W st api). }
  destruct (unit_result (Stamps_refresh W)) as [(e & Hr) | Hr]; rewrite Hr.
  { eexists. split; [reflexivity|].
    now apply (run_refresh_throws W st api). }
  destruct (unit_result (onFinished W)) as [(e & Hf) | Hf]; rewrite Hf.
  { eexists. split; [reflexivity|].
    now apply (run_onFinished_throws W st api). }
  eexists. split; [reflexivity|]. now apply (run_succeeds W st api).
Qed.

Lemma submit_run_guards W st tr :
  submit_run W st tr -> beeDebugApi W <> None.
Proof. intros H. inversion H; congruence. Qed.

(** Every run, guarded or not. *)
Lemma submit_cases W st :
  submit W st = ([], Eff.Return)
  \/ exists tr, submit W st = (tr, Eff.Normal tt) /\ submit_run W st tr.
Proof.
  destruct (string_dec (depthInput st) "") as [Hd | Hd];
    [left; apply submit_guards; tauto|].
  destruct (string_dec (amountInput st) "") as [Ha | Ha];
    [left; apply submit_guards; tauto|].
  destruct (beeDebugApi W) as [api|] eqn:E;
    [|left; apply submit_guards; tauto].
  right. apply submit_runs; congruence.
Qed.

Lemma submit_returns_iff W st :
  submit W st = ([], Eff.Return) <->
  depthInput st = "" \/ amountInput st = "" \/ beeDebugApi W = None.
Proof.
  split; [|apply submit_guards]. intros E.
  destruct (string_dec (depthInput st) "") as [Hd | Hd]; [tauto|].
  destruct (string_dec (amountInput st) "") as [Ha | Ha]; [tauto|].
  destruct (beeDebugApi W) as [api|] eqn:Hapi; [|tauto].
  destruct (submit_runs W st Hd Ha) as (tr & Hrun & _); [congruence|].
  rewrite Hrun in E. discriminate E.
Qed.

Lemma submit_amount_throws W st e :
  depthInput st <> "" -> amountInput st <> "" -> beeDebugApi W <> None ->
  BigInt (amountInput st) = inl e ->
  submit W st = (SetSubmitting true :: report e, Eff.Normal tt).
Proof.
  intros Hd Ha Hapi Hamount.
  destruct (submit_runs W st Hd Ha Hapi) as (tr & E & Hrun).
  rewrite E. f_equal. inversion Hrun; subst; congruence.
Qed.

Lemma validations_commute d a st :
  validateAmountInput a (validateDepthInput d st)
  = validateDepthInput d (validateAmountInput a st).
Proof.
  unfold validateDepthInput, validateAmountInput.
  repeat match goal with
    | |- context [let '(_, _) := ?c in _] =>
        let e := fresh "e" in let v := fresh "v" in destruct c as [e v]
    end; reflexivity.
Qed.

End SubmitFacts.

Import JS PostageStampAdvancedCreation ParserFacts ValidationFacts SubmitFacts.

(** ** Every run of [submit] *)






(** X4. In every run of [submit] the batch is created at most once, the
    confirmation wait is made only after a creation, the stamp list is
    refreshed only after a wait, and [onFinished] is called only after a
    refresh. *)
Theorem X4_submit_steps_in_order (W : World) (st : State) :
  let tr := Eff.trace (submit W st) in
  (count_events is_onFinished tr <= count_events is_refresh tr)%nat
  /\ (count_events is_refresh tr <= count_events is_wait tr)%nat
  /\ (count_events is_wait tr <= count_events is_createPostageBatch tr)%nat
  /\ (count_events is_createPostageBatch tr <= 1)%nat.
Proof.
  cbv zeta.
  destruct (submit_cases W st) as [E | (tr & E & Hrun)]; rewrite E;
    cbn [Eff.trace fst].
  - cbn. lia.
  - inversion Hrun; subst; unfold report, create_event; cbn; lia.
Qed.

(** X5. An error after the batch was created is reported like any other:
    when the refresh of the stamp list rejects, or [onFinished] throws, the
    batch has been created and waited for, the notification carries that
    error's message, and the flag is cleared.  When it is the refresh that
    rejects, [onFinished] is not called. *)
Theorem X5_error_after_the_purchase (W : World) (st : State)
    (api : BeeDebugApi) (amount : Z) (batchId : BatchId) (e : Error) :
  depthInput st <> "" -> amountInput st <> "" ->
  beeDebugApi W = Some api ->
  BigInt (amountInput st) = inr amount ->
  create_result api st amount = inr batchId ->
  waitUntilStampExists W batchId api = inr tt ->
  (Stamps_refresh W = inl e
   -> Eff.trace (submit W st)
      = (SetSubmitting true :: create_event st amount
         :: WaitUntilStampExists batchId :: StampsRefresh :: report e)
      /\ count_events is_onFinished (Eff.trace (submit W st)) = 0%nat)
  /\ (Stamps_refresh W = inr tt -> onFinished W = inl e
      -> Eff.trace (submit W st)
         = (SetSubmitting true :: create_event st amount
            :: WaitUntilStampExists batchId :: StampsRefresh :: OnFinished
            :: report e)).
Proof.
  intros Hd Ha Hapi Hamount Hcreate Hwait.
  assert (Hrun : forall tr, submit_run W st tr ->
            Eff.trace (submit W st) = tr).
  { intros tr Htr.
    destruct (submit_runs W st Hd Ha) as (tr' & E & Htr'); [congruence|].
    rewrite E. cbn [Eff.trace fst].
    inversion Htr; inversion Htr'; subst; congruence. }
  split.
  - intros Hr. rewrite (Hrun _ (run_refresh_throws W st api amount batchId e
                                  Hapi Hamount Hcreate Hwait Hr)).
    split; reflexivity.
  - intros Hr Hf.
    now rewrite (Hrun _ (run_onFinished_throws W st api amount batchId e
                           Hapi Hamount Hcreate Hwait Hr Hf)).
Qed.

Lemma X5_error_after_the_purchase_witness :
  let st := handle_all [EditDepth "20"; EditAmount "480000"] initial in
  Stamps_refresh refresh_failing_world = inl {| message := "Network Error" |}
  /\ Eff.trace (submit refresh_failing_world st)
     = [SetSubmitting true;
        CreatePostageBatch "480000" (Num 20) (postageBatchOptions st);
        WaitUntilStampExists "b4tch"; StampsRefresh;
        ConsoleError {| message := "Network Error" |};
        EnqueueSnackbar "Error: Network Error" "error";
        SetSubmitting false].
Proof.
  cbv zeta. split; [reflexivity|].
  destruct (X5_error_after_the_purchase refresh_failing_world
              (handle_all [EditDepth "20"; EditAmount "480000"] initial)
              sample_api 480000 "b4tch" {| message := "Network Error" |})
    as (H & _);
    [discriminate | discriminate | reflexivity | reflexivity | reflexivity
    | reflexivity |].
  destruct (H eq_refl) as (Htr & _). exact Htr.
Defined.

(** X6. Whenever the stored amount is not an integer literal, so that
    [BigInt] throws, the run ends in the catch block at once: the flag is
    set, the error is logged and shown, the flag is cleared, and the node is
    not called. *)
Theorem X6_amount_conversion_failure (W : World) (st : State) (e : Error) :
  depthInput st <> "" -> amountInput st <> "" -> beeDebugApi W <> None ->
  BigInt (amountInput st) = inl e ->
  submit W st = (SetSubmitting true :: report e, Eff.Normal tt)
  /\ e = BigInt_SyntaxError (amountInput st)
  /\ count_events is_createPostageBatch (Eff.trace (submit W st)) = 0%nat.
Proof.
  intros Hd Ha Hapi Hamount.
  rewrite (submit_amount_throws W st e Hd Ha Hapi Hamount).
  split; [reflexivity|]. split; [|reflexivity].
  unfold BigInt in Hamount.
  destruct (StringToBigInt (amountInput st)); congruence.
Qed.

Lemma X6_amount_conversion_failure_witness :
  let st := handle_all [EditDepth "20"; EditAmount "Infinity"] initial in
  (amountError st = "" /\ amountInput st = "Infinity")
  /\ submit sample_world st
     = ([SetSubmitting true;
         ConsoleError {| message := "Cannot convert Infinity to a BigInt" |};
         EnqueueSnackbar "Error: Cannot convert Infinity to a BigInt" "error";
         SetSubmitting false], Eff.Normal tt).
Proof.
  cbv zeta. split; [split; reflexivity|].
  destruct (X6_amount_conversion_failure sample_world
              (handle_all [EditDepth "20"; EditAmount "Infinity"] initial)
              (BigInt_SyntaxError "Infinity"))
    as (H & _); [discriminate | discriminate | discriminate | reflexivity |].
  exact H.
Defined.

(** ** The deposit action *)

(** X7. With an API client the deposit action calls [depositTokens] exactly
    once, with the amount printed in decimal.  When the call resolves, the
    balances are refreshed once and the transaction hash is returned; when
    it rejects, the error goes to the caller and nothing is refreshed. *)
Theorem X7_deposit_action (W : World) (api : BeeDebugApi) (amount : Z) :
  beeDebugApi W = Some api ->
  let run := DepositModal.action W amount in
  count_events is_depositTokens (Eff.trace run) = 1%nat
  /\ (forall hash,
        depositTokens api (BigInt_toString amount) = inr hash ->
        run = ([DepositTokens (BigInt_toString amount); BeeRefresh],
               Eff.Normal hash))
  /\ (forall e,
        depositTokens api (BigInt_toString amount) = inl e ->
        run = ([DepositTokens (BigInt_toString amount)], Eff.Throw e))
  /\ (count_events is_beeRefresh (Eff.trace run) = 1%nat <->
      exists hash, depositTokens api (BigInt_toString amount) = inr hash).
Proof.
  intros Hapi run. subst run. unfold DepositModal.action. rewrite Hapi.
  destruct (depositTokens api (BigInt_toString amount)) as [e | hash] eqn:E;
    cbn.
  - split; [reflexivity|]. split; [discriminate|].
    split; [intros e' H; now inversion H|].
    split; [discriminate | intros (h & H); discriminate H].
  - split; [reflexivity|]. split; [intros h H; now inversion H|].
    split; [discriminate|]. split; [now exists hash | reflexivity].
Qed.

Lemma X7_deposit_action_witness :
  beeDebugApi (deposit_world sample_api) = Some sample_api
  /\ DepositModal.action (deposit_world sample_api) 1500
     = ([DepositTokens "1500"; BeeRefresh], Eff.Normal "7x")
  /\ DepositModal.action (deposit_world rejecting_api) 1500
     = ([DepositTokens "1500"], Eff.Throw {| message := "out of funds" |}).
Proof.
  destruct (X7_deposit_action (deposit_world sample_api) sample_api 1500
              eq_refl) as (_ & Hok & _).
  destruct (X7_deposit_action (deposit_world rejecting_api) rejecting_api
              1500 eq_refl) as (_ & _ & Hbad & _).
  split; [reflexivity|]. split; [now apply Hok | now apply Hbad].
Defined.

(** ** The form as a transition system *)

(** X9. The state of the form is determined by the last edit of each input:
    two edits of different inputs can be swapped, and an edit of an input
    overrides an earlier edit of the same input. *)
Theorem X9_edits_commute_last_wins (a b : Action) (st : State) :
  (field_of a <> field_of b ->
   handle a (handle b st) = handle b (handle a st))
  /\ (field_of a = field_of b -> handle a (handle b st) = handle a st).
Proof.
  split; intros H.
  - destruct a as [x | x | x | x], b as [y | y | y | y];
      try (exfalso; apply H; reflexivity); cbn [handle];
      unfold validateDepthInput, validateAmountInput;
      repeat match goal with
        | |- context [let '(_, _) := ?c in _] =>
            let e := fresh "e" in let v := fresh "v" in
            destruct c as [e v]
        end; reflexivity.
  - destruct a as [x | x | x | x], b as [y | y | y | y];
      try discriminate H; cbn [handle];
      unfold validateDepthInput, validateAmountInput;
      repeat match goal with
        | |- context [let '(_, _) := ?c in _] =>
            let e := fresh "e" in let v := fresh "v" in
            destruct c as [e v]
        end; reflexivity.
Qed.

Lemma X9_edits_commute_last_wins_witness :
  (field_of (EditDepth "20") <> field_of (EditAmount "7")
   /\ handle (EditDepth "20") (handle (EditAmount "7") initial)
      = handle (EditAmount "7") (handle (EditDepth "20") initial))
  /\ (field_of (EditDepth "20") = field_of (EditDepth "abc")
      /\ handle (EditDepth "20") (handle (EditDepth "abc") initial)
         = handle (EditDepth "20") initial).
Proof.
  destruct (X9_edits_commute_last_wins (EditDepth "20") (EditAmount "7")
              initial) as (Hswap & _).
  destruct (X9_edits_commute_last_wins (EditDepth "20") (EditDepth "abc")
              initial) as (_ & Hlast).
  split.
  - split; [discriminate | apply Hswap; discriminate].
  - split; [reflexivity | apply Hlast; reflexivity].
Defined.

(** ** The derived values *)

(** X12. Each of the three helpers returns the placeholder exactly on its
    guard: [getFileSize] for NaN or a depth outside 17..255, [getPrice] for
    an amount that is not positive or such a depth, [getTtl] for an amount
    at most 0 or a missing current price.  In particular [getTtl] computes a
    value for a NaN amount. *)
Theorem X12_placeholder_exactly_on_guard (U : Utils) (W : World)
    (depth amount : number) (bigAmount : Z) :
  (getFileSize U depth = "-" <->
   isNaN depth = true \/ num_lt depth 17 = true \/ num_gt depth 255 = true)
  /\ (getPrice U depth bigAmount = "-" <->
      bigAmount <= 0 \/ isNaN depth = true \/ num_lt depth 17 = true
      \/ num_gt depth 255 = true)
  /\ (getTtl U W amount = "-" <->
      num_le amount 0 = true \/ isCurrentPriceAvailable W = false)
  /\ (isCurrentPriceAvailable W = true -> getTtl U W NaN <> "-").
Proof.
  assert (Httl : getTtl U W amount = "-" <->
      num_le amount 0 = true \/ isCurrentPriceAvailable W = false).
  { unfold getTtl.
    destruct (num_le amount 0); [cbn; tauto|].
    destruct (isCurrentPriceAvailable W); cbn.
    - split; [intros E; now apply ttl_not_placeholder in E|].
      intros [H | H]; discriminate H.
    - tauto. }
  split; [|split; [|split; [exact Httl|]]].
  - unfold getFileSize.
    destruct (isNaN depth); [cbn; tauto|].
    destruct (num_lt depth 17); [cbn; tauto|].
    destruct (num_gt depth 255); [cbn; tauto|]. cbn.
    split; [discriminate | intros [H | [H | H]]; discriminate H].
  - unfold getPrice. destruct (Z.leb_spec bigAmount 0); [cbn; tauto|].
    destruct (isNaN depth); [cbn; tauto|].
    destruct (num_lt depth 17); [cbn; tauto|].
    destruct (num_gt depth 255); [cbn; tauto|]. cbn.
    split; [intros E; now apply price_not_placeholder in E|].
    intros [H' | [H' | [H' | H']]]; try discriminate H'. lia.
  - intros Hp E. unfold getTtl in E. rewrite Hp in E. cbn in E.
    now apply ttl_not_placeholder in E.
Qed.

(** X13. The render throws, in the price line, exactly when both errors are
    empty, both stored inputs are not empty and [BigInt] throws on the stored
    amount.  So it throws only with the submit button enabled or a
    submission in flight, and on exactly the amounts on which a submission
    ends in the catch block with the same error. *)
Theorem X13_render_throws (U : Utils) (st : State) (e : Error) :
  (priceDisplay U st = inl e <->
   amountError st = "" /\ depthError st = "" /\ amountInput st <> ""
   /\ depthInput st <> "" /\ BigInt (amountInput st) = inl e)
  /\ (priceDisplay U st = inl e ->
      (submitDisabled st = false \/ submitting st = true)
      /\ forall W, beeDebugApi W <> None ->
           submit W st = (SetSubmitting true :: report e, Eff.Normal tt)).
Proof.
  assert (Hiff : priceDisplay U st = inl e <->
   amountError st = "" /\ depthError st = "" /\ amountInput st <> ""
   /\ depthInput st <> "" /\ BigInt (amountInput st) = inl e).
  { unfold priceDisplay.
    destruct (truthy (amountError st)) eqn:H1; cbn [negb andb].
    { apply truthy_true in H1. split; [discriminate | tauto]. }
    destruct (truthy (depthError st)) eqn:H2; cbn [negb andb].
    { apply truthy_true in H2. split; [discriminate | tauto]. }
    destruct (truthy (amountInput st)) eqn:H3; cbn [negb andb].
    2:{ apply truthy_false in H3. split; [discriminate | tauto]. }
    destruct (truthy (depthInput st)) eqn:H4; cbn [negb andb].
    2:{ apply truthy_false in H4. split; [discriminate | tauto]. }
    apply truthy_false in H1, H2. apply truthy_true in H3, H4.
    destruct (BigInt (amountInput st)) as [e' | amount].
    - split; [intros E; inversion E; subst; tauto|].
      intros (_ & _ & _ & _ & E). now inversion E.
    - split; [discriminate|]. intros (_ & _ & _ & _ & E). discriminate E. }
  split; [exact Hiff|].
  intros E. apply Hiff in E as (H1 & H2 & H3 & H4 & H5). split.
  - unfold submitDisabled. rewrite H1, H2.
    rewrite (truthy_of_nonempty _ H3), (truthy_of_nonempty _ H4). cbn.
    destruct (submitting st); [now right | now left].
  - intros W Hapi.
    destruct (submit_runs W st H4 H3 Hapi) as (tr & Hrun & Htr).
    rewrite Hrun. f_equal. inversion Htr; subst; congruence.
Qed.

Lemma X13_render_throws_witness :
  let st := handle_all [EditDepth "20"; EditAmount "1e2"] initial in
  priceDisplay sample_utils st = inl (BigInt_SyntaxError "1e2")
  /\ submitDisabled st = false
  /\ submit sample_world st
     = (SetSubmitting true :: report (BigInt_SyntaxError "1e2"),
        Eff.Normal tt).
Proof.
  cbv zeta.
  destruct (X13_render_throws sample_utils
              (handle_all [EditDepth "20"; EditAmount "1e2"] initial)
              (BigInt_SyntaxError "1e2")) as (Hiff & Hthen).
  assert (E : priceDisplay sample_utils
                (handle_all [EditDepth "20"; EditAmount "1e2"] initial)
              = inl (BigInt_SyntaxError "1e2")).
  { apply Hiff. repeat split; discriminate || reflexivity. }
  destruct (Hthen E) as (_ & Hsubmit).
  split; [exact E|]. split; [reflexivity|].
  apply Hsubmit. discriminate.
Defined.

(** X17. A click does nothing while a submission is in flight.  When the
    button is enabled a click runs [submit], both stored inputs are not
    empty, so the first guard of [submit] cannot stop the run: it returns at
    once only for want of the API client. *)
Theorem X17_click (W : World) (st : State) :
  (submitting st = true -> click W st = ([], Eff.Normal tt))
  /\ (submitDisabled st = false ->
      click W st = submit W st
      /\ depthInput st <> "" /\ amountInput st <> ""
      /\ (click W st = ([], Eff.Return) <-> beeDebugApi W = None)).
Proof.
  split.
  - intros H. unfold click, submitDisabled. now rewrite H.
  - intros H. unfold click. rewrite H.
    unfold submitDisabled in H.
    apply orb_false_iff in H as [H H5]. apply orb_false_iff in H as [H H4].
    apply negb_false_iff, truthy_true in H4, H5.
    split; [reflexivity|]. split; [exact H4|]. split; [exact H5|].
    rewrite submit_returns_iff. tauto.
Qed.

Lemma X17_click_witness :
  let st := handle_all [EditDepth "20"; EditAmount "480000"] initial in
  (submitting (setSubmitting true st) = true
   /\ click sample_world (setSubmitting true st) = ([], Eff.Normal tt))
  /\ (submitDisabled st = false
      /\ click sample_world st = submit sample_world st
      /\ click offline_world st = ([], Eff.Return)).
Proof.
  cbv zeta.
  destruct (X17_click sample_world
              (setSubmitting true
                 (handle_all [EditDepth "20"; EditAmount "480000"] initial)))
    as (Hbusy & _).
  destruct (X17_click sample_world
              (handle_all [EditDepth "20"; EditAmount "480000"] initial))
    as (_ & Hrun).
  destruct (X17_click offline_world
              (handle_all [EditDepth "20"; EditAmount "480000"] initial))
    as (_ & Hoff).
  split; [split; [reflexivity | apply Hbusy; reflexivity]|].
  split; [reflexivity|]. split.
  - now destruct (Hrun eq_refl).
  - destruct (Hoff eq_refl) as (_ & _ & _ & Hiff). now apply Hiff.
Defined.

(* ================================================================== *)
(** * Further facts about numerals *)
(* ================================================================== *)

Module NumeralFacts.
Import JS ParserFacts ValidationFacts.

(** ** Printing a bigint and reading it back *)

Lemma string_of_uint_digits d :
  forall_chars is_digit (NilEmpty.string_of_uint d) = true.
Proof. induction d; cbn [NilEmpty.string_of_uint forall_chars]; auto. Qed.

Lemma digits_from_string_of_uint d :
  forall acc,
    digits_from 10 acc (NilEmpty.string_of_uint d)
    = match acc with
      | N0 => Pos.of_uint d
      | Npos p => Npos (Pos.of_uint_acc d p)
      end.
Proof.
  induction d; intros acc;
    cbn [NilEmpty.string_of_uint digits_from];
    try (destruct acc; reflexivity);
    match goal with
    | |- context [digit_value ?c] =>
        let v := eval vm_compute in (digit_value c) in
        change (digit_value c) with v
    end;
    rewrite IHd; destruct acc as [|p]; cbn [N.mul N.add Pos.of_uint];
    try reflexivity;
    cbn [Pos.of_uint_acc]; do 2 f_equal; lia.
Qed.

Lemma toString_positive p :
  digit_string (BigInt_toString (Zpos p)) = true
  /\ digits_value 10 (BigInt_toString (Zpos p)) = Zpos p.
Proof.
  assert (Hv : digits_from 10 0 (NilEmpty.string_of_uint (Pos.to_uint p))
               = Npos p).
  { rewrite digits_from_string_of_uint. apply DecimalPos.Unsigned.of_to. }
  unfold BigInt_toString. cbn [Z.to_int NilEmpty.string_of_int].
  split.
  - unfold digit_string. rewrite string_of_uint_digits, andb_true_r.
    destruct (NilEmpty.string_of_uint (Pos.to_uint p)) eqn:E;
      [discriminate Hv | reflexivity].
  - unfold digits_value. now rewrite Hv.
Qed.

Lemma StringToBigInt_toString z :
  StringToBigInt (BigInt_toString z) = Some z.
Proof.
  destruct z as [|p|p].
  - reflexivity.
  - destruct (toString_positive p) as (Hd & Hv).
    now rewrite (StringToBigInt_digits _ Hd), Hv.
  - destruct (toString_positive p) as (Hd & Hv).
    unfold BigInt_toString in *. cbn [Z.to_int NilEmpty.string_of_int] in *.
    set (s := NilEmpty.string_of_uint (Pos.to_uint p)) in *.
    unfold StringToBigInt, trim.
    assert (Htrim : trimEnd (trimStart (String "-" s)) = String "-" s).
    { cbn [trimStart]. change (is_space "-") with false. cbv iota.
      cbn [trimEnd]. rewrite (trimEnd_digits s (digit_string_chars s Hd)).
      destruct (digit_string_inv s Hd) as (c & r & E & _). now rewrite E. }
    rewrite Htrim. cbn [truthy negb].
    assert (Hnd : non_decimal_literal (String "-" s) = None).
    { destruct s; reflexivity. }
    rewrite Hnd. cbn [take_sign]. change (Ascii.eqb "-" "-") with true.
    cbv iota. rewrite (digit_string_truthy s Hd), (digit_string_chars s Hd).
    cbn [andb]. now rewrite Hv.
Qed.

(** ** A numeral in exponent notation: digits, [e], digits *)

Lemma span_app_stop p a c b :
  forall_chars p a = true -> p c = false ->
  span p (a ++ String c b) = (a, String c b).
Proof.
  intros Ha Hc. induction a as [|d a IH]; simpl.
  - now rewrite Hc.
  - simpl in Ha. apply andb_true_iff in Ha as [Hd Ha].
    now rewrite Hd, (IH Ha).
Qed.

Lemma e_not_decimal :
  is_digit "e" = false /\ is_radix_digit 10 "e" = false
  /\ is_space "e" = false /\ Ascii.eqb "e" "." = false.
Proof. repeat split; reflexivity. Qed.

Lemma exponent_text_head s k :
  digit_string s = true ->
  exists c r, s ++ String "e" k = String c r /\ is_digit c = true
              /\ (forall x y, r = String x y ->
                    (Ascii.eqb x "x" || Ascii.eqb x "X") = false
                    /\ (Ascii.eqb x "o" || Ascii.eqb x "O") = false
                    /\ (Ascii.eqb x "b" || Ascii.eqb x "B") = false).
Proof.
  intros H. destruct (digit_string_inv s H) as (c & r & -> & Hc & Hr).
  exists c, (r ++ String "e" k). split; [reflexivity|]. split; [exact Hc|].
  intros x y E. destruct r as [|d r]; simpl in E; inversion E; subst.
  - repeat split; reflexivity.
  - simpl in Hr. apply andb_true_iff in Hr as [Hd _].
    now apply digit_not_radix_letter.
Qed.

Lemma parseInt_exponent_text s k radix :
  digit_string s = true -> radix = 0 \/ radix = 10 ->
  parseInt (s ++ String "e" k) radix = Num (digits_value 10 s).
Proof.
  intros H Hradix.
  destruct (exponent_text_head s k H) as (c & r & E & Hc & Hx).
  unfold parseInt.
  assert (Hstart : trimStart (s ++ String "e" k) = s ++ String "e" k).
  { rewrite E. simpl. now rewrite (digit_not_space c Hc). }
  assert (Hsign : take_sign (s ++ String "e" k) = (1, s ++ String "e" k)).
  { rewrite E. simpl.
    now rewrite (digit_not_minus c Hc), (digit_not_plus c Hc). }
  assert (Hstrip : strip_0x (s ++ String "e" k) = None).
  { rewrite E. destruct r as [|x y]; [reflexivity|]. simpl.
    destruct (Hx x y eq_refl) as (Hxx & _). rewrite Hxx.
    now rewrite andb_false_r. }
  assert (Hspan : span (is_radix_digit 10) (s ++ String "e" k)
                  = (s, String "e" k)).
  { apply span_app_stop; [|reflexivity].
    generalize (digit_string_chars s H). apply forall_chars_impl.
    exact digit_is_decimal. }
  rewrite Hstart, Hsign.
  destruct Hradix as [-> | ->];
    cbn [Z.eqb Z.ltb Z.compare Pos.compare Pos.compare_cont Pos.eqb
         negb andb orb];
    rewrite ?Hstrip; change (Z.to_N 10) with 10%N; rewrite Hspan;
    rewrite (digit_string_truthy s H); f_equal; lia.
Qed.

Lemma StringToBigInt_exponent_text s k :
  digit_string s = true -> digit_string k = true ->
  StringToBigInt (s ++ String "e" k) = None.
Proof.
  intros H Hk.
  destruct (exponent_text_head s k H) as (c & r & E & Hc & Hx).
  assert (Hchars : forall_chars (fun c => negb (is_space c))
                     (s ++ String "e" k) = true).
  { rewrite forall_chars_app. cbn [forall_chars].
    change (negb (is_space "e")) with true. cbn [andb].
    apply andb_true_iff. split.
    - generalize (digit_string_chars s H). apply forall_chars_impl.
      intros d Hd. now rewrite (digit_not_space d Hd).
    - generalize (digit_string_chars k Hk). apply forall_chars_impl.
      intros d Hd. now rewrite (digit_not_space d Hd). }
  unfold StringToBigInt, trim.
  assert (Hstart : trimStart (s ++ String "e" k) = s ++ String "e" k).
  { rewrite E. simpl. now rewrite (digit_not_space c Hc). }
  rewrite Hstart, (BigNumberFacts.trimEnd_no_space _ Hchars).
  assert (Htruthy : truthy (s ++ String "e" k) = true) by now rewrite E.
  rewrite Htruthy. cbn [negb].
  assert (Hnd : non_decimal_literal (s ++ String "e" k) = None).
  { rewrite E. destruct r as [|x y]; [reflexivity|]. simpl.
    destruct (Hx x y eq_refl) as (E1 & E2 & E3). rewrite E1, E2, E3.
    simpl. now destruct (Ascii.eqb c "0"). }
  rewrite Hnd.
  assert (Hsign : take_sign (s ++ String "e" k) = (1, s ++ String "e" k)).
  { rewrite E. simpl.
    now rewrite (digit_not_minus c Hc), (digit_not_plus c Hc). }
  rewrite Hsign, Htruthy, forall_chars_app. cbn [forall_chars].
  change (is_digit "e") with false. cbn [andb].
  now rewrite andb_false_r.
Qed.

Lemma indexOf_exponent_text s k :
  digit_string s = true -> digit_string k = true ->
  indexOf "." (s ++ String "e" k) = -1.
Proof.
  intros H Hk. apply indexOf_absent.
  rewrite forall_chars_app. cbn [forall_chars].
  change (negb (Ascii.eqb "e" ".")) with true. cbn [andb].
  apply andb_true_iff. split.
  - generalize (digit_string_chars s H). apply forall_chars_impl.
    intros d Hd. now rewrite (digit_not_dot d Hd).
  - generalize (digit_string_chars k Hk). apply forall_chars_impl.
    intros d Hd. now rewrite (digit_not_dot d Hd).
Qed.

Lemma scan_numeric_exponent_text s k :
  digit_string s = true -> digit_string k = true ->
  BigNumber.scan_numeric (s ++ String "e" k)
  = Some {| BigNumber.lit_negative := false; BigNumber.lit_int := s;
            BigNumber.lit_frac := "";
            BigNumber.lit_exp := digits_value 10 k |}.
Proof.
  intros H Hk.
  destruct (exponent_text_head s k H) as (c & r & E & Hc & _).
  unfold BigNumber.scan_numeric.
  assert (Hminus : BigNumber.take_minus (s ++ String "e" k)
                   = (false, s ++ String "e" k)).
  { rewrite E. simpl. now rewrite (digit_not_minus c Hc). }
  rewrite Hminus.
  rewrite (span_app_stop is_digit s "e" k (digit_string_chars s H) eq_refl).
  change (Ascii.eqb "e" ".") with false. cbv iota.
  rewrite (digit_string_truthy s H). cbn [orb].
  unfold BigNumber.scan_exponent.
  change (Ascii.eqb "e" "e" || Ascii.eqb "e" "E") with true. cbv iota.
  rewrite (take_sign_digits k Hk).
  rewrite (digit_string_truthy k Hk), (digit_string_chars k Hk). cbn [andb].
  do 3 f_equal. lia.
Qed.

(** The value the constructor gives to digits [s] with exponent digits [k]:
    the digits shifted by the exponent, zero when the digits are all zero,
    plus infinity when the result is beyond the exponent range. *)
Lemma new_exponent_text s k :
  digit_string s = true -> digit_string k = true ->
  let v := digits_value 10 s in
  let n := digits_value 10 k in
  (0 < v /\ BigNumber.new (s ++ String "e" k) = BigNumber.Finite v n)
  \/ (v = 0 /\ BigNumber.new (s ++ String "e" k) = BigNumber.Finite 0 0)
  \/ (0 < v /\ BigNumber.new (s ++ String "e" k) = BigNumber.Infinity false
      /\ 10 ^ BigNumber.MAX_EXP <= v * 10 ^ n).
Proof.
  intros H Hk v n. subst v n.
  unfold BigNumber.new. cbn [BigNumber.new_with_fuel].
  rewrite (scan_numeric_exponent_text s k H Hk).
  unfold BigNumber.of_literal.
  cbn [BigNumber.lit_negative BigNumber.lit_int BigNumber.lit_frac
       BigNumber.lit_exp].
  rewrite app_empty_r.
  pose proof (digits_value_nonneg 10 k) as Hn.
  destruct (span BigNumber.is_zero_digit s) as [zeros significant] eqn:E.
  pose proof (span_app _ _ _ _ E) as Hs.
  pose proof (span_prefix _ _ _ _ E) as Hz.
  assert (Hval : digits_value 10 s = digits_value 10 significant).
  { unfold digits_value. rewrite Hs.
    now rewrite (digits_from_leading_zeros 10 zeros significant Hz). }
  assert (Hlen : Z.of_nat (String.length s)
                 = Z.of_nat (String.length zeros)
                   + Z.of_nat (String.length significant)).
  { rewrite Hs, length_app. lia. }
  destruct significant as [|c r].
  - right; left. cbn [truthy]. split; [|reflexivity].
    rewrite Hval. reflexivity.
  - cbn [truthy]. cbn [String.length] in Hlen.
    assert (Hc : is_digit c = true).
    { pose proof (digit_string_chars s H) as Hd. rewrite Hs in Hd.
      rewrite forall_chars_app in Hd. apply andb_true_iff in Hd as [_ Hd].
      simpl in Hd. now apply andb_true_iff in Hd. }
    pose proof (span_rest _ _ _ _ _ E) as Hnz.
    pose proof (digits_from_lower_bound c r Hc Hnz) as Hlow.
    apply N2Z.inj_le in Hlow. rewrite N2Z.inj_pow, nat_N_Z in Hlow.
    change (Z.of_N 10) with 10 in Hlow.
    fold (digits_value 10 (String c r)) in Hlow. rewrite <- Hval in Hlow.
    assert (Hpos : 0 < digits_value 10 s).
    { eapply Z.lt_le_trans; [|exact Hlow]. apply Z.pow_pos_nonneg; lia. }
    destruct (BigNumber.MAX_EXP <? _) eqn:Hover.
    + right; right. split; [exact Hpos|]. split; [reflexivity|].
      apply Z.ltb_lt in Hover.
      eapply Z.le_trans;
        [|apply Z.mul_le_mono_nonneg_r; [apply Z.pow_nonneg; lia | exact Hlow]].
      rewrite <- Z.pow_add_r by lia.
      apply Z.pow_le_mono_r; lia.
    + destruct (_ <? BigNumber.MIN_EXP) eqn:Hunder.
      * apply Z.ltb_lt in Hunder. unfold BigNumber.MIN_EXP in Hunder. lia.
      * left. split; [exact Hpos|]. unfold BigNumber.signed.
        f_equal. cbn [String.length Z.of_nat]. lia.
Qed.

(** ** A negative plain numeral *)

Lemma scan_numeric_negative s :
  digit_string s = true ->
  BigNumber.scan_numeric (String "-" s)
  = Some {| BigNumber.lit_negative := true; BigNumber.lit_int := s;
            BigNumber.lit_frac := ""; BigNumber.lit_exp := 0 |}.
Proof.
  intros H. unfold BigNumber.scan_numeric. cbn [BigNumber.take_minus].
  change (Ascii.eqb "-" "-") with true. cbv iota.
  rewrite (span_all is_digit s (digit_string_chars s H)).
  rewrite (digit_string_truthy s H). reflexivity.
Qed.

Lemma new_negative s :
  digit_string s = true ->
  BigNumber.new (String "-" s) = BigNumber.Finite (- digits_value 10 s) 0
  \/ (BigNumber.new (String "-" s) = BigNumber.Infinity true
      /\ BigNumber.MAX_EXP < Z.of_nat (String.length s)).
Proof.
  intros H. unfold BigNumber.new. cbn [BigNumber.new_with_fuel].
  rewrite (scan_numeric_negative s H).
  unfold BigNumber.of_literal.
  cbn [BigNumber.lit_negative BigNumber.lit_int BigNumber.lit_frac
       BigNumber.lit_exp].
  rewrite app_empty_r.
  destruct (span BigNumber.is_zero_digit s) as [zeros significant] eqn:E.
  pose proof (span_app _ _ _ _ E) as Hs.
  pose proof (span_prefix _ _ _ _ E) as Hz.
  assert (Hval : digits_value 10 s = digits_value 10 significant).
  { unfold digits_value. rewrite Hs.
    now rewrite (digits_from_leading_zeros 10 zeros significant Hz). }
  assert (Hlen : Z.of_nat (String.length s)
                 = Z.of_nat (String.length zeros)
                   + Z.of_nat (String.length significant)).
  { rewrite Hs, length_app. lia. }
  destruct significant as [|c r].
  - left. cbn [truthy]. rewrite Hval. reflexivity.
  - cbn [truthy]. cbn [String.length] in Hlen.
    destruct (BigNumber.MAX_EXP <? _) eqn:Hover.
    + right. split; [reflexivity|]. apply Z.ltb_lt in Hover. lia.
    + destruct (_ <? BigNumber.MIN_EXP) eqn:Hunder.
      * apply Z.ltb_lt in Hunder. unfold BigNumber.MIN_EXP in Hunder. lia.
      * left. reflexivity.
Qed.

End NumeralFacts.

Import NumeralFacts.

(** ** Amounts as strings *)

(** X8. The amount string handed to [createPostageBatch] and to
    [depositTokens] is the decimal numeral of the amount: [BigInt] reads it
    back as the same amount, for every amount, so what [submit] sends
    denotes the bigint it converted the stored amount to.  For a positive
    amount the string is plain digits. *)
Theorem X8_amount_string_round_trip (z : Z) :
  StringToBigInt (BigInt_toString z) = Some z
  /\ BigInt (BigInt_toString z) = inr z
  /\ (0 < z -> digit_string (BigInt_toString z) = true
               /\ digits_value 10 (BigInt_toString z) = z)
  /\ (forall text, BigInt text = inr z ->
        BigInt (BigInt_toString z) = BigInt text).
Proof.
  pose proof (StringToBigInt_toString z) as H.
  assert (Hb : BigInt (BigInt_toString z) = inr z)
    by (unfold BigInt; now rewrite H).
  split; [exact H|]. split; [exact Hb|]. split.
  - intros Hz. destruct z as [|p|p]; try lia. apply toString_positive.
  - intros text Ht. now rewrite Hb, Ht.
Qed.

Lemma X8_amount_string_round_trip_witness :
  BigInt " 0x1F " = inr 31
  /\ BigInt_toString 31 = "31"
  /\ BigInt (BigInt_toString 31) = BigInt " 0x1F "
  /\ digit_string (BigInt_toString 31) = true.
Proof.
  destruct (X8_amount_string_round_trip 31) as (_ & _ & Hpos & Hback).
  split; [reflexivity|]. split; [reflexivity|].
  split; [apply Hback; reflexivity|]. apply Hpos. lia.
Defined.

(** ** What validation lets through *)

(** X14. A depth in exponent notation, digits [s] then [e] then digits [k],
    whose value [s * 10 ^ k] is from 17 to 255, is accepted and stored as
    typed; but [submit] and the file-size line read the stored text with
    [parseInt], which stops at the [e]: the depth sent to the node is [s],
    not the validated value, and the file-size line shows the placeholder
    when [s] is below 17. *)
Theorem X14_depth_in_exponent_notation (U : Utils) (st : State)
    (s k : string) :
  digit_string s = true -> digit_string k = true ->
  let v := digits_value 10 s in
  let n := digits_value 10 k in
  let text := s ++ String "e" k in
  let st' := validateDepthInput text st in
  17 <= v * 10 ^ n <= 255 ->
  depthError st' = "" /\ depthInput st' = text
  /\ BigNumber.new text = BigNumber.Finite v n
  /\ (forall amount,
        create_event st' amount
        = CreatePostageBatch (BigInt_toString amount) (Num v)
            (postageBatchOptions st))
  /\ fileSizeDisplay U st' = getFileSize U (Num v)
  /\ (v < 17 -> fileSizeDisplay U st' = "-").
Proof.
  intros H Hk v n text st' Hrange. subst v n text st'.
  pose proof (digits_value_nonneg 10 k) as Hn.
  assert (Hnew : BigNumber.new (s ++ String "e" k)
                 = BigNumber.Finite (digits_value 10 s) (digits_value 10 k)).
  { destruct (new_exponent_text s k H Hk)
      as [(_ & E) | [(Hz & _) | (_ & _ & Hbig)]]; [exact E | |].
    - rewrite Hz in Hrange. lia.
    - pose proof pow_MAX_EXP_large as Hl.
      revert Hbig Hl. generalize (10 ^ BigNumber.MAX_EXP). intros; lia. }
  assert (Hne : s ++ String "e" k <> "").
  { destruct s; discriminate. }
  assert (Hpreds :
    BigNumber.isInteger (BigNumber.new (s ++ String "e" k)) = true
    /\ BigNumber.isLessThan (BigNumber.new (s ++ String "e" k)) 17 = false
    /\ BigNumber.isGreaterThan (BigNumber.new (s ++ String "e" k)) 255
       = false).
  { rewrite Hnew.
    unfold BigNumber.isInteger, BigNumber.isLessThan, BigNumber.isGreaterThan,
      BigNumber.comparedTo.
    destruct (Z.leb_spec 0 (digits_value 10 k)); [|lia]. cbn [orb].
    revert Hrange.
    generalize (digits_value 10 s * 10 ^ digits_value 10 k). intros p Hp.
    split; [reflexivity|].
    destruct (Z.compare_spec p 17), (Z.compare_spec p 255);
      split; reflexivity || lia. }
  destruct Hpreds as (Hi & Hlt & Hgt).
  destruct (validateDepthInput_cases (s ++ String "e" k) st)
    as [(E & _) | [(_ & Hx & _) | [(_ & _ & Hx & _)
       | [(_ & _ & _ & Hx & _) | (_ & _ & _ & _ & He & Hs)]]]];
    try congruence.
  destruct (validateDepthInput_frame (s ++ String "e" k) st)
    as (_ & _ & Hlabel & Himm & _).
  cbv zeta in Hlabel, Himm.
  assert (Hdisplay :
    fileSizeDisplay U (validateDepthInput (s ++ String "e" k) st)
    = getFileSize U (Num (digits_value 10 s))).
  { unfold fileSizeDisplay. rewrite He, Hs.
    rewrite (truthy_of_nonempty _ Hne). cbn [truthy negb andb].
    now rewrite (parseInt_exponent_text s k 10 H (or_intror eq_refl)). }
  split; [exact He|]. split; [exact Hs|]. split; [exact Hnew|].
  split; [|split; [exact Hdisplay|]].
  - intros amount. unfold create_event, postageBatchOptions.
    rewrite Hs, Hlabel, Himm.
    now rewrite (parseInt_exponent_text s k 0 H (or_introl eq_refl)).
  - intros Hv. rewrite Hdisplay. unfold getFileSize. cbn [isNaN num_lt orb].
    destruct (Z.ltb_spec (digits_value 10 s) 17); [reflexivity | lia].
Qed.

Lemma X14_depth_in_exponent_notation_witness :
  let st' := validateDepthInput "2e1" initial in
  (digit_string "2" = true /\ digit_string "1" = true
   /\ 17 <= digits_value 10 "2" * 10 ^ digits_value 10 "1" <= 255)
  /\ depthError st' = ""
  /\ create_event st' 480000
     = CreatePostageBatch "480000" (Num 2) (postageBatchOptions initial)
  /\ fileSizeDisplay sample_utils st' = "-".
Proof.
  cbv zeta.
  destruct (X14_depth_in_exponent_notation sample_utils initial "2" "1"
              eq_refl eq_refl)
    as (He & _ & _ & Hsent & _ & Hsize); [cbn; lia|].
  split; [split; [reflexivity | split; [reflexivity | cbn; lia]]|].
  split; [exact He|]. split; [apply Hsent|]. apply Hsize. cbn. lia.
Defined.

(** X15. Every amount in exponent notation, digits [s] with a value above
    0, then [e], then digits [k], is accepted by the amount validation and
    stored as typed, and [BigInt] throws on it: a submission with this
    stored amount ends in the catch block without calling the node. *)
Theorem X15_amount_in_exponent_notation (st : State) (s k : string) :
  digit_string s = true -> digit_string k = true ->
  0 < digits_value 10 s ->
  let text := s ++ String "e" k in
  let st' := validateAmountInput text st in
  amountError st' = "" /\ amountInput st' = text
  /\ BigInt text = inl (BigInt_SyntaxError text)
  /\ (forall W, beeDebugApi W <> None -> depthInput st <> "" ->
        submit W st'
        = (SetSubmitting true :: report (BigInt_SyntaxError text),
           Eff.Normal tt)).
Proof.
  intros H Hk Hpos text st'. subst text st'.
  pose proof (digits_value_nonneg 10 k) as Hn.
  assert (Hok :
    BigNumber.isNaN (BigNumber.new (s ++ String "e" k)) = false
    /\ BigNumber.isLessThanOrEqualTo (BigNumber.new (s ++ String "e" k)) 0
       = false).
  { destruct (new_exponent_text s k H Hk)
      as [(_ & E) | [(Hz & _) | (_ & E & _)]]; [| lia |].
    - rewrite E. split; [reflexivity|].
      unfold BigNumber.isLessThanOrEqualTo, BigNumber.comparedTo.
      destruct (Z.leb_spec 0 (digits_value 10 k)); [|lia].
      assert (Hp : 0 < digits_value 10 s * 10 ^ digits_value 10 k).
      { apply Z.mul_pos_pos; [exact Hpos|]. apply Z.pow_pos_nonneg; lia. }
      revert Hp.
      generalize (digits_value 10 s * 10 ^ digits_value 10 k). intros p Hp.
      destruct (Z.compare_spec p 0); reflexivity || lia.
    - rewrite E. split; reflexivity. }
  destruct Hok as (Hnan & Hle).
  pose proof (indexOf_exponent_text s k H Hk) as Hdot.
  assert (Hbig : BigInt (s ++ String "e" k)
                 = inl (BigInt_SyntaxError (s ++ String "e" k))).
  { unfold BigInt. now rewrite (StringToBigInt_exponent_text s k H Hk). }
  destruct (validateAmountInput_cases (s ++ String "e" k) st)
    as [(E & _) | [(_ & Hx & _) | [(_ & _ & Hx & _)
       | [(_ & _ & _ & Hx & _) | (Hne & _ & _ & _ & He & Hs)]]]];
    try congruence; try lia.
  { destruct s; discriminate E. }
  split; [exact He|]. split; [exact Hs|]. split; [exact Hbig|].
  intros W Hapi Hd.
  destruct (validateAmountInput_frame (s ++ String "e" k) st) as (Hdepth & _).
  cbv zeta in Hdepth.
  apply submit_amount_throws; rewrite ?Hdepth, ?Hs; assumption.
Qed.

Lemma X15_amount_in_exponent_notation_witness :
  let st := validateDepthInput "20" initial in
  (digit_string "5" = true /\ digit_string "3" = true
   /\ 0 < digits_value 10 "5")
  /\ amountError (validateAmountInput "5e3" st) = ""
  /\ submit sample_world (validateAmountInput "5e3" st)
     = (SetSubmitting true :: report (BigInt_SyntaxError "5e3"),
        Eff.Normal tt).
Proof.
  cbv zeta.
  destruct (X15_amount_in_exponent_notation
              (validateDepthInput "20" initial) "5" "3" eq_refl eq_refl)
    as (He & _ & _ & Hsubmit); [cbn; lia|].
  split; [split; [reflexivity | split; [reflexivity | cbn; lia]]|].
  split; [exact He|]. apply Hsubmit; discriminate.
Defined.

(** X16. A negative plain numeral, a minus and digits, is rejected by both
    validations: as an amount with the error ["Amount must be greater than
    0"], whatever the digits; as a depth with the error ["Minimal depth is
    17"], for digits within the exponent range of the parser.  The stored
    value is ["0"] in both cases. *)
Theorem X16_negative_numerals_rejected (st : State) (s : string) :
  digit_string s = true ->
  let text := String "-" s in
  (amountError (validateAmountInput text st) = "Amount must be greater than 0"
   /\ amountInput (validateAmountInput text st) = "0")
  /\ (Z.of_nat (String.length s) <= BigNumber.MAX_EXP ->
      depthError (validateDepthInput text st) = "Minimal depth is 17"
      /\ depthInput (validateDepthInput text st) = "0").
Proof.
  intros H text. subst text.
  pose proof (digits_value_nonneg 10 s) as Hv.
  split.
  - assert (Hok : BigNumber.isNaN (BigNumber.new (String "-" s)) = false
                  /\ BigNumber.isLessThanOrEqualTo
                       (BigNumber.new (String "-" s)) 0 = true).
    { destruct (new_negative s H) as [E | (E & _)]; rewrite E.
      - split; [reflexivity|].
        unfold BigNumber.isLessThanOrEqualTo. rewrite comparedTo_integer.
        destruct (Z.compare_spec (- digits_value 10 s) 0);
          reflexivity || lia.
      - split; reflexivity. }
    destruct Hok as (Hnan & Hle).
    assert (Hdot : indexOf "." (String "-" s) = -1).
    { cbn [indexOf]. change (Ascii.eqb "-" ".") with false. cbv iota.
      now rewrite (digits_no_dot s (digit_string_chars s H)). }
    destruct (validateAmountInput_cases (String "-" s) st)
      as [(E & _) | [(_ & Hx & _) | [(_ & _ & Hx & _)
         | [(_ & _ & _ & _ & He & Hs) | (_ & _ & _ & Hx & _)]]]];
      try congruence; try lia.
    now split.
  - intros Hlen.
    assert (Hnew : BigNumber.new (String "-" s)
                   = BigNumber.Finite (- digits_value 10 s) 0).
    { destruct (new_negative s H) as [E | (_ & Hbig)]; [exact E | lia]. }
    assert (Hi : BigNumber.isInteger (BigNumber.new (String "-" s)) = true)
      by now rewrite Hnew.
    assert (Hlt : BigNumber.isLessThan (BigNumber.new (String "-" s)) 17
                  = true).
    { rewrite Hnew. unfold BigNumber.isLessThan.
      rewrite comparedTo_integer.
      destruct (Z.compare_spec (- digits_value 10 s) 17);
        reflexivity || lia. }
    destruct (validateDepthInput_cases (String "-" s) st)
      as [(E & _) | [(_ & Hx & _) | [(_ & _ & _ & He & Hs)
         | [(_ & _ & Hx & _) | (_ & _ & Hx & _)]]]];
      try congruence.
    now split.
Qed.

Lemma X16_negative_numerals_rejected_witness :
  digit_string "42" = true
  /\ amountError (validateAmountInput "-42" initial)
     = "Amount must be greater than 0"
  /\ depthError (validateDepthInput "-42" initial) = "Minimal depth is 17".
Proof.
  destruct (X16_negative_numerals_rejected initial "42" eq_refl)
    as ((Ha & _) & Hd).
  split; [reflexivity|]. split; [exact Ha|].
  apply Hd. unfold BigNumber.MAX_EXP. cbn. lia.
Defined.

(** ** Reachable states of the form *)

Lemma reachable_depth_cells actions :
  let st := handle_all actions initial in
  (depthInput st = "" /\ depthError st = ""
   /\ existsb edits_depth actions = false)
  \/ (depthInput st = "0" /\ depthError st <> "")
  \/ (depthError st = "" /\ depth_accepted (depthInput st)
      /\ In (EditDepth (depthInput st)) actions).
Proof.
  cbv zeta. induction actions as [|a l IH] using rev_ind.
  - left. now repeat split.
  - rewrite handle_all_snoc.
    assert (Hkeep : depthInput (handle a (handle_all l initial))
                    = depthInput (handle_all l initial)
                    /\ depthError (handle a (handle_all l initial))
                       = depthError (handle_all l initial) ->
                    edits_depth a = false ->
      (depthInput (handle a (handle_all l initial)) = ""
       /\ depthError (handle a (handle_all l initial)) = ""
       /\ existsb edits_depth (l ++ [a]) = false)
      \/ (depthInput (handle a (handle_all l initial)) = "0"
          /\ depthError (handle a (handle_all l initial)) <> "")
      \/ (depthError (handle a (handle_all l initial)) = ""
          /\ depth_accepted (depthInput (handle a (handle_all l initial)))
          /\ In (EditDepth (depthInput (handle a (handle_all l initial))))
                (l ++ [a]))).
    { intros (E1 & E2) Ha. rewrite E1, E2, existsb_app. cbn [existsb].
      rewrite Ha.
      destruct IH as [(H1 & H2 & H3) | [(H1 & H2) | (H1 & H2 & H3)]].
      - left. rewrite H3. now repeat split.
      - right; left. now split.
      - right; right. split; [exact H1|]. split; [exact H2|].
        apply in_or_app. now left. }
    destruct a as [v | v | v | v].
    + apply Hkeep; [now split | reflexivity].
    + apply Hkeep; [now split | reflexivity].
    + cbn [handle].
      destruct (validateDepthInput_cases v (handle_all l initial))
        as [(_ & He & Hs) | [(_ & _ & He & Hs) | [(_ & _ & _ & He & Hs)
           | [(_ & _ & _ & _ & He & Hs) | (Hne & Hi & Hlt & Hgt & He & Hs)]]]];
        try (right; left; rewrite He, Hs; split; [reflexivity | discriminate]).
      right; right. rewrite He, Hs. split; [reflexivity|].
      split; [now repeat split|].
      apply in_or_app. right. now left.
    + apply Hkeep; [|reflexivity]. cbn [handle].
      destruct (validateAmountInput_frame v (handle_all l initial))
        as (E1 & E2 & _). now split.
Qed.

Lemma reachable_amount_cells actions :
  let st := handle_all actions initial in
  (amountInput st = "" /\ amountError st = ""
   /\ existsb edits_amount actions = false)
  \/ (amountInput st = "0" /\ amountError st <> "")
  \/ (amountError st = "" /\ amount_accepted (amountInput st)
      /\ In (EditAmount (amountInput st)) actions).
Proof.
  cbv zeta. induction actions as [|a l IH] using rev_ind.
  - left. now repeat split.
  - rewrite handle_all_snoc.
    assert (Hkeep : amountInput (handle a (handle_all l initial))
                    = amountInput (handle_all l initial)
                    /\ amountError (handle a (handle_all l initial))
                       = amountError (handle_all l initial) ->
                    edits_amount a = false ->
      (amountInput (handle a (handle_all l initial)) = ""
       /\ amountError (handle a (handle_all l initial)) = ""
       /\ existsb edits_amount (l ++ [a]) = false)
      \/ (amountInput (handle a (handle_all l initial)) = "0"
          /\ amountError (handle a (handle_all l initial)) <> "")
      \/ (amountError (handle a (handle_all l initial)) = ""
          /\ amount_accepted (amountInput (handle a (handle_all l initial)))
          /\ In (EditAmount (amountInput (handle a (handle_all l initial))))
                (l ++ [a]))).
    { intros (E1 & E2) Ha. rewrite E1, E2, existsb_app. cbn [existsb].
      rewrite Ha.
      destruct IH as [(H1 & H2 & H3) | [(H1 & H2) | (H1 & H2 & H3)]].
      - left. rewrite H3. now repeat split.
      - right; left. now split.
      - right; right. split; [exact H1|]. split; [exact H2|].
        apply in_or_app. now left. }
    destruct a as [v | v | v | v].
    + apply Hkeep; [now split | reflexivity].
    + apply Hkeep; [now split | reflexivity].
    + apply Hkeep; [|reflexivity]. cbn [handle].
      destruct (validateDepthInput_frame v (handle_all l initial))
        as (E1 & E2 & _). now split.
    + cbn [handle].
      destruct (validateAmountInput_cases v (handle_all l initial))
        as [(_ & He & Hs) | [(_ & _ & He & Hs) | [(_ & _ & _ & He & Hs)
           | [(_ & _ & _ & _ & He & Hs) | (Hne & Hi & Hlt & Hgt & He & Hs)]]]];
        try (right; left; rewrite He, Hs; split; [reflexivity | discriminate]).
      right; right. rewrite He, Hs. split; [reflexivity|].
      split; [now repeat split|].
      apply in_or_app. right. now left.
Qed.

Lemma reachable_not_submitting actions :
  submitting (handle_all actions initial) = false.
Proof.
  induction actions as [|a l IH] using rev_ind; [reflexivity|].
  rewrite handle_all_snoc. destruct a as [v | v | v | v]; cbn [handle].
  - exact IH.
  - exact IH.
  - destruct (validateDepthInput_frame v (handle_all l initial))
      as (_ & _ & _ & _ & E). now rewrite E.
  - destruct (validateAmountInput_frame v (handle_all l initial))
      as (_ & _ & _ & _ & E). now rewrite E.
Qed.

(** X10. In every state of the form reached by edits from the initial one,
    the two cells of an input are in one of three states: never edited (both
    empty); rejected (the stored input is ["0"] and the error is set); or
    accepted (no error, and the stored input is a text that was typed and
    that the validation accepts).  So whenever the submit button is enabled,
    the stored depth and the stored amount are accepted texts that the user
    typed. *)
Theorem X10_reachable_states (actions : list Action) :
  let st := handle_all actions initial in
  submitting st = false
  /\ ((depthInput st = "" /\ depthError st = ""
       /\ existsb edits_depth actions = false)
      \/ (depthInput st = "0" /\ depthError st <> "")
      \/ (depthError st = "" /\ depth_accepted (depthInput st)
          /\ In (EditDepth (depthInput st)) actions))
  /\ ((amountInput st = "" /\ amountError st = ""
       /\ existsb edits_amount actions = false)
      \/ (amountInput st = "0" /\ amountError st <> "")
      \/ (amountError st = "" /\ amount_accepted (amountInput st)
          /\ In (EditAmount (amountInput st)) actions))
  /\ (submitDisabled st = false ->
      depth_accepted (depthInput st) /\ amount_accepted (amountInput st)
      /\ In (EditDepth (depthInput st)) actions
      /\ In (EditAmount (amountInput st)) actions).
Proof.
  cbv zeta.
  pose proof (reachable_depth_cells actions) as Hd.
  pose proof (reachable_amount_cells actions) as Ha.
  cbv zeta in Hd, Ha.
  split; [apply reachable_not_submitting|].
  split; [exact Hd|]. split; [exact Ha|].
  intros H. unfold submitDisabled in H.
  apply orb_false_iff in H as [H H5]. apply orb_false_iff in H as [H H4].
  apply orb_false_iff in H as [H H3]. apply orb_false_iff in H as [H1 H2].
  apply negb_false_iff, truthy_true in H4, H5.
  apply truthy_false in H2, H3.
  destruct Hd as [(E & _) | [(_ & E) | (_ & Hdacc & Hdin)]];
    [contradiction | contradiction |].
  destruct Ha as [(E & _) | [(_ & E) | (_ & Haacc & Hain)]];
    [contradiction | contradiction |].
  split; [exact Hdacc|]. split; [exact Haacc|]. split; assumption.
Qed.

Lemma X10_reachable_states_witness :
  let actions :=
    [EditDepth "abc"; EditAmount "7"; EditLabel "x"; EditDepth "0x11"] in
  let st := handle_all actions initial in
  submitDisabled st = false
  /\ depthInput st = "0x11"
  /\ depth_accepted (depthInput st)
  /\ amount_accepted (amountInput st).
Proof.
  cbv zeta.
  destruct (X10_reachable_states
              [EditDepth "abc"; EditAmount "7"; EditLabel "x";
               EditDepth "0x11"]) as (_ & _ & _ & H).
  destruct (H eq_refl) as (Hd & Ha & _).
  split; [reflexivity|]. split; [reflexivity|]. split; [exact Hd | exact Ha].
Defined.

(** X11. For plain decimal inputs the node is asked for what was validated:
    after typing a depth from 17 to 255 and an amount above 0 as plain
    digits, in either order, into a form with no submission in flight, the
    button is enabled, and with an API client a click sets the flag and then
    calls [createPostageBatch] with the amount in decimal without leading
    zeros, the depth as typed, and the label and immutability of the form. *)
Theorem X11_plain_decimals_end_to_end (W : World) (st : State)
    (depthText amountText : string) (api : BeeDebugApi) :
  digit_string depthText = true -> digit_string amountText = true ->
  17 <= digits_value 10 depthText <= 255 ->
  0 < digits_value 10 amountText ->
  submitting st = false ->
  beeDebugApi W = Some api ->
  let st' := handle (EditAmount amountText) (handle (EditDepth depthText) st) in
  st' = handle (EditDepth depthText) (handle (EditAmount amountText) st)
  /\ submitDisabled st' = false
  /\ exists rest,
       click W st'
       = (SetSubmitting true
          :: CreatePostageBatch
               (BigInt_toString (digits_value 10 amountText))
               (Num (digits_value 10 depthText))
               (postageBatchOptions st)
          :: rest, Eff.Normal tt).
Proof.
  intros Hd Ha Hdr Har Hsub Hapi st'. subst st'. cbn [handle].
  split; [apply validations_commute|].
  destruct (depth_digits_verdict depthText st Hd) as (_ & Hok & _).
  destruct (Hok Hdr) as (Hde & Hds).
  destruct (amount_digits_accepted amountText
              (validateDepthInput depthText st) Ha Har) as (Hae & Has).
  destruct (validateAmountInput_frame amountText
              (validateDepthInput depthText st))
    as (F1 & F2 & F3 & F4 & F5). cbv zeta in F1, F2, F3, F4, F5.
  destruct (validateDepthInput_frame depthText st)
    as (_ & _ & G3 & G4 & G5). cbv zeta in G3, G4, G5.
  remember (validateAmountInput amountText (validateDepthInput depthText st))
    as st2 eqn:Est2.
  assert (Hen : submitDisabled st2 = false).
  { unfold submitDisabled. rewrite F5, G5, Hsub, F2, Hde, Hae, F1, Hds, Has.
    rewrite (digit_string_truthy _ Hd), (digit_string_truthy _ Ha).
    reflexivity. }
  split; [exact Hen|].
  unfold click. rewrite Hen.
  assert (Hdne : depthInput st2 <> "").
  { rewrite F1, Hds. apply truthy_true, digit_string_truthy, Hd. }
  assert (Hane : amountInput st2 <> "").
  { rewrite Has. apply truthy_true, digit_string_truthy, Ha. }
  destruct (submit_runs W st2 Hdne Hane) as (tr & E & Hrun); [congruence|].
  assert (Hbig : BigInt (amountInput st2)
                 = inr (digits_value 10 amountText)).
  { rewrite Has. now apply BigInt_digits. }
  assert (Hev : forall amount,
            BigInt (amountInput st2) = inr amount ->
            create_event st2 amount
            = CreatePostageBatch
                (BigInt_toString (digits_value 10 amountText))
                (Num (digits_value 10 depthText))
                (postageBatchOptions st)).
  { intros amount Hamt. rewrite Hbig in Hamt. inversion Hamt; subst amount.
    unfold create_event, postageBatchOptions.
    rewrite F1, Hds, F3, G3, F4, G4.
    now rewrite (parseInt_digits_no_radix _ Hd). }
  rewrite E. clear Est2.
  inversion Hrun; subst tr;
    try (match goal with
         | H : BigInt (amountInput st2) = inr _ |- _ =>
             rewrite (Hev _ H)
         end; eexists; reflexivity).
  congruence.
Qed.

Lemma X11_plain_decimals_end_to_end_witness :
  let st := handle (EditLabel "backup") initial in
  (digit_string "020" = true /\ digit_string "00480000" = true
   /\ 17 <= digits_value 10 "020" <= 255 /\ 0 < digits_value 10 "00480000")
  /\ exists rest,
       click sample_world
         (handle (EditAmount "00480000") (handle (EditDepth "020") st))
       = (SetSubmitting true
          :: CreatePostageBatch "480000" (Num 20)
               {| waitForUsable := false; label := Some "backup";
                  immutableFlag := false |}
          :: rest, Eff.Normal tt).
Proof.
  cbv zeta.
  destruct (X11_plain_decimals_end_to_end sample_world
              (handle (EditLabel "backup") initial) "020" "00480000"
              sample_api eq_refl eq_refl)
    as (_ & _ & Hclick);
    [cbn; lia | cbn; lia | reflexivity | reflexivity |].
  split; [repeat split; cbn; lia|]. exact Hclick.
Defined.
